(* ===== verification/_CoqProject ===== *)
-Q . S2P
Prelude.v
PyStr.v
Ctime.v
GenericPath.v
PosixPath.v
NtPath.v
Fnmatch.v
FileSystem.v
Glob.v
Settings.v
Reconcile.v
Loop.v
Trace.v
Scenario.v
Windows.v
