(* ===== verification/Prelude.v ===== *)
(** * A verification development for [src/shaders/mesh_update.py]

    The program is a single Python 2 script that keeps a directory of
    meshes in step with a directory of Cinema 4D scenes.  It has three
    parts, run in this order:

    - the configuration (lines 9-35): the table [SETTINGS] maps a
      platform name to a dict of directories and a converter path; the
      platform of the host selects an entry, which is validated and whose
      directories are normalised with [os.path.normpath];
    - the library calls it leans on: [os.path] ([split], [splitext],
      [join], [normpath], [normcase]), [glob.glob] with [fnmatch], the
      file system ([os.listdir], [os.path.getmtime]), [time.sleep],
      [print] and [subprocess.call];
    - the reconciliation loop (lines 37-54): for every [*.c4d] file of the
      input directory it computes the mesh name
      [join(output_dir, head) + '.boba'], compares modification times and
      calls the converter when the mesh is missing or older; then it
      sleeps one second and starts again, forever.

    ** Files, in dependency order

    - [Prelude] (this file): Python exceptions [PyExc], the state and
      error monad [PyM S A := S -> Res S A] (a result is [ROk], [RExit]
      for [exit(n)] or [RRaise] for an uncaught exception) with its
      notation in [py_scope], [exit_status] (status of the process), the
      hint databases [py] and [py_rw], shared list lemmas and the tactic [case_zbool].
    - [PyStr]: the [str] methods the library code uses ([rfind],
      [startswith], [endswith], [lstrip], [rstrip], [split], [join]) on
      strings as [list ascii], each characterised by a lemma on list
      concatenation; [split]/[join] round trip.
    - [Ctime]: [Module Ctime], [time.ctime()] of line 52: CPython 2.7's
      [time_ctime] (the [p[24]] newline test, [ValueError] as [None])
      over C's [ctime]: [localtime] at a fixed offset from UTC, [gmtime]
      on the POSIX calendar ([civil_from_days], counted in 400-year eras
      of 146097 days, checked against POSIX's day count [posix_days]),
      and glibc's [asctime] with its [printf]
      conversions ([fmt_d], [fmt_3d], [fmt_02d]).
    - [GenericPath]: [genericpath._splitext], and the interface of an
      [os.path] module: the class [PathModule] (operations) and
      [PathModuleLaws] (what the script's proofs need of them).  The
      script and its theorems are stated against this interface.
    - [PosixPath]: [Module PosixPath], CPython 2.7's [posixpath] [split],
      [join], [splitext], [normpath], [normcase]; the instance
      [posix_path] and the proof of its laws [posix_path_laws].
    - [NtPath]: [Module NtPath], CPython 2.7.18's [ntpath]
      [splitdrive] (drive letters and UNC shares), [split], [join] (its
      general [*paths] form), [splitext], [normpath] and [normcase]; the
      index-and-delete loop of [normpath] is proved equal to a left fold
      ([norm_ref]); [nt_path] and [nt_path_laws], for directories with a
      drive letter ([good_dir]).
    - [Fnmatch]: [fnmatch.translate] (its loop [translate_go] with fuel),
      the compilation of the regular expression it denotes ([compile],
      [re.error] on a bad range as [None]), backtracking matching
      ([rmatch]) and [fnmatch.filter].
    - [FileSystem]: the world the script observes and changes: the
      record [World] (files with times and directory listings, the clock,
      stdout, the processes started), [print], [sleep], [py_getmtime],
      [subprocess_call]; the converter is a parameter [Converter], with
      the properties [writes_only], [writes_output], [starts] a
      well-behaved one has, and a concrete [exporter].
    - [Glob]: [glob.glob] of CPython 2.7 ([glob1], [glob0], [iglob]).
    - [Settings]: [SETTINGS], the builtin [dir] tested at line 21, and
      [configure_in], lines 19-35 as one [PyM] computation over a table
      ([configure] reads [SETTINGS]).
    - [Reconcile]: the loop: [mesh_name_of] (lines 41-43),
      [should_convert] (lines 44-49), [process_file] (lines 39-53),
      [scan_pass] (lines 38-54); the abstract
      specification [stale]/[expected_calls] of a pass, and the theorems
      on one pass and on one call of [process_file].
    - [Loop]: [run_loop] ([while True] run for a given number of
      passes) and [main] (the whole script), and the theorems on them:
      every number of passes completes, the loop has an infinite run,
      later passes are quiescent, a failing converter is retried, the
      time and number of processes of a run ([one_second]: a converter
      that runs for one second); [main] on an unknown platform.
    - [Trace]: the well-formedness [log_wf] of stdout against the
      processes started ([announces]: line 52's line for line 53's
      call), kept by every operation of the loop.
    - [Scenario]: [Module Scenario], the concrete POSIX runs on which the
      theorems of [Reconcile], [Loop] and [Trace] are applied (their
      witnesses).
    - [Windows]: the script as configured, on a Windows host
      ([nt_path] installed locally in [Module Windows]): the configured
      directories meet the loop theorems' assumptions, and a concrete run
      of the whole script.

    ** What the theorems show

    - Refinement and invariants of the loop ([Reconcile], [Loop]): a pass starts
      the converter exactly on the stale scenes, in listing order
      ([scan_pass_refines]); after it every scene is up to date
      ([scan_pass_all_fresh]); a second pass right after a completed one
      does nothing but sleep ([scan_pass_idempotent]), and so does every
      later pass ([loop_quiescent], by induction on the passes reached);
      every process started is the converter on a listed [.c4d] scene and
      its mesh ([scan_pass_calls_scenes]); a converter that fails without
      writing is re-run on every pass ([failing_converter_retried]).
    - Each branch of the loop body: conversion of a stale scene, an
      up-to-date mesh left alone (equal times included), the mesh name,
      the exit status ignored, and the error paths: a converter that
      cannot start, a scene that vanishes, an unreadable input directory.
    - Liveness ([Loop]): under a well-behaved converter every number of
      passes completes ([run_loop_completes]); since a pass is a
      function of the world, this is the non-termination of
      [while True].
    - Traces and bounds ([Trace], [Loop]): stdout is a log of the conversions,
      one announcement per process in the same order, after any number
      of passes ([run_loop_log_wf]); [n] passes take at least [n]
      seconds and start at most [n] processes per scene
      ([run_loop_bounds]); with the exporter the clock advances by
      exactly one second per pass and one per conversion
      ([run_loop_time]).
    - Configuration ([Settings], [Loop.main_unknown_platform]):
      Windows is the only platform reaching the loop; Darwin exits with
      its message; for any table, a missing directory or converter exits
      with status 1 and its message, and a complete entry configures; an unknown platform crashes at line 25 because line
      21 tests the builtin [dir] instead of [settings].
    - Library code: [glob(join(d, '*.c4d'))] finds exactly the
      non-hidden [.c4d] entries; [fnmatch.filter] with [*.c4d] is a suffix
      test; [translate]'s loop terminates within [length pat] rounds;
      [posixpath] and [ntpath] [split]/[join] round trips, [splitext],
      the shape of [normpath]'s result, and the termination of
      [ntpath.normpath]'s loop.
    - [time.ctime()] ([Ctime]): [gmtime] is the POSIX calendar: its
      fields are in range, its date exists, POSIX's formula for seconds
      since the epoch ([posix_days], [timegm]) maps it back to the clock,
      and its weekday is the date's ([gmtime_posix]; the facts of one
      400-year era are evaluated day by day, [era_ok], and 400 years are
      146097 days, [posix_days_era]); the string is
      24 characters without newline exactly when the year prints in four
      characters, and ends with a newline otherwise
      ([time_ctime_newline]).
    - The configured program ([Windows]): for every world and every
      well-behaved converter, the first pass of [main] on Windows (the
      table, [ntpath] and the loop together) starts the converter exactly
      on the stale scenes of the configured directory, matched after
      [ntpath.normcase] ([windows_main_first_pass]); over a concrete
      directory [Ship.C4D] is converted once.

    ** Fuel

    [translate_go] consumes at least one character per round, so
    [length pat] rounds suffice ([translate_go_fuel]).  [iglob] recurses
    only on a directory part different from the pattern, which is a
    strictly shorter prefix of it ([pm_split_prefix]), so
    [len(pathname) + 1] rounds suffice ([iglob_fuel]; the [+ 1] is the
    round the empty pattern still takes).  [ntpath.normpath]'s loop
    deletes a component or moves past one in every round, so
    [len(comps)] rounds suffice ([normpath_loop_fuel]).  [run_loop n]
    runs exactly [n] passes of [while True]: a result [ROk] means the
    script is still running after [n] passes, and [run_loop_completes]
    gives one for every [n].

    ** Not modelled

    The loop's theorems are proved for any [os.path] satisfying
    [PathModuleLaws]; [posix_path] and [nt_path] both do, [nt_path] for
    directories with a drive letter (a UNC share root such as
    [\\srv] is not covered: [join] then [split] reads a longer share
    back).  The converter
    program is a parameter.  [platform.system()] is an input of [main];
    [time.ctime()] is modelled for a host at a fixed offset from UTC
    (daylight saving time is not), with glibc's [asctime]; the loop takes
    it as a total function of the clock, so the [ValueError] it raises
    for a year beyond C's [int] is not threaded into [process_file], and
    the Windows run keeps a fixed string (MSVC's C library, which prints
    the day as [%02d], is not modelled).  Times are whole seconds.  Files are keyed by
    the path strings the script builds: the operating system's path
    resolution (case folding, links, [..]) is not modelled.  The unused
    imports [collections] and [pickle] have no effect. *)

From stdpp Require Export base list strings gmap.
From Stdlib Require Export Ascii ZArith Lia.
From Stdlib Require String.

(** Python strings are modelled as lists of characters: Python 2 [str]
    is a byte string, and the list form lets slicing be [take]/[drop]. *)
Abbreviation pystr := (list ascii).

(** A Python string literal. *)
Definition py (s : String.string) : pystr := String.list_ascii_of_string s.

(** ** Python exceptions that the modelled code can raise *)
Inductive PyExc : Type :=
| AttributeError   (** attribute lookup on a value that lacks it *)
| TypeError        (** an operation applied to a value of the wrong type *)
| OSError          (** a failed system call ([os.error]) *)
| ReError.         (** a pattern that does not compile ([re.error]) *)

#[export] Instance PyExc_eq_dec : EqDecision PyExc.
Proof. solve_decision. Qed.

(** ** The state and error monad of the script

    A computation runs on a state [S] and ends in one of three ways:
    normally with a value, by [exit(code)] (Python's [SystemExit]) or by
    an uncaught exception.  The final state is kept in every case, so
    that what was printed or changed before a crash stays observable. *)
Inductive Res (S A : Type) : Type :=
| ROk (s : S) (a : A)
| RExit (s : S) (code : Z)
| RRaise (s : S) (e : PyExc).
Arguments ROk {S A} s a.
Arguments RExit {S A} s code.
Arguments RRaise {S A} s e.

Definition PyM (S A : Type) : Type := S -> Res S A.

Definition pret {S A} (a : A) : PyM S A := fun s => ROk s a.

Definition pbind {S A B} (m : PyM S A) (k : A -> PyM S B) : PyM S B :=
  fun s =>
    match m s with
    | ROk s' a => k a s'
    | RExit s' c => RExit s' c
    | RRaise s' e => RRaise s' e
    end.

Definition praise {S A} (e : PyExc) : PyM S A := fun s => RRaise s e.
Definition pexit {S A} (code : Z) : PyM S A := fun s => RExit s code.
Definition pget {S} : PyM S S := fun s => ROk s s.
Definition pput {S} (s : S) : PyM S unit := fun _ => ROk s tt.
Definition pmodify {S} (f : S -> S) : PyM S unit := fun s => ROk (f s) tt.

(** Lift an [option] result of a system call: [None] raises [e]. *)
Definition plift {S A} (e : PyExc) (o : option A) : PyM S A :=
  match o with Some a => pret a | None => praise e end.

Declare Scope py_scope.
Delimit Scope py_scope with py.
Notation "x <- m ;; k" := (pbind m (fun x => k))
  (at level 100, m at next level, right associativity) : py_scope.
Notation "m ;;; k" := (pbind m (fun _ => k))
  (at level 100, right associativity) : py_scope.
Open Scope py_scope.

(** Is the computation's result normal? *)
Definition is_ok {S A} (r : Res S A) : bool :=
  match r with ROk _ _ => true | _ => false end.

Definition res_state {S A} (r : Res S A) : S :=
  match r with ROk s _ | RExit s _ | RRaise s _ => s end.

(** The status the interpreter exits with: [exit(code)] gives [code], an
    uncaught exception gives 1 (after a traceback on stderr); [None] when
    the computation completed normally. *)
Definition exit_status {S A} (r : Res S A) : option Z :=
  match r with ROk _ _ => None | RExit _ c => Some c | RRaise _ _ => Some 1%Z end.

(** ** The monad laws, as rewrite rules of the database [py] *)
Create HintDb py discriminated.
Create Rewrite HintDb py_rw.

Lemma pbind_ret_l {S A B} (a : A) (k : A -> PyM S B) s :
  pbind (pret a) k s = k a s.
Proof. reflexivity. Qed.

Lemma pbind_ret_r {S A} (m : PyM S A) s : pbind m pret s = m s.
Proof. unfold pbind, pret. by destruct (m s). Qed.

Lemma pbind_assoc {S A B C} (m : PyM S A) (k : A -> PyM S B)
      (k' : B -> PyM S C) s :
  pbind (pbind m k) k' s = pbind m (fun a => pbind (k a) k') s.
Proof. unfold pbind. by destruct (m s). Qed.

Lemma pbind_ok {S A B} (m : PyM S A) (k : A -> PyM S B) s s' a :
  m s = ROk s' a -> pbind m k s = k a s'.
Proof. unfold pbind. by intros ->. Qed.

Lemma pbind_raise {S A B} (m : PyM S A) (k : A -> PyM S B) s s' e :
  m s = RRaise s' e -> pbind m k s = RRaise s' e.
Proof. unfold pbind. by intros ->. Qed.

Lemma pbind_exit {S A B} (m : PyM S A) (k : A -> PyM S B) s s' c :
  m s = RExit s' c -> pbind m k s = RExit s' c.
Proof. unfold pbind. by intros ->. Qed.

#[export] Hint Rewrite @pbind_ret_l @pbind_assoc : py_rw.

(** Case analysis on every boolean comparison of integers in the goal,
    each branch with the comparison as a hypothesis for [lia]. *)
Ltac case_zbool :=
  repeat match goal with
  | |- context [(?a >? ?b)%Z] => rewrite (Z.gtb_ltb a b)
  | |- context [(?a >=? ?b)%Z] => rewrite (Z.geb_leb a b)
  | |- context [(?a <? ?b)%Z] => destruct (Z.ltb_spec a b)
  | |- context [(?a <=? ?b)%Z] => destruct (Z.leb_spec a b)
  | |- context [(?a =? ?b)%Z] => destruct (Z.eqb_spec a b)
  end.

(** Unfold the monad's combinators and run [simpl] on a goal. *)
Ltac py_unfold :=
  unfold pbind, pret, praise, pexit, pget, pput, pmodify, plift in *.

(** Case analysis on the first [match] or [if] in the goal, keeping the
    equation. *)
Ltac case_match_eq :=
  match goal with
  | |- context [match ?x with _ => _ end] =>
      let E := fresh "E" in destruct x eqn:E
  end.

(** ** Shared list lemmas *)
Section ListLemmas.
Context {A : Type}.

Lemma take_drop_app_length (l1 l2 : list A) :
  take (length l1) (l1 ++ l2) = l1 /\ drop (length l1) (l1 ++ l2) = l2.
Proof. split; [apply take_app_length | apply drop_app_length]. Qed.

Lemma snoc_neq_nil (l : list A) x : l ++ [x] <> [].
Proof. by destruct l. Qed.

(** An element that does not occur in [l] is found in [l ++ [x]] only
    at the end. *)
Lemma lookup_snoc_notin (l : list A) x i : x ∉ l -> (l ++ [x]) !! i = Some x -> i = length l.
Proof.
  intros Hx Hi. apply lookup_app_Some in Hi as [Hi|[Hge Hi]].
  - destruct Hx. by eapply list_elem_of_lookup_2.
  - apply list_lookup_singleton_Some in Hi. lia.
Qed.
End ListLemmas.

#[export] Hint Resolve take_app_length drop_app_length snoc_neq_nil : py.

(** ** Shared integer lemmas *)
Lemma Z_gtb_false x y : (x >? y)%Z = false <-> (x <= y)%Z.
Proof. rewrite Z.gtb_ltb. apply Z.ltb_ge. Qed.

Lemma Z_gtb_true x y : (x >? y)%Z = true <-> (y < x)%Z.
Proof. rewrite Z.gtb_ltb. apply Z.ltb_lt. Qed.
