(* ===== verification/PyStr.v ===== *)
(** * Python 2 [str] methods used by the library code the script calls

    Strings are [list ascii] ([pystr]).  Each method is written the way
    CPython computes it, and characterised by a lemma in terms of list
    concatenation, which is how the path and glob components use them. *)
From S2P Require Import Prelude.

(** Character equality as the interpreter tests it. *)
Definition ceq (a b : ascii) : bool := (a =? b)%char.
Arguments ceq : simpl never.

Lemma ceq_spec a b : reflect (a = b) (ceq a b).
Proof. apply Ascii.eqb_spec. Qed.

Lemma ceq_true a b : ceq a b = true <-> a = b.
Proof. destruct (ceq_spec a b); naive_solver. Qed.

Lemma ceq_refl a : ceq a a = true.
Proof. by apply ceq_true. Qed.

(** [x in cs] for a string [cs] of characters. *)
Definition in_chars (cs : pystr) (x : ascii) : bool := existsb (ceq x) cs.

Lemma in_chars_spec cs x : in_chars cs x = true <-> x ∈ cs.
Proof.
  unfold in_chars. rewrite existsb_exists, list_elem_of_In.
  split; [intros (y & Hy & ->%ceq_true) | intros H; exists x; rewrite ceq_refl]; auto.
Qed.

#[export] Hint Rewrite ceq_refl : py_rw.

(** ** [s.rfind(c)]: index of the last [c], or -1 *)
Fixpoint rfind_go (c : ascii) (s : pystr) (i acc : Z) : Z :=
  match s with
  | [] => acc
  | x :: s' => rfind_go c s' (i + 1) (if ceq x c then i else acc)
  end.

Definition rfind (s : pystr) (c : ascii) : Z := rfind_go c s 0 (-1)%Z.

Lemma rfind_go_app c a b i acc :
  rfind_go c (a ++ b) i acc = rfind_go c b (i + Z.of_nat (length a)) (rfind_go c a i acc).
Proof.
  revert i acc. induction a as [|x a IH]; intros i acc; simpl.
  - by rewrite Z.add_0_r.
  - rewrite IH. f_equal. lia.
Qed.

Lemma rfind_go_notin c b i acc : c ∉ b -> rfind_go c b i acc = acc.
Proof.
  revert i acc. induction b as [|x b IH]; intros i acc Hn; simpl; [done|].
  apply not_elem_of_cons in Hn as [Hx Hb].
  destruct (ceq_spec x c); [congruence|]. by apply IH.
Qed.

(** The view of [rfind]: either [c] does not occur, or [s] splits at its
    last occurrence. *)
Lemma rfind_notin s c : c ∉ s -> rfind s c = (-1)%Z.
Proof. apply rfind_go_notin. Qed.

Lemma rfind_last a b c : c ∉ b -> rfind (a ++ c :: b) c = Z.of_nat (length a).
Proof.
  intros Hb. unfold rfind. rewrite rfind_go_app. simpl.
  rewrite ceq_refl, rfind_go_notin by done. lia.
Qed.

Lemma rfind_cases s c :
  ((c ∉ s) /\ rfind s c = (-1)%Z) \/
  (exists a b, s = a ++ c :: b /\ (c ∉ b) /\ rfind s c = Z.of_nat (length a)).
Proof.
  induction s as [|x s IH] using rev_ind.
  - left. split; [apply not_elem_of_nil | done].
  - destruct (ceq_spec x c) as [->|Hne].
    + right. exists s, []. split_and!; [done | apply not_elem_of_nil |].
      by apply rfind_last, not_elem_of_nil.
    + destruct IH as [[Hn Hr] | (a & b & -> & Hb & Hr)].
      * left. split.
        -- set_solver.
        -- unfold rfind. rewrite rfind_go_app. simpl.
           destruct (ceq_spec x c); [congruence|]. exact Hr.
      * right. exists a, (b ++ [x]). rewrite <- app_assoc. split_and!; [done| |].
        -- set_solver.
        -- apply rfind_last. set_solver.
Qed.

(** ** [s.startswith(p)] and [s.endswith(p)] *)
Fixpoint startswith (s p : pystr) : bool :=
  match p, s with
  | [], _ => true
  | x :: p', y :: s' => ceq x y && startswith s' p'
  | _ :: _, [] => false
  end.

Definition endswith (s p : pystr) : bool := startswith (reverse s) (reverse p).

Lemma startswith_spec s p : startswith s p = true <-> p `prefix_of` s.
Proof.
  revert s. induction p as [|x p IH]; intros [|y s]; simpl.
  - split; [intros _; apply prefix_nil | done].
  - split; [intros _; apply prefix_nil | done].
  - split; [done | intros H; by apply prefix_nil_not in H].
  - rewrite andb_true_iff, ceq_true, IH. split.
    + intros [-> H]. by apply prefix_cons.
    + intros H. split; [by eapply prefix_cons_inv_1 | by eapply prefix_cons_inv_2].
Qed.

Lemma endswith_spec s p : endswith s p = true <-> p `suffix_of` s.
Proof. unfold endswith. by rewrite startswith_spec, suffix_prefix_reverse. Qed.

Lemma startswith_nil s : startswith s [] = true.
Proof. by destruct s. Qed.

Lemma startswith_app s p : startswith (p ++ s) p = true.
Proof. apply startswith_spec. by exists s. Qed.

Lemma endswith_app s p : endswith (s ++ p) p = true.
Proof. apply endswith_spec. by exists s. Qed.

#[export] Hint Rewrite startswith_nil startswith_app endswith_app : py_rw.

(** ** [s.lstrip(cs)] and [s.rstrip(cs)] *)
Fixpoint lstrip (s cs : pystr) : pystr :=
  match s with
  | x :: s' => if in_chars cs x then lstrip s' cs else s
  | [] => []
  end.

Definition rstrip (s cs : pystr) : pystr := reverse (lstrip (reverse s) cs).

Lemma lstrip_app_l s t cs :
  Forall (fun x => x ∈ cs) s -> lstrip (s ++ t) cs = lstrip t cs.
Proof.
  induction 1 as [|x s Hx _ IH]; [done|]. simpl.
  by rewrite (proj2 (in_chars_spec cs x) Hx).
Qed.

Lemma lstrip_stop x s cs : x ∉ cs -> lstrip (x :: s) cs = x :: s.
Proof.
  intros Hx. simpl. destruct (in_chars cs x) eqn:E; [|done].
  by apply in_chars_spec in E.
Qed.

Lemma rstrip_app_r s t x cs :
  x ∉ cs -> Forall (fun y => y ∈ cs) t -> rstrip (s ++ x :: t) cs = s ++ [x].
Proof.
  intros Hx Ht. unfold rstrip.
  rewrite reverse_app, reverse_cons, <- app_assoc, lstrip_app_l
    by (by apply Forall_reverse).
  cbn [app]. rewrite lstrip_stop by done.
  by rewrite reverse_cons, reverse_involutive.
Qed.

(** ** [s.split(c)] and [c.join(ws)] for a one-character separator *)
Fixpoint str_split (s : pystr) (c : ascii) : list pystr :=
  match s with
  | [] => [[]]
  | x :: s' =>
      if ceq x c then [] :: str_split s' c
      else match str_split s' c with
           | w :: ws => (x :: w) :: ws
           | [] => [[x]]
           end
  end.

Fixpoint str_join (sep : pystr) (ws : list pystr) : pystr :=
  match ws with
  | [] => []
  | [w] => w
  | w :: ws' => w ++ sep ++ str_join sep ws'
  end.

Lemma str_split_not_nil s c : str_split s c <> [].
Proof.
  induction s as [|x s IH]; simpl; [done|].
  destruct (ceq x c); [done|]. by destruct (str_split s c).
Qed.

(** Round trip: joining the pieces with the separator gives the string
    back. *)
Lemma str_join_split s c : str_join [c] (str_split s c) = s.
Proof.
  induction s as [|x s IH]; simpl; [done|].
  destruct (ceq_spec x c) as [->|Hne].
  - destruct (str_split s c) as [|w ws] eqn:E; [by apply str_split_not_nil in E|].
    simpl. by rewrite <- IH.
  - destruct (str_split s c) as [|w ws] eqn:E; [by apply str_split_not_nil in E|].
    destruct ws; simpl in *; by rewrite IH.
Qed.

(** No piece contains the separator. *)
Lemma str_split_pieces s c : Forall (fun w => c ∉ w) (str_split s c).
Proof.
  induction s as [|x s IH]; simpl.
  - repeat constructor. apply not_elem_of_nil.
  - destruct (ceq_spec x c) as [->|Hne]; [constructor; [apply not_elem_of_nil|done]|].
    destruct (str_split s c) as [|w ws]; [repeat constructor; set_solver|].
    apply Forall_cons in IH as [Hw Hws]. constructor; [|done]. set_solver.
Qed.

(** ** [s.lower()] in the C locale: ASCII letters only *)
Definition lower_char (x : ascii) : ascii :=
  let n := nat_of_ascii x in
  if (65 <=? n) && (n <=? 90) then ascii_of_nat (n + 32) else x.

Definition lower (s : pystr) : pystr := map lower_char s.

(** ** [s.replace(a, b)] for one-character [a] and [b] *)
Definition replace_char (s : pystr) (a b : ascii) : pystr :=
  map (fun x => if ceq x a then b else x) s.

Lemma replace_char_notin s a b : a ∉ s -> replace_char s a b = s.
Proof.
  induction s as [|x s IH]; intros Hs; [done|]. simpl.
  destruct (ceq_spec x a) as [->|]; [set_solver|]. f_equal. apply IH. set_solver.
Qed.

(** After [s.replace(a, b)] no [a] is left, when [a <> b]. *)
Lemma replace_char_gone s a b : a <> b -> a ∉ replace_char s a b.
Proof.
  intros Hab. induction s as [|x s IH]; simpl; [set_solver|].
  destruct (ceq_spec x a); set_solver.
Qed.

Lemma lstrip_suffix s cs : lstrip s cs `suffix_of` s.
Proof.
  induction s as [|x s IH]; simpl; [done|].
  destruct (in_chars cs x); [by apply suffix_cons_r | done].
Qed.

(** Every piece of [s.split(c)] is made of characters of [s]. *)
Lemma str_split_sub s c : Forall (fun w => forall y, y ∈ w -> y ∈ s) (str_split s c).
Proof.
  induction s as [|x s IH]; simpl.
  - repeat constructor. set_solver.
  - destruct (ceq x c).
    + constructor; [set_solver|]. eapply Forall_impl; [done|]. set_solver.
    + destruct (str_split s c) as [|w ws] eqn:E; [by apply str_split_not_nil in E|].
      apply Forall_cons in IH as [Hw Hws]. constructor; [set_solver|].
      eapply Forall_impl; [done|]. set_solver.
Qed.

Lemma str_join_nonempty sep ws :
  ws <> [] -> Forall (fun w => w <> []) ws -> str_join sep ws <> [].
Proof.
  intros Hne Hws. destruct Hws as [|w ws Hw _]; [done|]. simpl.
  destruct ws; [done|]. by destruct w.
Qed.

Lemma rstrip_prefix s cs : rstrip s cs `prefix_of` s.
Proof.
  unfold rstrip. rewrite prefix_suffix_reverse, reverse_involutive. apply lstrip_suffix.
Qed.
