(* ===== verification/Ctime.v ===== *)
(** * [time.ctime()] (line 52): CPython 2.7 over the C library

    [time_ctime] in CPython 2.7's [timemodule.c] calls C's [ctime] on
    [time(NULL)], raises [ValueError("unconvertible time")] when it
    returns [NULL], and cuts the string at index 24 only when the
    character there is the newline.  C's [ctime(t)] is
    [asctime(localtime(t))]; [localtime] is [gmtime] of the clock moved by
    the host's offset from UTC (a fixed offset here: daylight saving time
    is not modelled), [gmtime] is the POSIX "seconds since the epoch"
    calendar ([civil_from_days]), and [asctime] is glibc's
    [sprintf("%.3s %.3s%3d %.2d:%.2d:%.2d %d\n", ...)] with its checks
    ([???] for an out-of-range day or month, [EOVERFLOW] for a year that
    does not fit an [int]). *)
From S2P Require Import Prelude PyStr.

Local Open Scope Z_scope.

Module Ctime.

(** The fields of C's [struct tm] that [asctime] reads. *)
Record tm : Type := mkTm {
  tm_sec : Z;   (** [0, 60] *)
  tm_min : Z;   (** [0, 59] *)
  tm_hour : Z;  (** [0, 23] *)
  tm_mday : Z;  (** [1, 31] *)
  tm_mon : Z;   (** [0, 11], January is 0 *)
  tm_year : Z;  (** years since 1900 *)
  tm_wday : Z;  (** [0, 6], Sunday is 0 *)
}.

Definition INT_MIN : Z := -2147483648.
Definition INT_MAX : Z := 2147483647.

(** ** The proleptic Gregorian calendar of POSIX, counted in 400-year
    eras of 146097 days that start on 1 March of the year 0. *)

(** Year of the era, month index counted from March and day of the
    month for the day [doe] of an era, [0 <= doe < 146097]. *)
Definition civil_of_doe (doe : Z) : Z * Z * Z :=
  let yoe := (doe - doe / 1460 + doe / 36524 - doe / 146096) / 365 in
  let doy := doe - (365 * yoe + yoe / 4 - yoe / 100) in
  let mp := (5 * doy + 2) / 153 in
  (yoe, mp, doy - (153 * mp + 2) / 5 + 1).

(** Month [1, 12] of a month index counted from March. *)
Definition month_of_mp (mp : Z) : Z := if mp <? 10 then mp + 3 else mp - 9.

(** Year, month [1, 12] and day [1, 31] of the day [z] counted from
    1 January 1970. *)
Definition civil_from_days (z : Z) : Z * Z * Z :=
  let z := z + 719468 in
  let era := z / 146097 in
  let '(yoe, mp, d) := civil_of_doe (z mod 146097) in
  let m := month_of_mp mp in
  (yoe + era * 400 + (if m <=? 2 then 1 else 0), m, d).

Definition is_leap (y : Z) : bool :=
  (y mod 4 =? 0) && (negb (y mod 100 =? 0) || (y mod 400 =? 0)).

(** glibc's [__mon_yday]: the days of the year before each month. *)
Definition mon_yday (leap : bool) : list Z :=
  if leap then [0; 31; 60; 91; 121; 152; 182; 213; 244; 274; 305; 335]
  else [0; 31; 59; 90; 120; 151; 181; 212; 243; 273; 304; 334].

(** [tm_yday] of a date, month [1, 12]. *)
Definition yday_of (y m d : Z) : Z := default 0 (mon_yday (is_leap y) !! Z.to_nat (m - 1)) + d - 1.

(** The day count of POSIX's "seconds since the epoch" (XBD 4.16:
    [tm_yday*86400 + (tm_year-70)*31536000 + ((tm_year-69)/4)*86400 -
    ((tm_year-1)/100)*86400 + ((tm_year+299)/400)*86400]), with floor
    division so that it also counts the years before 1970. *)
Definition posix_days (y m d : Z) : Z :=
  let yr := y - 1900 in
  yday_of y m d + (yr - 70) * 365 + (yr - 69) / 4 - (yr - 1) / 100 + (yr + 299) / 400.

Definition days_in_month (y m : Z) : Z :=
  if m =? 2 then (if is_leap y then 29 else 28)
  else if (m =? 4) || (m =? 6) || (m =? 9) || (m =? 11) then 30 else 31.

(** [gmtime(&t)]: [None] ([EOVERFLOW]) when the year does not fit the
    [int] field [tm_year]. *)
Definition gmtime (t : Z) : option tm :=
  let days := t / 86400 in
  let rem := t mod 86400 in
  let '(y, m, d) := civil_from_days days in
  if bool_decide (INT_MIN <= y - 1900 <= INT_MAX) then
    Some (mkTm (rem mod 60) ((rem / 60) mod 60) (rem / 3600) d (m - 1) (y - 1900)
               ((days + 4) mod 7))
  else None.

(** [localtime(&t)] on a host [off] seconds east of UTC. *)
Definition localtime (off t : Z) : option tm := gmtime (t + off).

(** POSIX's seconds since the epoch of a broken-down UTC time. *)
Definition timegm (tp : tm) : Z :=
  tm_sec tp + tm_min tp * 60 + tm_hour tp * 3600 +
  posix_days (1900 + tm_year tp) (tm_mon tp + 1) (tm_mday tp) * 86400.

(** ** [printf] conversions *)

Definition digit (n : Z) : ascii := ascii_of_nat (48 + Z.to_nat n).

(** The decimal digits of [0 <= n], most significant first; an [int]
    has at most 10 of them. *)
Fixpoint digits_go (fuel : nat) (n : Z) : pystr :=
  match fuel with
  | O => []
  | S f => if n <? 10 then [digit n] else digits_go f (n / 10) ++ [digit (n mod 10)]
  end.

Definition digits (n : Z) : pystr := digits_go 10 n.

(** [%d] *)
Definition fmt_d (n : Z) : pystr := if n <? 0 then "-"%char :: digits (- n) else digits n.

(** The field [s] right-aligned in [w] characters, filled with [c]. *)
Definition pad_left (c : ascii) (w : nat) (s : pystr) : pystr :=
  replicate (w - length s) c ++ s.

(** [%3d] *)
Definition fmt_3d (n : Z) : pystr := pad_left " "%char 3 (fmt_d n).

(** [%.2d]: at least two digits. *)
Definition fmt_02d (n : Z) : pystr :=
  if n <? 0 then "-"%char :: pad_left "0"%char 2 (digits (- n))
  else pad_left "0"%char 2 (digits n).

Definition ab_day_names : list pystr :=
  [py "Sun"; py "Mon"; py "Tue"; py "Wed"; py "Thu"; py "Fri"; py "Sat"].
Definition ab_month_names : list pystr :=
  [py "Jan"; py "Feb"; py "Mar"; py "Apr"; py "May"; py "Jun";
   py "Jul"; py "Aug"; py "Sep"; py "Oct"; py "Nov"; py "Dec"].

(** glibc: ["???"] for an index out of range. *)
Definition ab_name (names : list pystr) (i : Z) : pystr :=
  if bool_decide (0 <= i < Z.of_nat (length names))
  then default (py "???") (names !! Z.to_nat i) else py "???".

(** glibc's [asctime]: [None] ([EOVERFLOW]) when [1900 + tm_year]
    overflows. *)
Definition asctime (tp : tm) : option pystr :=
  if tm_year tp >? INT_MAX - 1900 then None
  else Some (ab_name ab_day_names (tm_wday tp) ++ py " " ++
             ab_name ab_month_names (tm_mon tp) ++ fmt_3d (tm_mday tp) ++ py " " ++
             fmt_02d (tm_hour tp) ++ py ":" ++ fmt_02d (tm_min tp) ++ py ":" ++
             fmt_02d (tm_sec tp) ++ py " " ++ fmt_d (1900 + tm_year tp) ++ ["010"%char]).

(** [ctime(&t)] *)
Definition c_ctime (off t : Z) : option pystr :=
  match localtime off t with
  | Some tp => asctime tp
  | None => None
  end.

(** CPython 2.7 [time.ctime()] at clock [t]: [None] is the
    [ValueError] it raises; [if (p[24] == '\n') p[24] = '\0';]. *)
Definition time_ctime (off t : Z) : option pystr :=
  match c_ctime off t with
  | None => None
  | Some p => Some (if bool_decide (p !! 24%nat = Some "010"%char) then take 24 p else p)
  end.

Example time_ctime_epoch : time_ctime 0 0 = Some (py "Thu Jan  1 00:00:00 1970").
Proof. by vm_compute. Qed.

(** ** The calendar: one 400-year era, checked day by day *)

(** What an era's day [doe] must satisfy: a year of the era, a month
    index, a day that exists in that month of that year, and the date is
    the one POSIX's day count gives [doe] in the era starting on 1 March
    of the year 0. *)
Definition doe_ok (doe : Z) : bool :=
  let '(yoe, mp, d) := civil_of_doe doe in
  let m := month_of_mp mp in
  let y := yoe + if m <=? 2 then 1 else 0 in
  (0 <=? yoe) && (yoe <=? 399) && (0 <=? mp) && (mp <=? 11) && (1 <=? d) &&
  (d <=? days_in_month y m) && (posix_days y m d =? doe - 719468).

(** [P k], [P (k + 1)], ..., [P (k + n - 1)] *)
Fixpoint all_from (P : Z -> bool) (n : nat) (k : Z) : bool :=
  match n with
  | O => true
  | S n' => if P k then all_from P n' (k + 1) else false
  end.

Lemma all_from_spec P n k j : all_from P n k = true -> k <= j < k + Z.of_nat n -> P j = true.
Proof.
  revert k. induction n as [|n IH]; intros k; simpl; [lia|].
  destruct (P k) eqn:Hk; [|done]. intros Hall Hj.
  destruct (decide (j = k)) as [->|]; [done|]. apply (IH (k + 1)); [done|lia].
Qed.

(** The 146097 days of an era, evaluated. *)
Lemma era_ok : all_from doe_ok (Z.to_nat 146097) 0 = true.
Proof. vm_compute. reflexivity. Qed.

Lemma doe_facts doe yoe mp d :
  0 <= doe < 146097 -> civil_of_doe doe = (yoe, mp, d) ->
  0 <= yoe <= 399 /\ 0 <= mp <= 11 /\
  1 <= d <= days_in_month (yoe + if month_of_mp mp <=? 2 then 1 else 0) (month_of_mp mp) /\
  posix_days (yoe + if month_of_mp mp <=? 2 then 1 else 0) (month_of_mp mp) d = doe - 719468.
Proof.
  intros Hdoe Hc. pose proof (all_from_spec _ _ _ doe era_ok ltac:(lia)) as Hok.
  unfold doe_ok in Hok. rewrite Hc in Hok. repeat rewrite andb_true_iff in Hok.
  rewrite !Z.leb_le, Z.eqb_eq in Hok. split_and!; lia.
Qed.

Lemma month_of_mp_range mp : 0 <= mp <= 11 -> 1 <= month_of_mp mp <= 12.
Proof. unfold month_of_mp. case_zbool; lia. Qed.

(** The leap-year rule repeats every 400 years. *)
Lemma is_leap_era y k : is_leap (y + k * 400) = is_leap y.
Proof.
  unfold is_leap.
  replace (y + k * 400) with (y + (k * 100) * 4) at 1 by lia. rewrite Z.mod_add by lia.
  replace (y + k * 400) with (y + (k * 4) * 100) at 1 by lia. rewrite Z.mod_add by lia.
  rewrite Z.mod_add by lia. done.
Qed.

Lemma days_in_month_era y k m : days_in_month (y + k * 400) m = days_in_month y m.
Proof. unfold days_in_month. by rewrite is_leap_era. Qed.

(** 400 years are 146097 days. *)
Lemma posix_days_era y k m d : posix_days (y + k * 400) m d = posix_days y m d + k * 146097.
Proof.
  unfold posix_days, yday_of. rewrite is_leap_era.
  replace (y + k * 400 - 1900 - 69) with (y - 1900 - 69 + (k * 100) * 4) by lia.
  replace (y + k * 400 - 1900 - 1) with (y - 1900 - 1 + (k * 4) * 100) by lia.
  replace (y + k * 400 - 1900 + 299) with (y - 1900 + 299 + k * 400) by lia.
  rewrite !Z.div_add by lia. lia.
Qed.

(** The date of a day, by era: [civil_from_days] on the era's day. *)
Lemma civil_from_days_eq z :
  exists yoe mp d, civil_of_doe ((z + 719468) mod 146097) = (yoe, mp, d) /\
    civil_from_days z =
      (yoe + (z + 719468) / 146097 * 400 + (if month_of_mp mp <=? 2 then 1 else 0),
       month_of_mp mp, d).
Proof.
  unfold civil_from_days. destruct (civil_of_doe _) as [[yoe mp] d]. by eexists _, _, _.
Qed.

(** POSIX's day count undoes [civil_from_days]. *)
Lemma posix_days_civil z y m d : civil_from_days z = (y, m, d) -> posix_days y m d = z.
Proof.
  destruct (civil_from_days_eq z) as (yoe & mp & d' & Hc & ->). intros [= <- <- <-].
  pose proof (Z.mod_pos_bound (z + 719468) 146097 ltac:(lia)) as Hb.
  pose proof (Z.div_mod (z + 719468) 146097 ltac:(lia)) as Hdm.
  destruct (doe_facts _ _ _ _ Hb Hc) as (_ & _ & _ & Hp).
  replace (yoe + (z + 719468) / 146097 * 400 + _)
    with ((yoe + if month_of_mp mp <=? 2 then 1 else 0) + (z + 719468) / 146097 * 400) by lia.
  rewrite posix_days_era, Hp. lia.
Qed.

(** [civil_from_days] gives a date that exists. *)
Lemma civil_from_days_valid z y m d :
  civil_from_days z = (y, m, d) -> 1 <= m <= 12 /\ 1 <= d <= days_in_month y m.
Proof.
  destruct (civil_from_days_eq z) as (yoe & mp & d' & Hc & ->). intros [= <- <- <-].
  pose proof (Z.mod_pos_bound (z + 719468) 146097 ltac:(lia)) as Hb.
  destruct (doe_facts _ _ _ _ Hb Hc) as (_ & Hmp & Hd & _).
  split; [by apply month_of_mp_range|].
  replace (yoe + (z + 719468) / 146097 * 400 + _)
    with ((yoe + if month_of_mp mp <=? 2 then 1 else 0) + (z + 719468) / 146097 * 400) by lia.
  by rewrite days_in_month_era.
Qed.

Lemma gmtime_some t tp :
  gmtime t = Some tp ->
  exists y m d, civil_from_days (t / 86400) = (y, m, d) /\ INT_MIN <= y - 1900 <= INT_MAX /\
    tp = mkTm (t mod 86400 mod 60) (t mod 86400 / 60 mod 60) (t mod 86400 / 3600) d (m - 1)
              (y - 1900) ((t / 86400 + 4) mod 7).
Proof.
  unfold gmtime. destruct (civil_from_days _) as [[y m] d]. case_bool_decide; [|done].
  intros [= <-]. by eexists _, _, _.
Qed.

(** [gmtime]'s fields are in their ranges, and the date exists. *)
Lemma gmtime_ranges t tp :
  gmtime t = Some tp ->
  0 <= tm_sec tp < 60 /\ 0 <= tm_min tp < 60 /\ 0 <= tm_hour tp < 24 /\
  0 <= tm_mon tp < 12 /\ 1 <= tm_mday tp <= days_in_month (1900 + tm_year tp) (tm_mon tp + 1) /\
  0 <= tm_wday tp < 7 /\ INT_MIN <= tm_year tp <= INT_MAX.
Proof.
  intros (y & m & d & Hc & Hy & ->)%gmtime_some. simpl.
  destruct (civil_from_days_valid _ _ _ _ Hc) as [Hm Hd].
  replace (1900 + (y - 1900)) with y by lia. replace (m - 1 + 1) with m by lia.
  pose proof (Z.mod_pos_bound t 86400 ltac:(lia)).
  pose proof (Z.mod_pos_bound (t / 86400 + 4) 7 ltac:(lia)).
  set (r := t mod 86400) in *. split_and!; try lia; Z.div_mod_to_equations; lia.
Qed.

(** C31: [gmtime] is the POSIX calendar.  The broken-down time
    [gmtime] gives for the clock [t] (the one [time.ctime()] prints, on a
    UTC host) has every field in its range and a date that exists
    (February 29 only in a Gregorian leap year), denotes [t] again by
    POSIX's formula for seconds since the epoch, and its weekday is the
    weekday of that date (1 January 1970 was a Thursday).  These
    determine every field [asctime] prints. *)
Theorem gmtime_posix t tp :
  gmtime t = Some tp ->
  timegm tp = t /\
  0 <= tm_sec tp < 60 /\ 0 <= tm_min tp < 60 /\ 0 <= tm_hour tp < 24 /\
  0 <= tm_mon tp < 12 /\ 1 <= tm_mday tp <= days_in_month (1900 + tm_year tp) (tm_mon tp + 1) /\
  tm_wday tp = (posix_days (1900 + tm_year tp) (tm_mon tp + 1) (tm_mday tp) + 4) mod 7.
Proof.
  intros Hg. destruct (gmtime_ranges _ _ Hg) as (Hs & Hm & Hh & Hmo & Hd & _).
  apply gmtime_some in Hg as (y & m & d & Hc & _ & ->). simpl in *.
  replace (1900 + (y - 1900)) with y in * by lia. replace (m - 1 + 1) with m in * by lia.
  rewrite (posix_days_civil _ _ _ _ Hc). split_and!; try lia.
  unfold timegm. simpl. replace (1900 + (y - 1900)) with y by lia.
  replace (m - 1 + 1) with m by lia. rewrite (posix_days_civil _ _ _ _ Hc).
  pose proof (Z.div_mod t 86400 ltac:(lia)). pose proof (Z.mod_pos_bound t 86400 ltac:(lia)).
  set (r := t mod 86400) in *. Z.div_mod_to_equations. lia.
Qed.

(** ** The shape of the string *)

Abbreviation NL := "010"%char.

Lemma digit_not_nl k : 0 <= k <= 9 -> digit k <> NL.
Proof.
  intros Hk. assert (k = 0 \/ k = 1 \/ k = 2 \/ k = 3 \/ k = 4 \/ k = 5 \/ k = 6 \/ k = 7 \/
                     k = 8 \/ k = 9) as Hk' by lia.
  destruct_or! Hk'; subst; by vm_compute.
Qed.

Lemma digits_go_no_nl f n : 0 <= n -> NL ∉ digits_go f n.
Proof.
  revert n. induction f as [|f IH]; intros n Hn; simpl; [set_solver|].
  case_zbool.
  - rewrite list_elem_of_singleton. apply not_eq_sym, digit_not_nl. lia.
  - rewrite elem_of_app, list_elem_of_singleton. intros [Hin|Heq].
    + revert Hin. apply IH. apply Z.div_pos; lia.
    + revert Heq. apply not_eq_sym, digit_not_nl. pose proof (Z.mod_pos_bound n 10). lia.
Qed.

Lemma digits_go_nil f n : digits_go f n = [] -> f = O.
Proof. destruct f; simpl; [done|]. case_match; [done|]. intros []%app_eq_nil. done. Qed.

(** [digits_go] prints at most [j] digits exactly for the numbers below
    [10 ^ j], when its fuel suffices. *)
Lemma digits_go_length f n j :
  0 <= n < 10 ^ Z.of_nat f -> (1 <= j)%nat ->
  ((length (digits_go f n) <= j)%nat <-> n < 10 ^ Z.of_nat j).
Proof.
  revert n j. induction f as [|f IH]; intros n j Hn Hj; [simpl in *; pose proof (Z.pow_pos_nonneg 10 (Z.of_nat j)); lia|].
  assert (H10 : 10 <= 10 ^ Z.of_nat j).
  { replace j with (S (j - 1)) by lia. rewrite Nat2Z.inj_succ, Z.pow_succ_r by lia.
    pose proof (Z.pow_pos_nonneg 10 (Z.of_nat (j - 1))). lia. }
  simpl. case_zbool; [simpl; lia|].
  rewrite Nat2Z.inj_succ, Z.pow_succ_r in Hn by lia.
  assert (Hq : 0 <= n / 10 < 10 ^ Z.of_nat f) by (split; [apply Z.div_pos|apply Z.div_lt_upper_bound]; lia).
  rewrite length_app. simpl. destruct (decide (j = 1%nat)) as [->|Hj1].
  { change (10 ^ Z.of_nat 1) with 10. split; [|lia]. intros Hl.
    destruct (digits_go f (n / 10)) eqn:E; [|simpl in Hl; lia].
    apply digits_go_nil in E as ->. simpl in Hq. lia. }
  replace j with (S (j - 1)) at 2 by lia. rewrite Nat2Z.inj_succ, Z.pow_succ_r by lia.
  pose proof (IH (n / 10) (j - 1)%nat Hq ltac:(lia)) as Hiff.
  pose proof (Z.div_mod n 10 ltac:(lia)). pose proof (Z.mod_pos_bound n 10 ltac:(lia)).
  set (q := n / 10) in *. set (P := 10 ^ Z.of_nat (j - 1)) in *. lia.
Qed.

Lemma pad_left_shape c w s :
  length (pad_left c w s) = Nat.max w (length s) /\ (c <> NL -> NL ∉ s -> NL ∉ pad_left c w s).
Proof.
  unfold pad_left. rewrite length_app, length_replicate. split; [lia|].
  intros Hc Hs. rewrite elem_of_app, elem_of_replicate. naive_solver.
Qed.

(** The digits of a number below [10 ^ 10] ([digits]' fuel) number at
    most [j] exactly when it is below [10 ^ j]. *)
Lemma digits_length n j :
  0 <= n < 10 ^ 10 -> (1 <= j)%nat -> ((length (digits n) <= j)%nat <-> n < 10 ^ Z.of_nat j).
Proof. intros Hn Hj. by apply digits_go_length. Qed.

(** [%.2d] of a number of [[0, 99]]: two characters. *)
Lemma fmt_02d_shape n : 0 <= n < 100 -> length (fmt_02d n) = 2%nat /\ NL ∉ fmt_02d n.
Proof.
  intros Hn. unfold fmt_02d. case_zbool; [lia|].
  pose proof (proj2 (digits_length n 2 ltac:(lia) ltac:(lia)) ltac:(simpl; lia)).
  destruct (pad_left_shape "0"%char 2 (digits n)) as [Hl Hnl].
  split; [lia|]. apply Hnl; [done|]. apply digits_go_no_nl. lia.
Qed.

(** [%3d] of a day of the month: three characters. *)
Lemma fmt_3d_shape n : 1 <= n <= 31 -> length (fmt_3d n) = 3%nat /\ NL ∉ fmt_3d n.
Proof.
  intros Hn. unfold fmt_3d, fmt_d. case_zbool; [lia|].
  pose proof (proj2 (digits_length n 2 ltac:(lia) ltac:(lia)) ltac:(simpl; lia)).
  destruct (pad_left_shape " "%char 3 (digits n)) as [Hl Hnl].
  split; [lia|]. apply Hnl; [done|]. apply digits_go_no_nl. lia.
Qed.

(** [%d] of a year: no newline, and four characters exactly for the
    years [1000] to [9999] and [-999] to [-100]. *)
Lemma fmt_d_shape y :
  - 10 ^ 10 < y < 10 ^ 10 ->
  NL ∉ fmt_d y /\
  (length (fmt_d y) = 4%nat <-> 1000 <= y <= 9999 \/ -999 <= y <= -100).
Proof.
  intros Hy. unfold fmt_d. case_zbool.
  - pose proof (digits_length (- y) 3 ltac:(lia) ltac:(lia)) as H3.
    pose proof (digits_length (- y) 2 ltac:(lia) ltac:(lia)) as H2. simpl in H3, H2.
    split; [|simpl; lia]. rewrite elem_of_cons. intros [Heq|Hin]; [done|].
    revert Hin. apply digits_go_no_nl. lia.
  - pose proof (digits_length y 4 ltac:(lia) ltac:(lia)) as H4.
    pose proof (digits_length y 3 ltac:(lia) ltac:(lia)) as H3. simpl in H4, H3.
    split; [apply digits_go_no_nl; lia | lia].
Qed.

Lemma ab_name_shape names i :
  Forall (fun s => length s = 3%nat /\ NL ∉ s) names ->
  length (ab_name names i) = 3%nat /\ NL ∉ ab_name names i.
Proof.
  intros Hall. assert (Hq : length (py "???") = 3%nat /\ NL ∉ py "???").
  { split; [done|]. apply (bool_decide_unpack _). by vm_compute. }
  unfold ab_name. case_bool_decide; [|done].
  destruct (names !! Z.to_nat i) as [s|] eqn:E; [|done]. simpl.
  exact (Forall_lookup_1 (fun s => length s = 3%nat /\ NL ∉ s) _ _ _ Hall E).
Qed.

Lemma ab_names_shape :
  Forall (fun s => length s = 3%nat /\ NL ∉ s) ab_day_names /\
  Forall (fun s => length s = 3%nat /\ NL ∉ s) ab_month_names.
Proof. split; apply (bool_decide_unpack _); by vm_compute. Qed.

(** [asctime] of a broken-down time in range: 20 characters without a
    newline, the year, and the newline. *)
Lemma asctime_shape tp :
  0 <= tm_sec tp < 60 -> 0 <= tm_min tp < 60 -> 0 <= tm_hour tp < 24 ->
  1 <= tm_mday tp <= 31 -> tm_year tp <= INT_MAX - 1900 ->
  exists pre, asctime tp = Some (pre ++ fmt_d (1900 + tm_year tp) ++ [NL]) /\
    length pre = 20%nat /\ NL ∉ pre.
Proof.
  intros Hs Hm Hh Hd Hy. unfold asctime. case_zbool; [lia|].
  destruct ab_names_shape as [Hdays Hmonths].
  destruct (ab_name_shape _ (tm_wday tp) Hdays) as [L1 N1].
  destruct (ab_name_shape _ (tm_mon tp) Hmonths) as [L2 N2].
  destruct (fmt_3d_shape _ Hd) as [L3 N3].
  destruct (fmt_02d_shape (tm_hour tp) ltac:(lia)) as [L4 N4].
  destruct (fmt_02d_shape (tm_min tp) ltac:(lia)) as [L5 N5].
  destruct (fmt_02d_shape (tm_sec tp) ltac:(lia)) as [L6 N6].
  exists (ab_name ab_day_names (tm_wday tp) ++ py " " ++ ab_name ab_month_names (tm_mon tp) ++
          fmt_3d (tm_mday tp) ++ py " " ++ fmt_02d (tm_hour tp) ++ py ":" ++
          fmt_02d (tm_min tp) ++ py ":" ++ fmt_02d (tm_sec tp) ++ py " ").
  split; [by rewrite <- !app_assoc|].
  rewrite !length_app, L1, L2, L3, L4, L5, L6. split; [done|].
  assert (Hsp : NL ∉ py " " /\ NL ∉ py ":") by (split; apply (bool_decide_unpack _); by vm_compute).
  destruct Hsp as [Hsp Hcol]. rewrite !elem_of_app. intros Hin. destruct_or! Hin; contradiction.
Qed.

(** The year of a broken-down time [gmtime] accepts prints in fewer
    than 11 characters. *)
Lemma year_digits_bound tp :
  INT_MIN <= tm_year tp -> tm_year tp <= INT_MAX - 1900 -> - 10 ^ 10 < 1900 + tm_year tp < 10 ^ 10.
Proof. unfold INT_MIN, INT_MAX. lia. Qed.

(** C32: the string [time.ctime()] gives line 52.  When the clock's
    year fits C's [asctime], [time.ctime()] returns a string without a
    newline, of the 24 characters ['Www Mmm dd hh:mm:ss yyyy'], exactly
    when the year prints in four characters (the years 1000 to 9999, and
    -999 to -100); for any other year CPython's [p[24] == '\n'] test
    misses the newline [asctime] put after the year, and the string ends
    with it. *)
Theorem time_ctime_newline off t tp :
  localtime off t = Some tp -> tm_year tp <= INT_MAX - 1900 ->
  exists s, time_ctime off t = Some s /\
    (if bool_decide (1000 <= 1900 + tm_year tp <= 9999 \/ -999 <= 1900 + tm_year tp <= -100)
     then length s = 24%nat /\ NL ∉ s
     else exists s', s = s' ++ [NL] /\ NL ∉ s').
Proof.
  intros Hl Hy. destruct (gmtime_ranges _ _ Hl) as (Hs & Hm & Hh & _ & Hd & _ & Hyr).
  assert (Hdim : days_in_month (1900 + tm_year tp) (tm_mon tp + 1) <= 31)
    by (unfold days_in_month; repeat case_match; lia).
  destruct (asctime_shape tp) as (pre & Ha & Hlen & Hpre); [lia..|].
  destruct (fmt_d_shape (1900 + tm_year tp) (year_digits_bound tp ltac:(lia) Hy)) as [Hnl H4].
  set (Y := fmt_d (1900 + tm_year tp)) in *.
  unfold time_ctime, c_ctime. rewrite Hl, Ha. eexists. split; [done|].
  assert (HnY : NL ∉ pre ++ Y) by (rewrite elem_of_app; naive_solver).
  rewrite app_assoc. case_bool_decide as Hc; case_bool_decide as Hn.
  - assert (H24 : length (pre ++ Y) = 24%nat) by (rewrite length_app, Hlen, (proj2 H4 Hc); done).
    rewrite <- H24, take_app_length. done.
  - destruct Hn. rewrite lookup_app_r; rewrite length_app, Hlen, (proj2 H4 Hc); [done|lia].
  - destruct Hc. apply H4. apply lookup_snoc_notin in Hn; [|done].
    rewrite length_app in Hn. lia.
  - by exists (pre ++ Y).
Qed.

(** 9 November 2025, 01:13:20 UTC, a Sunday. *)
Lemma gmtime_posix_witness :
  gmtime 1762650800 = Some (mkTm 20 13 1 9 10 125 0) /\
  timegm (mkTm 20 13 1 9 10 125 0) = 1762650800 /\
  0 <= 20 < 60 /\ 0 <= 13 < 60 /\ 0 <= 1 < 24 /\ 0 <= 10 < 12 /\
  1 <= 9 <= days_in_month (1900 + 125) (10 + 1) /\
  0 = (posix_days (1900 + 125) (10 + 1) 9 + 4) mod 7.
Proof.
  assert (Hg : gmtime 1762650800 = Some (mkTm 20 13 1 9 10 125 0)) by (by vm_compute).
  split; [exact Hg | exact (gmtime_posix _ _ Hg)].
Defined.

(** 1 January 10000: the newline stays. *)
Lemma time_ctime_newline_witness :
  localtime 0 253402300800 = Some (mkTm 0 0 0 1 0 8100 6) /\ 8100 <= INT_MAX - 1900 /\
  exists s, time_ctime 0 253402300800 = Some s /\
    (if bool_decide (1000 <= 1900 + 8100 <= 9999 \/ -999 <= 1900 + 8100 <= -100)
     then length s = 24%nat /\ NL ∉ s
     else exists s', s = s' ++ [NL] /\ NL ∉ s').
Proof.
  assert (Hl : localtime 0 253402300800 = Some (mkTm 0 0 0 1 0 8100 6)) by (by vm_compute).
  assert (Hy : 8100 <= INT_MAX - 1900) by (unfold INT_MAX; lia).
  split_and!; [exact Hl | exact Hy |].
  exact (time_ctime_newline 0 253402300800 _ Hl Hy).
Defined.

End Ctime.
