(* ===== verification/GenericPath.v ===== *)
(** * [genericpath._splitext] and the interface of an [os.path] module

    The script calls [os.path.split], [os.path.splitext], [os.path.join]
    and [os.path.normpath]; which module [os.path] is depends on the host
    ([posixpath] or [ntpath]).  The class [PathModule] collects the
    operations, and [PathModuleLaws] the facts about them that the
    script's proofs use; each module's file provides an instance of both.
    [splitext] is shared by all modules: it is [genericpath._splitext]
    applied to the module's separators, modelled here once. *)
From S2P Require Import Prelude PyStr.

(** [while filenameIndex < dotIndex: if p[filenameIndex] != extsep:
    return ...; filenameIndex += 1], run over the characters
    [p[sepIndex+1:dotIndex]] that the index visits: is one of them not
    [extsep]? *)
Fixpoint scan_leading_dots (seg : pystr) (extsep : ascii) : bool :=
  match seg with
  | [] => false
  | x :: seg' => if negb (ceq x extsep) then true else scan_leading_dots seg' extsep
  end.

Definition genericpath_splitext (p : pystr) (sep : ascii) (altsep : option ascii)
    (extsep : ascii) : pystr * pystr :=
  let sepIndex := rfind p sep in
  let sepIndex :=
    match altsep with
    | Some a => Z.max sepIndex (rfind p a)
    | None => sepIndex
    end in
  let dotIndex := rfind p extsep in
  if (sepIndex <? dotIndex)%Z then
    let filenameIndex := Z.to_nat (sepIndex + 1) in
    let d := Z.to_nat dotIndex in
    if scan_leading_dots (take (d - filenameIndex) (drop filenameIndex p)) extsep
    then (take d p, drop d p)
    else (p, [])
  else (p, []).

Lemma scan_leading_dots_spec seg e :
  scan_leading_dots seg e = true <-> exists x, x ∈ seg /\ x <> e.
Proof.
  induction seg as [|y seg IH]; simpl.
  - split; [done|]. intros (x & Hx & _). by apply not_elem_of_nil in Hx.
  - destruct (ceq_spec y e) as [->|Hne]; simpl.
    + rewrite IH. split; intros (x & Hx & Hxe); exists x; set_solver.
    + split; [intros _; exists y; set_solver | done].
Qed.

(** Round trip: the root and the extension put together give the path. *)
Lemma genericpath_splitext_app p sep altsep e :
  let '(root, ext) := genericpath_splitext p sep altsep e in root ++ ext = p.
Proof.
  unfold genericpath_splitext.
  repeat case_match; simplify_eq/=; rewrite ?take_drop, ?app_nil_r; done.
Qed.

(** A file name [h ++ "." ++ e] whose extension [e] holds no dot and whose
    stem [h] has a character other than a dot loses exactly [.e].  The
    separators must not occur in the name. *)
Lemma genericpath_splitext_name h e sep altsep ext :
  sep ∉ h ++ ext :: e ->
  (forall a, altsep = Some a -> a ∉ h ++ ext :: e) ->
  ext ∉ e -> (exists x, x ∈ h /\ x <> ext) ->
  genericpath_splitext (h ++ ext :: e) sep altsep ext = (h, ext :: e).
Proof.
  intros Hsep Halt He Hh. unfold genericpath_splitext.
  rewrite (rfind_notin _ sep) by done.
  assert (Hs : (match altsep with Some a => Z.max (-1)%Z (rfind (h ++ ext :: e) a)
                | None => (-1)%Z end) = (-1)%Z).
  { destruct altsep as [a|]; [|done]. rewrite rfind_notin by (by apply Halt). lia. }
  rewrite Hs, rfind_last by done.
  rewrite (proj2 (Z.ltb_lt _ _)) by lia.
  replace (Z.to_nat (-1 + 1)%Z) with 0 by lia. rewrite Nat2Z.id, Nat.sub_0_r, drop_0.
  rewrite take_app_length, (proj2 (scan_leading_dots_spec _ _)) by done.
  by rewrite drop_app_length.
Qed.

(** A name with no dot, or only leading dots, has no extension. *)
Lemma genericpath_splitext_noext p sep altsep ext :
  ext ∉ p -> genericpath_splitext p sep altsep ext = (p, []).
Proof.
  intros Hp. unfold genericpath_splitext. rewrite (rfind_notin p ext) by done.
  assert (Hge : forall q c, ((-1) <= rfind q c)%Z).
  { intros q c. destruct (rfind_cases q c) as [[_ ->] | (a & b & _ & _ & ->)]; lia. }
  case_match; [|done]. exfalso.
  destruct altsep; [pose proof (Hge p a)|]; pose proof (Hge p sep);
    apply Z.ltb_lt in H; lia.
Qed.

(** ** The interface of an [os.path] module *)
Class PathModule : Type := {
  (** [os.sep], and the characters [split] treats as separators *)
  pm_sep : ascii;
  pm_seps : pystr;
  (** [os.path.split], [os.path.splitext], [os.path.join] (two
      arguments), [os.path.normpath], [os.path.normcase] *)
  pm_split : pystr -> pystr * pystr;
  pm_splitext : pystr -> pystr * pystr;
  pm_join : pystr -> pystr -> pystr;
  pm_normpath : pystr -> pystr;
  pm_normcase : pystr -> pystr;
  (** [os.path is posixpath]: [fnmatch.filter] tests it *)
  pm_is_posix : bool;
  (** a plain name: what [os.listdir] returns, with no separator and no
      drive *)
  pm_plain : pystr -> Prop;
  (** a directory that [split] takes apart again after [join]: on
      Windows one with a drive letter, since [join(r'\\srv', f)]
      reads back as the UNC drive [\\srv\f] *)
  pm_good_dir : pystr -> Prop;
}.

Class PathModuleLaws `{PathModule} : Prop := {
  (** [split(join(d, f))] gives back [f] as the tail *)
  pm_split_join_tail d f : pm_good_dir d -> pm_plain f -> (pm_split (pm_join d f)).2 = f;
  (** and a normalised [d] as the head *)
  pm_split_join_normpath d f : pm_good_dir d ->
    pm_plain f -> (pm_split (pm_join (pm_normpath d) f)).1 = pm_normpath d;
  (** the head [split] returns is a prefix of the path *)
  pm_split_prefix p : (pm_split p).1 `prefix_of` p;
  (** [normpath] keeps a directory good *)
  pm_normpath_good d : pm_good_dir d -> pm_good_dir (pm_normpath d);
  (** [splitext] strips the last extension of a plain name *)
  pm_splitext_name h e :
    pm_plain (h ++ "."%char :: e) -> "."%char ∉ e -> (exists x, x ∈ h /\ x <> "."%char) ->
    pm_splitext (h ++ "."%char :: e) = (h, "."%char :: e);
  pm_splitext_app p : (pm_splitext p).1 ++ (pm_splitext p).2 = p;
  (** [join(d, f)] ends with a plain [f] *)
  pm_join_plain d f : pm_plain f -> exists pre, pm_join d f = pre ++ f;
  (** [normpath] never returns the empty string *)
  pm_normpath_nonempty d : pm_normpath d <> [];
  (** [normcase] is the identity on POSIX, which [fnmatch.filter] relies on *)
  pm_normcase_posix s : pm_is_posix = true -> pm_normcase s = s;
}.
