(* ===== verification/PosixPath.v ===== *)
(** * [posixpath]: [os.path] on a POSIX host (Python 2.7)

    [split], [join] (two arguments), [splitext], [normpath] and
    [normcase] as CPython 2.7's [Lib/posixpath.py] writes them, the
    shape of a normalised path, and the instance of the [PathModule]
    interface with the proof of its laws. *)
From S2P Require Import Prelude PyStr GenericPath.

Module PosixPath.

Definition sep : ascii := "/".

(** [i = p.rfind('/') + 1; head, tail = p[:i], p[i:];
  if head and head != '/'*len(head): head = head.rstrip('/')] *)
Definition strip_head (head : pystr) : pystr :=
if bool_decide (head <> []) && negb (forallb (fun x => ceq x sep) head)
then rstrip head [sep] else head.

Definition split (p : pystr) : pystr * pystr :=
let i := Z.to_nat (rfind p sep + 1) in
(strip_head (take i p), drop i p).

(** [join(a, b)]: [if b.startswith('/'): path = b
  elif path == '' or path.endswith('/'): path += b
  else: path += '/' + b] *)
Definition join (a b : pystr) : pystr :=
if startswith b [sep] then b
else if bool_decide (a = []) || endswith a [sep] then a ++ b
else a ++ sep :: b.

Definition splitext (p : pystr) : pystr * pystr :=
genericpath_splitext p sep None ".".

(** One iteration of [for comp in comps] in [normpath]. *)
Definition normpath_step (initial_slashes : nat) (new_comps : list pystr)
  (comp : pystr) : list pystr :=
if bool_decide (comp = []) || bool_decide (comp = py ".") then new_comps
else if bool_decide (comp <> py "..")
        || ((initial_slashes =? 0) && bool_decide (new_comps = []))
        || bool_decide (last new_comps = Some (py ".."))
then new_comps ++ [comp]
else if bool_decide (new_comps <> []) then removelast new_comps
else new_comps.

(** [normpath(path)]: POSIX allows one or two initial slashes but treats
  three or more as one. *)
Definition normpath (path : pystr) : pystr :=
if bool_decide (path = []) then py "." else
let initial_slashes : nat :=
  if startswith path [sep] then
    if startswith path (py "//") && negb (startswith path (py "///")) then 2 else 1
  else 0 in
let comps := str_split path sep in
let new_comps := fold_left (normpath_step initial_slashes) comps [] in
let path := replicate initial_slashes sep ++ str_join [sep] new_comps in
if bool_decide (path = []) then py "." else path.

(** [normcase] is the identity on POSIX. *)
Definition normcase (s : pystr) : pystr := s.

#[global] Arguments split : simpl never.
#[global] Arguments join : simpl never.
#[global] Arguments normpath : simpl never.

(** A plain file name: non-empty, without a slash. *)
Definition plain (f : pystr) : Prop := f <> [] /\ sep ∉ f.

Example split_ex : split (py "a/b//c") = (py "a/b", py "c").
Proof. reflexivity. Qed.
Example normpath_ex : normpath (py "//a/./b/../c//") = py "//a/c".
Proof. reflexivity. Qed.

(** ** [split] and [join] *)
Lemma strip_head_all_seps h : Forall (fun x => x = sep) h -> strip_head h = h.
Proof.
intros Hh. unfold strip_head.
replace (forallb (fun x => ceq x sep) h) with true; [by rewrite andb_false_r|].
symmetry. apply forallb_forall. intros x Hx%list_elem_of_In.
apply ceq_true. by eapply Forall_forall in Hh.
Qed.

Lemma strip_head_snoc_sep s x : x <> sep -> strip_head (s ++ [x; sep]) = s ++ [x].
Proof.
intros Hx. unfold strip_head.
replace (forallb (fun y => ceq y sep) (s ++ [x; sep])) with false.
- rewrite bool_decide_true by (by destruct s). apply rstrip_app_r; [set_solver|].
  repeat constructor; set_solver.
- symmetry. apply not_true_iff_false. intros Hall.
  apply Hx, ceq_true. eapply forallb_forall in Hall; [exact Hall|].
  apply in_or_app. right. by left.
Qed.

Lemma split_noslash f : sep ∉ f -> split f = ([], f).
Proof. intros Hf. unfold split. by rewrite rfind_notin. Qed.

Lemma split_last a f : sep ∉ f -> split (a ++ sep :: f) = (strip_head (a ++ [sep]), f).
Proof.
intros Hf. unfold split. rewrite rfind_last by done.
replace (Z.to_nat (Z.of_nat (length a) + 1)) with (length (a ++ [sep]))
  by (rewrite length_app; simpl; lia).
replace (a ++ sep :: f) with ((a ++ [sep]) ++ f) by (by rewrite <- app_assoc).
by rewrite take_app_length, drop_app_length.
Qed.

Lemma endswith_snoc s x c : endswith (s ++ [x]) [c] = ceq c x.
Proof. unfold endswith. rewrite reverse_snoc. simpl. by rewrite startswith_nil, andb_true_r. Qed.

Lemma plain_not_startswith f : plain f -> startswith f [sep] = false.
Proof.
intros [Hne Hf]. destruct f as [|x f]; [done|]. simpl.
destruct (ceq_spec sep x) as [<-|]; [set_solver | done].
Qed.

(** [join] of a plain name: [d + f] after a trailing slash, else [d + '/' + f]. *)
Lemma join_plain d f : plain f ->
join d f = if bool_decide (d = []) || endswith d [sep] then d ++ f else d ++ sep :: f.
Proof. intros Hf. unfold join. by rewrite plain_not_startswith. Qed.

Lemma endswith_sep_inv d : endswith d [sep] = true -> exists a, d = a ++ [sep].
Proof. intros (a & ->)%endswith_spec. by exists a. Qed.

Lemma split_join_tail d f : plain f -> (split (join d f)).2 = f.
Proof.
intros Hf. pose proof Hf as [_ Hs]. rewrite join_plain by done.
case_bool_decide as Hd; cbn [orb].
{ subst d. by rewrite app_nil_l, split_noslash. }
destruct (endswith d [sep]) eqn:E2.
- apply endswith_sep_inv in E2 as (a & ->). rewrite <- app_assoc. cbn [app].
  by rewrite split_last.
- by rewrite split_last.
Qed.

(** The head of [split(p)] is a prefix of [p]. *)
Lemma split_prefix p : (split p).1 `prefix_of` p.
Proof.
  unfold split. cbn [fst]. transitivity (take (Z.to_nat (rfind p sep + 1)) p); [|apply prefix_take].
  unfold strip_head. case_match; [apply rstrip_prefix | done].
Qed.

(** ** The shape of a normalised path *)
Definition good_comp (w : pystr) : Prop := w <> [] /\ sep ∉ w.

Lemma Forall_removelast {A} (P : A -> Prop) l : Forall P l -> Forall P (removelast l).
Proof.
intros H. destruct l as [|x l] using rev_ind; [done|].
rewrite removelast_last. by apply Forall_app in H as [? _].
Qed.

Lemma normpath_step_good k nc comp :
Forall good_comp nc -> sep ∉ comp -> Forall good_comp (normpath_step k nc comp).
Proof.
intros Hnc Hc. unfold normpath_step.
destruct (bool_decide (comp = [])) eqn:E0; [done|].
apply bool_decide_eq_false in E0.
repeat case_match; try done; try (apply Forall_app; split; [done|]; repeat constructor; done).
by apply Forall_removelast.
Qed.

Lemma fold_normpath_good k comps nc :
Forall good_comp nc -> Forall (fun w => sep ∉ w) comps ->
Forall good_comp (fold_left (normpath_step k) comps nc).
Proof.
intros Hnc Hcs. revert nc Hnc.
induction Hcs as [|c cs Hc _ IH]; intros nc Hnc; simpl; [done|].
apply IH. by apply normpath_step_good.
Qed.

Lemma str_join_good ws : ws <> [] -> Forall good_comp ws ->
exists s x, str_join [sep] ws = s ++ [x] /\ x <> sep.
Proof.
induction ws as [|w ws IH]; [done|]. intros _ Hws.
apply Forall_cons in Hws as [[Hw Hsep] Hws].
destruct ws as [|w' ws'].
- destruct w as [|y w] using rev_ind; [done|]. exists w, y. split; [done|set_solver].
- destruct IH as (s & x & Hj & Hx); [done|done|].
  exists (w ++ sep :: s), x. simpl. simpl in Hj. rewrite Hj.
  split; [by rewrite <- app_assoc | done].
Qed.

(** A normalised path is ["."], a run of one or two slashes, or a path
  that does not end with a slash. *)
Lemma normpath_shape p :
(exists s x, normpath p = s ++ [x] /\ x <> sep) \/
(normpath p <> [] /\ Forall (fun x => x = sep) (normpath p)).
Proof.
unfold normpath. destruct (bool_decide (p = [])).
{ left. by exists [], "."%char. }
set (k := if startswith p [sep] then _ else _).
set (nc := fold_left _ _ _).
assert (Hnc : Forall good_comp nc).
{ apply fold_normpath_good; [done|]. apply str_split_pieces. }
destruct (decide (nc = [])) as [Hn|Hn].
- rewrite Hn. simpl. rewrite app_nil_r.
  destruct (bool_decide (replicate k sep = [])) eqn:E.
  + left. by exists [], "."%char.
  + right. apply bool_decide_eq_false in E. split; [done|].
    by apply Forall_replicate.
- destruct (str_join_good nc) as (s & x & Hj & Hx); [done|done|].
  rewrite Hj, app_assoc, bool_decide_false by apply snoc_neq_nil.
  left. by exists (replicate k sep ++ s), x.
Qed.

(** Round trip: [split(join(normpath(d), f))] gives back
    [normpath(d)] as the head, for a plain name [f]. *)
Lemma split_join_normpath d f : plain f -> (split (join (normpath d) f)).1 = normpath d.
Proof.
intros Hf. pose proof Hf as [_ Hs]. rewrite join_plain by done.
destruct (normpath_shape d) as [(s & x & -> & Hx) | [Hne Hall]].
- rewrite bool_decide_false by (by destruct s). rewrite endswith_snoc.
  destruct (ceq_spec sep x); [congruence|]. cbn [orb].
  rewrite split_last by done. cbn [fst].
  rewrite <- app_assoc. cbn [app]. by apply strip_head_snoc_sep.
- destruct (normpath d) as [|y nd _] using rev_ind; [done|].
  apply Forall_app in Hall as [Hall Hy]. apply Forall_singleton in Hy as ->.
  rewrite endswith_snoc, ceq_refl, orb_true_r.
  rewrite <- app_assoc. cbn [app]. rewrite split_last by done. cbn [fst].
  apply strip_head_all_seps, Forall_app. split; [done|]. by constructor.
Qed.

(** C29: round trip: for a plain name [f], [split(join(normpath(d), f))]
    is [(normpath(d), f)]. *)
Theorem split_join_roundtrip d f : plain f -> split (join (normpath d) f) = (normpath d, f).
Proof.
  intros Hf. pose proof (split_join_normpath d f Hf) as Hh.
  pose proof (split_join_tail (normpath d) f Hf) as Ht.
  destruct (split _). simpl in *. by subst.
Qed.

Lemma split_join_roundtrip_witness :
  plain (py "a.c4d") /\
  split (join (normpath (py "/in/../x/")) (py "a.c4d")) = (normpath (py "/in/../x/"), py "a.c4d").
Proof.
  assert (Hp : plain (py "a.c4d")) by (split; [done | apply (bool_decide_unpack _); by vm_compute]).
  split; [exact Hp | by apply split_join_roundtrip].
Defined.

(** C30: [normpath] never returns the empty string, and its result ends
    with a slash only when it is all slashes (["/"] or ["//"]). *)
Theorem normpath_trailing_slash p :
  normpath p <> [] /\ (endswith (normpath p) [sep] = true -> Forall (fun x => x = sep) (normpath p)).
Proof.
  destruct (normpath_shape p) as [(s & x & -> & Hx) | [Hne Hall]]; [|done].
  split; [apply snoc_neq_nil|]. rewrite endswith_snoc.
  by destruct (ceq_spec sep x); [congruence|].
Qed.

(** [os.path.splitext] on a scene name: the stem of [h.c4d] is [h]
    when [h] has no slash and is not only dots. *)
Theorem splitext_c4d h :
  sep ∉ h -> (exists x, x ∈ h /\ x <> "."%char) -> splitext (h ++ py ".c4d") = (h, py ".c4d").
Proof.
  intros Hs Hh. change (py ".c4d") with ("."%char :: py "c4d").
  apply genericpath_splitext_name; [| done | | done].
  - rewrite elem_of_app. intros [|Hin]; [done|]. revert Hin. apply (bool_decide_unpack _). by vm_compute.
  - apply (bool_decide_unpack _). by vm_compute.
Qed.

Lemma splitext_c4d_witness :
  sep ∉ py "scene" /\ (exists x, x ∈ py "scene" /\ x <> "."%char) /\
  splitext (py "scene" ++ py ".c4d") = (py "scene", py ".c4d").
Proof.
  assert (Hs : sep ∉ py "scene") by (apply (bool_decide_unpack _); by vm_compute).
  assert (Hh : exists x, x ∈ py "scene" /\ x <> "."%char) by (exists "s"%char; split; [left | done]).
  split_and!; [exact Hs | exact Hh | by apply splitext_c4d].
Defined.

(** Round trip: the root and the extension [os.path.splitext]
    returns put together give the path back. *)
Theorem splitext_roundtrip p : (splitext p).1 ++ (splitext p).2 = p.
Proof.
  pose proof (genericpath_splitext_app p sep None "."%char) as Hp.
  unfold splitext. by destruct (genericpath_splitext _ _ _ _).
Qed.

End PosixPath.

(** ** [posixpath] as an [os.path] module *)
#[export] Instance posix_path : PathModule := {|
  pm_sep := PosixPath.sep;
  pm_seps := [PosixPath.sep];
  pm_split := PosixPath.split;
  pm_splitext := PosixPath.splitext;
  pm_join := PosixPath.join;
  pm_normpath := PosixPath.normpath;
  pm_normcase := PosixPath.normcase;
  pm_is_posix := true;
  pm_plain := PosixPath.plain;
  pm_good_dir _ := True;
|}.

#[export] Instance posix_path_laws : PathModuleLaws (H := posix_path).
Proof.
  split; cbn.
  - intros d f _. apply PosixPath.split_join_tail.
  - intros d f _. apply PosixPath.split_join_normpath.
  - apply PosixPath.split_prefix.
  - done.
  - intros h e [_ Hs] He Hh. by apply genericpath_splitext_name.
  - intros p. pose proof (genericpath_splitext_app p PosixPath.sep None "."%char) as Hp.
    unfold PosixPath.splitext. by destruct (genericpath_splitext _ _ _ _).
  - intros d f Hf. rewrite PosixPath.join_plain by done.
    case_match; [by exists d | by exists (d ++ [PosixPath.sep]); rewrite <- app_assoc].
  - intros d. destruct (PosixPath.normpath_shape d) as [(s & x & -> & _) | [? _]];
      [apply snoc_neq_nil | done].
  - done.
Qed.
