(* ===== verification/NtPath.v ===== *)
(** * [ntpath]: [os.path] on Windows (Python 2.7)

    [splitdrive], [split], [join], [splitext], [normpath] and [normcase]
    as CPython 2.7.18's [Lib/ntpath.py] writes them: the separators are
    the backslash and the slash, a path may start with a drive ([c:]) or
    a UNC share ([\\server\share]).  [normpath] removes [.] and [..] in an
    index loop that deletes from the list of components; it is proved
    equal to a left fold ([norm_ref]).  The instance [nt_path] of the
    [PathModule] interface is the [os.path] the Windows configuration of
    the script uses. *)
From S2P Require Import Prelude PyStr GenericPath.

(** [s.find(c, start)]: the first index [>= start] of [c] in [s], or [-1]. *)
Fixpoint find_go (c : ascii) (s : pystr) (i : Z) : Z :=
  match s with
  | [] => (-1)%Z
  | x :: s' => if ceq x c then i else find_go c s' (i + 1)%Z
  end.

Definition find (s : pystr) (c : ascii) (start : nat) : Z :=
  find_go c (drop start s) (Z.of_nat start).

Module NtPath.

Definition sep : ascii := "\".
Definition altsep : ascii := "/".
Definition colon : ascii := ":".

(** [x in '/\\'] *)
Definition is_sep (x : ascii) : bool := ceq x sep || ceq x altsep.

(** [splitdrive(p)]: a drive letter [c:] or a UNC share
    [\\server\share], and the rest. *)
Definition splitdrive (p : pystr) : pystr * pystr :=
  if 1 <? length p then
    let normp := replace_char p altsep sep in
    if bool_decide (take 2 normp = [sep; sep]) && bool_decide (take 1 (drop 2 normp) <> [sep])
    then
      let index := find normp sep 2 in
      if (index =? -1)%Z then ([], p) else
      let index2 := find normp sep (Z.to_nat index + 1) in
      if (index2 =? index + 1)%Z then ([], p) else
      let index2 := if (index2 =? -1)%Z then length p else Z.to_nat index2 in
      (take index2 p, drop index2 p)
    else if bool_decide (normp !! 1 = Some colon) then (take 2 p, drop 2 p)
    else ([], p)
  else ([], p).

(** [while i and p[i-1] not in '/\\': i = i - 1] *)
Fixpoint scan_back (p : pystr) (i : nat) : nat :=
  match i with
  | 0 => 0
  | S j => match p !! j with
           | Some x => if is_sep x then i else scan_back p j
           | None => scan_back p j
           end
  end.

(** [split(p)] *)
Definition split (p0 : pystr) : pystr * pystr :=
  let '(d, p) := splitdrive p0 in
  let i := scan_back p (length p) in
  let head := take i p in
  let tail := drop i p in
  let head2 := rstrip head [altsep; sep] in
  let head := if bool_decide (head2 = []) then head else head2 in
  (d ++ head, tail).

(** [if result_path and result_path[-1] not in '\\/': result_path += '\\';
    result_path += p_path] *)
Definition join_rel (result_path p_path : pystr) : pystr :=
  match last result_path with
  | Some x => if is_sep x then result_path ++ p_path else result_path ++ sep :: p_path
  | None => p_path
  end.

(** One round of [for p in paths] in [join], on [(result_drive,
    result_path)]. *)
Definition join_step (r : pystr * pystr) (p : pystr) : pystr * pystr :=
  let '(result_drive, result_path) := r in
  let '(p_drive, p_path) := splitdrive p in
  if (match p_path with x :: _ => is_sep x | [] => false end) then
    (* second path is absolute *)
    (if bool_decide (p_drive <> []) || bool_decide (result_drive = [])
     then p_drive else result_drive, p_path)
  else if bool_decide (p_drive <> []) && bool_decide (p_drive <> result_drive) then
    if bool_decide (lower p_drive <> lower result_drive)
    then (p_drive, p_path)                          (* different drives *)
    else (p_drive, join_rel result_path p_path)     (* same drive, other case *)
  else (result_drive, join_rel result_path p_path).

(** [join(path, *paths)] *)
Definition join_many (path : pystr) (paths : list pystr) : pystr :=
  let '(result_drive, result_path) := fold_left join_step paths (splitdrive path) in
  (* add separator between UNC and non-absolute path *)
  if (match result_path with x :: _ => negb (is_sep x) | [] => false end) &&
     bool_decide (result_drive <> []) && bool_decide (last result_drive <> Some colon)
  then result_drive ++ sep :: result_path
  else result_drive ++ result_path.

Definition join (a b : pystr) : pystr := join_many a [b].

Definition splitext (p : pystr) : pystr * pystr :=
  genericpath_splitext p sep (Some altsep) ".".

(** [while path[:1] == '\\': prefix = prefix + '\\'; path = path[1:]] *)
Fixpoint move_seps (prefix path : pystr) : pystr * pystr :=
  match path with
  | x :: path' => if ceq x sep then move_seps (prefix ++ [sep]) path' else (prefix, path)
  | [] => (prefix, [])
  end.

(** The loop [while i < len(comps)] of [normpath], run for [fuel]
    rounds: every round deletes a component or moves past one, so
    [len(comps) - i] rounds are enough. *)
Fixpoint normpath_loop (fuel : nat) (prefix : pystr) (i : nat) (comps : list pystr)
    : list pystr :=
  match fuel with
  | 0 => comps
  | S fuel' =>
      match comps !! i with
      | None => comps
      | Some c =>
          if bool_decide (c = py ".") || bool_decide (c = []) then
            normpath_loop fuel' prefix i (delete i comps)
          else if bool_decide (c = py "..") then
            if bool_decide (0 < i) && bool_decide (comps !! (i - 1) <> Some (py "..")) then
              normpath_loop fuel' prefix (i - 1) (take (i - 1) comps ++ drop (i + 1) comps)
            else if bool_decide (i = 0) && endswith prefix [sep] then
              normpath_loop fuel' prefix i (delete i comps)
            else normpath_loop fuel' prefix (i + 1) comps
          else normpath_loop fuel' prefix (i + 1) comps
      end
  end.

(** [normpath(path)] *)
Definition normpath (path0 : pystr) : pystr :=
  if startswith path0 (py "\\.\") || startswith path0 (py "\\?\") then path0 else
  let path := replace_char path0 altsep sep in
  let '(prefix, path) := splitdrive path in
  let '(prefix, path) :=
    if bool_decide (prefix = []) then move_seps prefix path
    else if startswith path [sep] then (prefix ++ [sep], lstrip path [sep])
    else (prefix, path) in
  let comps := str_split path sep in
  let comps := normpath_loop (length comps) prefix 0 comps in
  let comps := if bool_decide (prefix = []) && bool_decide (comps = []) then [py "."] else comps in
  prefix ++ str_join [sep] comps.

(** [normcase(s)]: [s.replace('/', '\\').lower()] *)
Definition normcase (s : pystr) : pystr := lower (replace_char s altsep sep).

#[global] Arguments splitdrive : simpl never.
#[global] Arguments split : simpl never.
#[global] Arguments join : simpl never.
#[global] Arguments normpath : simpl never.

(** A plain file name: non-empty, with no separator and no colon (so
    no drive either). *)
Definition plain (f : pystr) : Prop := f <> [] /\ sep ∉ f /\ altsep ∉ f /\ colon ∉ f.

(** A directory with a drive letter, as both directories of the
    Windows configuration. *)
Definition good_dir (d : pystr) : Prop := exists x rest, d = x :: colon :: rest.

Example splitdrive_unc :
  splitdrive (py "\\srv\share\x") = (py "\\srv\share", py "\x").
Proof. reflexivity. Qed.
Example nt_split_ex :
  split (py "d:\a\b") = (py "d:\a", py "b") /\ split (py "d:\") = (py "d:\", []) /\
  split (py "\\srv\share\") = (py "\\srv\share\", []).
Proof. split_and!; reflexivity. Qed.
Example join_ex :
  join (py "d:\a") (py "b") = py "d:\a\b" /\ join (py "c:") (py "x") = py "c:x" /\
  join (py "c:\a") (py "D:b") = py "D:b" /\ join (py "c:\a") (py "C:b") = py "C:\a\b" /\
  join (py "\\srv\share") (py "x") = py "\\srv\share\x".
Proof. split_and!; reflexivity. Qed.
Example nt_normpath_ex :
  normpath (py "d:/onedrive/tano/c4d") = py "d:\onedrive\tano\c4d" /\
  normpath (py "A/foo/../B") = py "A\B" /\ normpath (py "c:\..\x") = py "c:\x" /\
  normpath [] = py "." /\ normpath (py "..\..") = py "..\.." /\
  normpath (py "\\.\COM1") = py "\\.\COM1".
Proof. split_and!; reflexivity. Qed.
Example normcase_ex : normcase (py "D:/A/B.C4D") = py "d:\a\b.c4d".
Proof. reflexivity. Qed.

(** ** The loop of [normpath] is a left fold *)

(** The reference: the components kept so far, and the next one. *)
Definition norm_push (prefix : pystr) (acc : list pystr) (c : pystr) : list pystr :=
  if bool_decide (c = py ".") || bool_decide (c = []) then acc
  else if bool_decide (c = py "..") then
    match last acc with
    | Some l => if bool_decide (l <> py "..") then removelast acc else acc ++ [c]
    | None => if endswith prefix [sep] then acc else acc ++ [c]
    end
  else acc ++ [c].

Definition norm_ref (prefix : pystr) (comps : list pystr) : list pystr :=
  fold_left (norm_push prefix) comps [].

Lemma take_delete_same {A} (l : list A) i : take i (delete i l) = take i l.
Proof.
  rewrite delete_take_drop, take_app, take_take, Nat.min_id, length_take.
  destruct (decide (i <= length l)).
  - replace (i - min i (length l)) with 0 by lia. by rewrite take_0, app_nil_r.
  - rewrite (drop_ge l) by lia. by rewrite take_nil, app_nil_r.
Qed.

Lemma drop_delete_same {A} (l : list A) i : i < length l -> drop i (delete i l) = drop (S i) l.
Proof.
  intros Hi. rewrite delete_take_drop, drop_app_le by (rewrite length_take; lia).
  rewrite drop_ge by (rewrite length_take; lia). done.
Qed.

Lemma last_take {A} (l : list A) i : 0 < i -> i <= length l -> last (take i l) = l !! (i - 1).
Proof. intros ??. rewrite last_lookup, length_take, Nat.min_l, lookup_take_lt by lia. f_equal. lia. Qed.

Lemma norm_push_skip p acc c : c = py "." \/ c = [] -> norm_push p acc c = acc.
Proof. intros [-> | ->]; done. Qed.

Lemma norm_push_pop p acc l : last acc = Some l -> l <> py ".." ->
  norm_push p acc (py "..") = removelast acc.
Proof. intros Hl Hl2. unfold norm_push. simpl. rewrite Hl. by rewrite bool_decide_true. Qed.

Lemma norm_push_root p : endswith p [sep] = true -> norm_push p [] (py "..") = [].
Proof. intros Hp. unfold norm_push. simpl. by rewrite Hp. Qed.

Lemma norm_push_keep p acc c : c <> py "." -> c <> [] ->
  (c = py ".." -> last acc = Some (py "..") \/ (acc = [] /\ endswith p [sep] = false)) ->
  norm_push p acc c = acc ++ [c].
Proof.
  intros H1 H2 H3. unfold norm_push. rewrite !bool_decide_false by done. cbn [orb].
  case_bool_decide as Hd; [|done].
  destruct (H3 Hd) as [-> | [-> ->]]; [|done]. case_bool_decide as Hn; [by destruct Hn | done].
Qed.

(** At index [i] the loop has [take i comps] behind it, which is what
    the fold has built, and [drop i comps] ahead. *)
Lemma normpath_loop_ref_gen fuel prefix i comps :
  length comps - i <= fuel -> i <= length comps ->
  normpath_loop fuel prefix i comps = fold_left (norm_push prefix) (drop i comps) (take i comps).
Proof.
  revert i comps. induction fuel as [|fuel IH]; intros i comps Hf Hi; cbn [normpath_loop].
  { rewrite drop_ge, take_ge by lia. done. }
  destruct (comps !! i) as [c|] eqn:Hc.
  2:{ apply lookup_ge_None in Hc. rewrite drop_ge, take_ge by lia. done. }
  pose proof (lookup_lt_Some _ _ _ Hc) as Hlt.
  rewrite (drop_S comps c i Hc). cbn [fold_left].
  destruct (decide (c = py "." \/ c = [])) as [Hs|Hs].
  { assert (E : bool_decide (c = py ".") || bool_decide (c = []) = true)
      by (destruct Hs; apply orb_true_iff; [left|right]; by apply bool_decide_eq_true).
    rewrite E, norm_push_skip by done. rewrite IH by (rewrite length_delete; [lia | by eexists]).
    by rewrite take_delete_same, drop_delete_same. }
  assert (E : bool_decide (c = py ".") || bool_decide (c = []) = false)
    by (apply orb_false_iff; split; apply bool_decide_eq_false; naive_solver).
  rewrite E. clear E.
  assert (Hk : take (i + 1) comps = take i comps ++ [c] /\ drop (i + 1) comps = drop (S i) comps)
    by (rewrite Nat.add_1_r; split; [by apply take_S_r | done]).
  assert (Hn1 : c <> py ".") by (intros ?; apply Hs; by left).
  assert (Hn2 : c <> []) by (intros ?; apply Hs; by right).
  case_bool_decide as Hdd; [subst c|].
  2:{ rewrite norm_push_keep by (done || (intros ?; congruence)). rewrite IH by lia. by rewrite (proj1 Hk), (proj2 Hk). }
  destruct (decide (0 < i)) as [Hpos|Hz].
  - pose proof (last_take comps i Hpos Hi) as Hlast.
    destruct (comps !! (i - 1)) as [l|] eqn:Hl.
    2:{ apply lookup_ge_None in Hl. lia. }
    rewrite bool_decide_true by done. cbn [andb].
    destruct (decide (l = py "..")) as [->|Hl2].
    + rewrite bool_decide_false by congruence. cbn [andb].
      rewrite (bool_decide_false (i = 0)) by lia. cbn [andb].
      rewrite norm_push_keep by naive_solver. rewrite IH by lia. by rewrite (proj1 Hk), (proj2 Hk).
    + rewrite bool_decide_true by congruence.
      rewrite (norm_push_pop _ _ l) by done.
      rewrite IH by (rewrite length_app, length_take, length_drop; lia).
      rewrite take_app_le, drop_app_le by (rewrite length_take; lia).
      rewrite take_take, Nat.min_id, drop_ge, app_nil_l by (rewrite length_take; lia).
      assert (Ht : take i comps = take (i - 1) comps ++ [l])
        by (replace i with (S (i - 1)) at 1 by lia; by apply take_S_r).
      by rewrite Ht, removelast_last, (proj2 Hk).
  - assert (i = 0) as -> by lia. rewrite take_0.
    rewrite (bool_decide_false (0 < 0)) by lia. cbn [andb].
    rewrite (bool_decide_true (0 = 0)) by lia. cbn [andb].
    destruct (endswith prefix [sep]) eqn:Hp.
    + rewrite norm_push_root by done.
      rewrite IH by (rewrite length_delete; [lia | by eexists]).
      rewrite (take_delete_same comps 0), drop_delete_same by lia. by rewrite take_0.
    + rewrite norm_push_keep by naive_solver. rewrite IH by lia.
      rewrite (proj1 Hk), (proj2 Hk). by rewrite take_0.
Qed.

(** The index loop of [normpath], run with the fuel [normpath] gives it,
    computes [norm_ref]. *)
Lemma normpath_loop_ref prefix comps :
  normpath_loop (length comps) prefix 0 comps = norm_ref prefix comps.
Proof. rewrite normpath_loop_ref_gen by lia. done. Qed.

(** ** [splitdrive], [join] and [split] on the paths the script builds *)

Lemma is_sep_spec x : is_sep x = true <-> x ∈ [altsep; sep].
Proof.
  unfold is_sep. rewrite orb_true_iff, !ceq_true. set_solver.
Qed.

Lemma plain_no_sep f : plain f -> Forall (fun x => is_sep x = false) f.
Proof.
  intros (_ & Hs & Ha & _). apply Forall_forall. intros x Hx.
  apply not_true_iff_false. rewrite is_sep_spec. set_solver.
Qed.

Lemma splitdrive_plain f : plain f -> splitdrive f = ([], f).
Proof.
  intros Hf. pose proof Hf as (_ & Hs & Ha & Hc). unfold splitdrive.
  rewrite replace_char_notin by done.
  destruct (1 <? length f); [|done].
  rewrite (bool_decide_false (take 2 f = _)).
  2:{ intros Ht. apply Hs. apply (elem_of_prefix (take 2 f)); [rewrite Ht; set_solver|].
      apply prefix_take. }
  cbn [andb]. rewrite bool_decide_false; [done|]. intros H1%list_elem_of_lookup_2. set_solver.
Qed.

Lemma splitdrive_drive x rest : splitdrive (x :: colon :: rest) = ([x; colon], rest).
Proof.
  unfold splitdrive. simpl.
  rewrite bool_decide_false by (intros [= _ H]; unfold colon, sep in H; congruence).
  cbn [andb]. by rewrite take_0, drop_0.
Qed.

(** [join(d, f)] for a plain [f]: [f] is relative and has no drive. *)
Lemma nt_join_plain d f : plain f ->
  join d f =
    let '(rd, rp) := splitdrive d in
    let r := join_rel rp f in
    if (match r with x :: _ => negb (is_sep x) | [] => false end) &&
       bool_decide (rd <> []) && bool_decide (last rd <> Some colon)
    then rd ++ sep :: r else rd ++ r.
Proof.
  intros Hf. unfold join, join_many. cbn [fold_left].
  destruct (splitdrive d) as [rd rp]. unfold join_step.
  rewrite splitdrive_plain by done.
  destruct f as [|y f]; [by destruct Hf|].
  pose proof (plain_no_sep _ Hf) as Hy%Forall_cons_1. rewrite (proj1 Hy). done.
Qed.

(** [join_rel rp f] is [rp], then a separator unless [rp] is empty or
    ends with one, then [f]. *)
Lemma join_rel_shape rp f :
  exists pre, join_rel rp f = pre ++ f /\
    (pre = [] \/ exists s y, pre = s ++ [y] /\ is_sep y = true).
Proof.
  unfold join_rel. destruct (last rp) as [x|] eqn:Hl.
  - apply last_Some in Hl as [s ->]. destruct (is_sep x) eqn:Hx.
    + exists (s ++ [x]). split; [done|]. right. by exists s, x.
    + exists ((s ++ [x]) ++ [sep]). split; [by rewrite <- !app_assoc|].
      right. by exists (s ++ [x]), sep.
  - exists []. split; [done|]. by left.
Qed.

(** The index [split] finds: just after the last separator. *)
Lemma scan_back_app pre f :
  Forall (fun x => is_sep x = false) f ->
  (pre = [] \/ exists s y, pre = s ++ [y] /\ is_sep y = true) ->
  scan_back (pre ++ f) (length (pre ++ f)) = length pre.
Proof.
  intros Hf Hpre. rewrite length_app.
  assert (Hk : forall k, k <= length f ->
            scan_back (pre ++ f) (length pre + k) = scan_back (pre ++ f) (length pre)).
  { induction k as [|k IH]; intros Hk; [by rewrite Nat.add_0_r|].
    rewrite Nat.add_succ_r. cbn [scan_back].
    rewrite lookup_app_r, Nat.add_comm, Nat.add_sub by lia.
    destruct (f !! k) as [y|] eqn:Hy; [|apply lookup_ge_None in Hy; lia].
    rewrite (Forall_lookup_1 _ _ _ _ Hf Hy), Nat.add_comm. apply IH. lia. }
  rewrite Hk by lia.
  destruct Hpre as [-> | (s & y & -> & Hy)]; [done|].
  rewrite length_app. simpl. rewrite Nat.add_1_r. cbn [scan_back].
  rewrite lookup_app_l by (rewrite length_app; simpl; lia).
  rewrite lookup_app_r, Nat.sub_diag by lia. simpl. by rewrite Hy.
Qed.

(** [split] of [x: + pre + f]: the tail is [f]; the head is the drive
    and [pre] without its trailing separators, unless [pre] is all
    separators. *)
Lemma split_drive_app x pre f :
  Forall (fun x => is_sep x = false) f ->
  (pre = [] \/ exists s y, pre = s ++ [y] /\ is_sep y = true) ->
  split (x :: colon :: pre ++ f) =
    ([x; colon] ++ (if bool_decide (rstrip pre [altsep; sep] = []) then pre
                    else rstrip pre [altsep; sep]), f).
Proof.
  intros Hf Hpre. unfold split. rewrite splitdrive_drive.
  rewrite scan_back_app by done.
  by rewrite take_app_length, drop_app_length.
Qed.

(** For a directory with a drive letter, [split(join(d, f))] has the
    plain name [f] as its tail. *)
(** [join(x: + rest, f)] never puts a separator right after the drive. *)
Lemma join_drive x rest f : plain f -> join (x :: colon :: rest) f = x :: colon :: join_rel rest f.
Proof.
  intros Hf. rewrite nt_join_plain, splitdrive_drive by done. cbn zeta.
  rewrite (bool_decide_false (last _ <> _)) by (intros Hn; by apply Hn).
  by rewrite andb_false_r.
Qed.

Lemma nt_split_join_tail d f : good_dir d -> plain f -> (split (join d f)).2 = f.
Proof.
  intros (x & rest & ->) Hf. rewrite join_drive by done.
  destruct (join_rel_shape rest f) as (pre & -> & Hpre).
  by rewrite split_drive_app by (done || by apply plain_no_sep).
Qed.

(** ** The shape of a normalised path with a drive *)
Definition comp_ok (w : pystr) : Prop := w <> [] /\ sep ∉ w /\ altsep ∉ w.

Lemma elem_of_removelast {A} (l : list A) x : x ∈ removelast l -> x ∈ l.
Proof.
  destruct l as [|y l _] using rev_ind; [done|].
  rewrite removelast_last. set_solver.
Qed.

Lemma norm_push_sub p acc c w : w ∈ norm_push p acc c -> w ∈ acc \/ (w = c /\ c <> []).
Proof.
  unfold norm_push. intros Hw.
  repeat (case_match || case_bool_decide); simplify_eq;
    try (apply elem_of_removelast in Hw); set_solver.
Qed.

(** What the fold keeps is a non-empty component it was given. *)
Lemma norm_fold_sub p cs acc w :
  w ∈ fold_left (norm_push p) cs acc -> w ∈ acc \/ (w ∈ cs /\ w <> []).
Proof.
  revert acc. induction cs as [|c cs IH]; intros acc Hw; simpl in *; [by left|].
  destruct (IH _ Hw) as [Hw'|[Hw' Hne]]; [|set_solver].
  destruct (norm_push_sub _ _ _ _ Hw') as [?|[-> ?]]; set_solver.
Qed.

Lemma norm_ref_ok p path :
  altsep ∉ path -> Forall comp_ok (norm_ref p (str_split path sep)).
Proof.
  intros Ha. apply Forall_forall. intros w Hw.
  destruct (norm_fold_sub _ _ _ _ Hw) as [?|[Hin Hne]]; [set_solver|].
  pose proof (proj1 (Forall_forall _ _) (str_split_pieces path sep) w Hin) as Hs.
  pose proof (proj1 (Forall_forall _ _) (str_split_sub path sep) w Hin) as Hsub.
  split_and!; [done|done|]. intros Hw'. by apply Ha, Hsub.
Qed.

Lemma startswith_drive x rest q : startswith (x :: colon :: rest) (sep :: sep :: q) = false.
Proof. simpl. change (ceq sep colon) with false. by rewrite andb_false_r. Qed.

(** [normpath] of a path with a drive: the drive (its letter with [/]
    turned into [\]), at most one separator, and components joined with
    [\] that are non-empty and have no separator. *)
Lemma normpath_drive x rest :
  exists x' lead cs, normpath (x :: colon :: rest) = x' :: colon :: lead ++ str_join [sep] cs /\
    (lead = [] \/ lead = [sep]) /\ Forall comp_ok cs.
Proof.
  unfold normpath.
  assert (H1 : startswith (x :: colon :: rest) (py "\\.\") = false) by apply startswith_drive.
  assert (H2 : startswith (x :: colon :: rest) (py "\\?\") = false) by apply startswith_drive.
  rewrite H1, H2. cbn [orb].
  unfold replace_char at 1. cbn [map]. change (ceq colon altsep) with false. cbn iota.
  fold (replace_char rest altsep sep).
  set (x' := if ceq x altsep then sep else x). set (rest' := replace_char rest altsep sep).
  assert (Ha : altsep ∉ rest') by (apply replace_char_gone; done).
  rewrite splitdrive_drive. rewrite bool_decide_false by done.
  destruct (startswith rest' [sep]).
  - exists x', [sep], (norm_ref [x'; colon; sep] (str_split (lstrip rest' [sep]) sep)).
    rewrite normpath_loop_ref, (bool_decide_false ([x'; colon] ++ [sep] = [])) by done.
    split_and!; [done | by right |]. apply norm_ref_ok.
    intros Hin. apply Ha. by apply (elem_of_suffix _ _ _ Hin), lstrip_suffix.
  - exists x', [], (norm_ref [x'; colon] (str_split rest' sep)).
    rewrite normpath_loop_ref, (bool_decide_false ([x'; colon] = [])) by done.
    split_and!; [done | by left | by apply norm_ref_ok].
Qed.


Lemma str_join_last cs : cs <> [] -> Forall comp_ok cs ->
  exists s y, str_join [sep] cs = s ++ [y] /\ is_sep y = false.
Proof.
  induction cs as [|w cs IH]; [done|]. intros _ Hcs.
  apply Forall_cons in Hcs as [(Hw & Hs & Ha) Hcs].
  destruct cs as [|w' cs'].
  - destruct w as [|y w _] using rev_ind; [done|]. exists w, y. split; [done|].
    apply not_true_iff_false. rewrite is_sep_spec. set_solver.
  - destruct IH as (s & y & Hj & Hy); [done|done|].
    exists (w ++ sep :: s), y. cbn [str_join]. cbn [str_join] in Hj. rewrite Hj.
    split; [by rewrite <- app_assoc | done].
Qed.

Lemma rstrip_seps_sep : rstrip [sep] [altsep; sep] = [].
Proof. reflexivity. Qed.

(** Round trip: [split(join(normpath(d), f))] gives back [normpath(d)]
    as the head, for a directory with a drive and a plain name. *)
Lemma nt_split_join_normpath d f : good_dir d -> plain f ->
  (split (join (normpath d) f)).1 = normpath d.
Proof.
  intros (x & rest & ->) Hf. pose proof (plain_no_sep _ Hf) as Hfs.
  destruct (normpath_drive x rest) as (x' & lead & cs & -> & Hlead & Hcs).
  rewrite join_drive by done.
  destruct (decide (cs = [])) as [->|Hne].
  - cbn [str_join]. rewrite app_nil_r.
    destruct Hlead as [-> | ->].
    + unfold join_rel. cbn [last]. change (x' :: colon :: f) with (x' :: colon :: [] ++ f).
      by rewrite (split_drive_app x' [] f) by (done || by left).
    + unfold join_rel. cbn [last]. change (is_sep sep) with true. cbn iota.
      assert (Hpre : exists s' y', [sep] = s' ++ [y'] /\ is_sep y' = true) by (by exists [], sep).
      rewrite (split_drive_app x' [sep] f) by (done || by right).
      by rewrite rstrip_seps_sep.
  - destruct (str_join_last cs Hne Hcs) as (s & y & -> & Hy).
    set (L := lead ++ s ++ [y]).
    assert (HL : last L = Some y) by (unfold L; rewrite app_assoc; apply last_snoc).
    unfold join_rel. rewrite HL, Hy.
    replace (L ++ sep :: f) with ((L ++ [sep]) ++ f) by (by rewrite <- app_assoc).
    assert (Hpre : exists s' y', L ++ [sep] = s' ++ [y'] /\ is_sep y' = true) by (by exists L, sep).
    rewrite split_drive_app by (done || by right).
    assert (Hr : rstrip (L ++ [sep]) [altsep; sep] = L).
    { unfold L. rewrite app_assoc, <- (app_assoc _ [y] [sep]). cbn [app].
      rewrite rstrip_app_r; [by rewrite <- app_assoc | |repeat constructor; set_solver].
      intros Hin%(is_sep_spec y). congruence. }
    rewrite Hr, bool_decide_false by (unfold L; rewrite app_assoc; apply snoc_neq_nil). done.
Qed.

(** C27: round trip on Windows: for a directory with a drive letter and
    a plain name [f], [split(join(normpath(d), f))] is [(normpath(d), f)]. *)
Theorem nt_split_join_roundtrip d f :
  good_dir d -> plain f -> split (join (normpath d) f) = (normpath d, f).
Proof.
  intros Hd Hf. pose proof (nt_split_join_normpath d f Hd Hf) as H1.
  assert (Hg : good_dir (normpath d)).
  { destruct Hd as (x & rest & ->). destruct (normpath_drive x rest) as (x' & lead & cs & -> & _).
    by exists x', (lead ++ str_join [sep] cs). }
  pose proof (nt_split_join_tail _ f Hg Hf) as H2.
  destruct (split _); simpl in *; congruence.
Qed.

Lemma normpath_good d : good_dir d -> good_dir (normpath d).
Proof.
  intros (x & rest & ->). destruct (normpath_drive x rest) as (x' & lead & cs & -> & _).
  by exists x', (lead ++ str_join [sep] cs).
Qed.

Lemma norm_ref_nonempty p cs : Forall (fun w => w <> []) (norm_ref p cs).
Proof.
  apply Forall_forall. intros w Hw.
  by destruct (norm_fold_sub _ _ _ _ Hw) as [?%not_elem_of_nil|[_ ?]].
Qed.

(** [normpath] never returns the empty string. *)
Lemma normpath_nonempty p : normpath p <> [].
Proof.
  unfold normpath. destruct (_ || _) eqn:E; [by destruct p|].
  destruct (splitdrive _) as [prefix path].
  destruct (if bool_decide (prefix = []) then _ else _) as [prefix' path'].
  rewrite normpath_loop_ref.
  destruct prefix' as [|y pr]; [|done]. rewrite bool_decide_true by done. cbn [andb app].
  case_bool_decide; [done|]. by apply str_join_nonempty, norm_ref_nonempty.
Qed.

Lemma nt_split_join_roundtrip_witness :
  good_dir (py "d:/onedrive/tano/c4d") /\ plain (py "Ship.C4D") /\
  split (join (normpath (py "d:/onedrive/tano/c4d")) (py "Ship.C4D")) =
    (normpath (py "d:/onedrive/tano/c4d"), py "Ship.C4D").
Proof.
  assert (Hd : good_dir (py "d:/onedrive/tano/c4d")) by (by eexists _, _).
  assert (Hf : plain (py "Ship.C4D")).
  { split_and!; [done | | |]; apply (bool_decide_unpack _); by vm_compute. }
  split_and!; [exact Hd | exact Hf |]. exact (nt_split_join_roundtrip _ _ Hd Hf).
Defined.

(** C28: termination of [normpath]'s [while i < len(comps)] loop: every
    round deletes a component or moves past one, so any fuel from
    [len(comps)] on gives the same result, the left fold [norm_ref]. *)
Theorem normpath_loop_fuel fuel prefix comps :
  length comps <= fuel -> normpath_loop fuel prefix 0 comps = norm_ref prefix comps.
Proof. intros Hf. rewrite normpath_loop_ref_gen by lia. done. Qed.

Lemma normpath_loop_fuel_witness :
  length [py "a"; py ".."; py "."; py "b"] <= 10 /\
  normpath_loop 10 [] 0 [py "a"; py ".."; py "."; py "b"] =
    norm_ref [] [py "a"; py ".."; py "."; py "b"].
Proof. split; [simpl; lia | apply normpath_loop_fuel; simpl; lia]. Defined.

Lemma splitdrive_app p : (splitdrive p).1 ++ (splitdrive p).2 = p.
Proof. unfold splitdrive. repeat case_match; simpl; by rewrite ?take_drop. Qed.

(** The head of [split(p)] is a prefix of [p]: the drive, then a prefix
    of the rest. *)
Lemma nt_split_prefix p : (split p).1 `prefix_of` p.
Proof.
  pose proof (splitdrive_app p) as Hp. unfold split.
  destruct (splitdrive p) as [d rest]. cbn [fst snd] in *. rewrite <- Hp.
  apply prefix_app. transitivity (take (scan_back rest (length rest)) rest); [|apply prefix_take].
  case_bool_decide; [done | apply rstrip_prefix].
Qed.

(** [join(d, f)] ends with a plain [f], whatever [d]. *)
Lemma join_plain_suffix d f : plain f -> exists pre, join d f = pre ++ f.
Proof.
  intros Hf. rewrite nt_join_plain by done. destruct (splitdrive d) as [rd rp]. cbn zeta.
  destruct (join_rel_shape rp f) as (pre & -> & _).
  case_match; [exists (rd ++ sep :: pre) | exists (rd ++ pre)]; by rewrite <- ?app_assoc.
Qed.

End NtPath.

(** ** [ntpath] as an [os.path] module.  [posixpath] is the instance
    found by default; a development about the Windows host installs this
    one locally. *)
Definition nt_path : PathModule := {|
  pm_sep := NtPath.sep;
  pm_seps := [NtPath.altsep; NtPath.sep];
  pm_split := NtPath.split;
  pm_splitext := NtPath.splitext;
  pm_join := NtPath.join;
  pm_normpath := NtPath.normpath;
  pm_normcase := NtPath.normcase;
  pm_is_posix := false;
  pm_plain := NtPath.plain;
  pm_good_dir := NtPath.good_dir;
|}.

#[export] Instance nt_path_laws : PathModuleLaws (H := nt_path).
Proof.
  split; cbn.
  - apply NtPath.nt_split_join_tail.
  - apply NtPath.nt_split_join_normpath.
  - apply NtPath.nt_split_prefix.
  - apply NtPath.normpath_good.
  - intros h e (_ & Hs & Ha & _) He Hh. apply genericpath_splitext_name; [done | by intros a [= <-] | done | done].
  - intros p. pose proof (genericpath_splitext_app p NtPath.sep (Some NtPath.altsep) "."%char) as Hp.
    unfold NtPath.splitext. by destruct (genericpath_splitext _ _ _ _).
  - apply NtPath.join_plain_suffix.
  - apply NtPath.normpath_nonempty.
  - done.
Qed.
