(* ===== verification/Fnmatch.v ===== *)
(** * [fnmatch]: shell patterns, as [glob.glob] uses them (Python 2.7)

    [fnmatch.translate] turns a pattern into a regular expression; here
    the expression is kept as its list of tokens ([Tok]) instead of its
    text.  Compiling it ([compile]) parses the character classes and
    fails, as [re.compile] raises [re.error], on a reversed range.  The
    compiled expression, followed by [\Z] and flagged [(?ms)], is matched
    from the start of the name ([rmatch]).  [fnmatch.filter] normalises
    the case of the pattern and, off POSIX, of every name.

    The documented meaning of a pattern without brackets is the relation
    [gmatch]; [fnmatch_correct] proves that translation, compilation and
    matching decide it. *)
From S2P Require Import Prelude PyStr GenericPath PosixPath.

(** ** Tokens of the translated pattern *)
Inductive Tok : Type :=
| TStar                           (** ['*'] gives ['.*'] *)
| TAny                            (** ['?'] gives ['.'] *)
| TLit (c : ascii)                (** any other character, escaped *)
| TClass (neg : bool) (body : pystr).  (** ['[...]']; [neg] for ['[!...]'] *)

(** [j] scans [pat[i:]] for the closing bracket: an optional ['!'], an
    optional [']'], then up to the next [']'].  [None] when there is none
    ([j >= n]). *)
Fixpoint break_at (c : ascii) (s : pystr) : option (pystr * pystr) :=
  match s with
  | [] => None
  | x :: s' =>
      if ceq x c then Some ([], s')
      else match break_at c s' with
           | Some (b, a) => Some (x :: b, a)
           | None => None
           end
  end.

Definition bracket_scan (rest : pystr) : option (pystr * pystr) :=
  let '(pre, r1) := match rest with
                    | x :: r => if ceq x "!" then ([x], r) else ([], rest)
                    | [] => ([], rest)
                    end in
  let '(pre, r2) := match r1 with
                    | x :: r => if ceq x "]" then (pre ++ [x], r) else (pre, r1)
                    | [] => (pre, r1)
                    end in
  match break_at "]" r2 with
  | Some (body, after) => Some (pre ++ body, after)
  | None => None
  end.

(** The class token for [stuff = pat[i:j]]: a leading ['!'] negates, a
    leading ['^'] is escaped and so is an ordinary member. *)
Definition class_tok (stuff : pystr) : Tok :=
  match stuff with
  | x :: s => if ceq x "!" then TClass true s else TClass false stuff
  | [] => TClass false []
  end.

(** The [while i < n] loop of [translate]; each round consumes at least
    one character, so [length pat] rounds are enough. *)
Fixpoint translate_go (fuel : nat) (pat : pystr) : list Tok :=
  match fuel with
  | 0 => []
  | S fuel' =>
      match pat with
      | [] => []
      | c :: rest =>
          if ceq c "*" then TStar :: translate_go fuel' rest
          else if ceq c "?" then TAny :: translate_go fuel' rest
          else if ceq c "[" then
            match bracket_scan rest with
            | Some (stuff, after) => class_tok stuff :: translate_go fuel' after
            | None => TLit c :: translate_go fuel' rest
            end
          else TLit c :: translate_go fuel' rest
      end
  end.

Definition translate (pat : pystr) : list Tok := translate_go (length pat) pat.

(** ** Compiled expressions *)
Inductive RTok : Type :=
| RStar
| RAny
| RLit (c : ascii)
| RClass (neg : bool) (ranges : list (ascii * ascii)).

(** The members of a class, as [sre_parse] reads them: [a-b] is a range,
    a ['-'] first or last is itself; a range whose end is below its start
    is an error. *)
Fixpoint class_ranges (body : pystr) : option (list (ascii * ascii)) :=
  match body with
  | [] => Some []
  | c :: ((d :: rest) as tl) =>
      if ceq d "-" then
        match rest with
        | [] => Some [(c, c); ("-"%char, "-"%char)]
        | e :: rest' =>
            if (nat_of_ascii e <? nat_of_ascii c)%nat then None
            else (fun rs => (c, e) :: rs) <$> class_ranges rest'
        end
      else (fun rs => (c, c) :: rs) <$> class_ranges tl
  | [c] => Some [(c, c)]
  end.

Definition compile_tok (t : Tok) : option RTok :=
  match t with
  | TStar => Some RStar
  | TAny => Some RAny
  | TLit c => Some (RLit c)
  | TClass neg body => RClass neg <$> class_ranges body
  end.

Definition compile (ts : list Tok) : option (list RTok) := mapM compile_tok ts.

Definition in_ranges (rs : list (ascii * ascii)) (x : ascii) : bool :=
  existsb (fun '(lo, hi) =>
             (nat_of_ascii lo <=? nat_of_ascii x)%nat && (nat_of_ascii x <=? nat_of_ascii hi)%nat) rs.

(** All the suffixes of a string, longest first. *)
Fixpoint suffixes (s : pystr) : list pystr :=
  s :: match s with [] => [] | _ :: s' => suffixes s' end.

(** [re.match(regex + '\Z(?ms)', name)]: the whole name must be matched,
    and ['.'] matches any character (DOTALL). *)
Fixpoint rmatch (ts : list RTok) (s : pystr) : bool :=
  match ts with
  | [] => bool_decide (s = [])
  | RStar :: ts' => existsb (rmatch ts') (suffixes s)
  | RAny :: ts' => match s with [] => false | _ :: s' => rmatch ts' s' end
  | RLit c :: ts' => match s with [] => false | x :: s' => ceq x c && rmatch ts' s' end
  | RClass neg rs :: ts' =>
      match s with
      | [] => false
      | x :: s' => xorb neg (in_ranges rs x) && rmatch ts' s'
      end
  end.

(** [fnmatch.filter(names, pat)]: [None] when the pattern does not
    compile ([re.error]). *)
Definition fnmatch_filter `{PathModule} (names : list pystr) (pat : pystr)
    : option (list pystr) :=
  let pat := pm_normcase pat in
  match compile (translate pat) with
  | None => None
  | Some re =>
      Some (if pm_is_posix then filter (fun n => rmatch re n = true) names
            else filter (fun n => rmatch re (pm_normcase n) = true) names)
  end.

Example translate_c4d :
  translate (py "*.c4d") = [TStar; TLit "."; TLit "c"; TLit "4"; TLit "d"].
Proof. reflexivity. Qed.
Example translate_class :
  translate (py "[!]a-c]x[") = [TClass true (py "]a-c"); TLit "x"; TLit "["].
Proof. reflexivity. Qed.

(** ** Enough fuel for [translate] *)
Lemma break_at_length c s b a : break_at c s = Some (b, a) -> length a < length s.
Proof.
  revert b. induction s as [|x s IH]; intros b; simpl; [done|].
  destruct (ceq x c); [intros [= _ <-]; lia|].
  destruct (break_at c s) as [[b' a']|] eqn:E; [|done].
  intros [= _ <-]. specialize (IH b' eq_refl). lia.
Qed.

Lemma bracket_scan_length rest stuff after :
  bracket_scan rest = Some (stuff, after) -> length after < length rest.
Proof.
  unfold bracket_scan. intros H.
  repeat (case_match; simplify_eq/=);
    match goal with Hb : break_at _ _ = Some _ |- _ => apply break_at_length in Hb end;
    simpl in *; lia.
Qed.

(** C26: termination of [translate]'s loop: every round consumes a
    character, so any fuel of at least [length pat] rounds gives the same
    tokens. *)
Theorem translate_go_fuel n m pat :
  length pat <= n -> length pat <= m -> translate_go n pat = translate_go m pat.
Proof.
  revert m pat. induction n as [|n IH]; intros m pat Hn Hm.
  { destruct pat; [|simpl in Hn; lia]. by destruct m. }
  destruct pat as [|c rest]; [by destruct m|]. destruct m as [|m]; [simpl in Hm; lia|].
  simpl in Hn, Hm. simpl.
  repeat case_match; try (f_equal; apply IH; lia).
  all: match goal with Hb : bracket_scan _ = Some _ |- _ =>
         apply bracket_scan_length in Hb end; f_equal; apply IH; lia.
Qed.

Lemma translate_go_fuel_witness :
  length (py "*.c4d") <= 5 /\ length (py "*.c4d") <= 9 /\
  translate_go 5 (py "*.c4d") = translate_go 9 (py "*.c4d").
Proof.
  split_and!; [simpl; lia | simpl; lia |]. apply translate_go_fuel; simpl; lia.
Defined.

(** ** Patterns of the form ['*' + literal] *)
Definition plain_pat_char (x : ascii) : Prop := x <> "*"%char /\ x <> "?"%char /\ x <> "["%char.

#[export] Instance plain_pat_char_dec x : Decision (plain_pat_char x).
Proof. unfold plain_pat_char. apply _. Defined.

Lemma translate_go_lits n l :
  length l <= n -> Forall plain_pat_char l -> translate_go n l = map TLit l.
Proof.
  revert l. induction n as [|n IH]; intros l Hn Hl.
  { by destruct l; [|simpl in Hn; lia]. }
  destruct l as [|c l]; [done|]. apply Forall_cons in Hl as [(H1 & H2 & H3) Hl].
  simpl in Hn. simpl.
  destruct (ceq_spec c "*"); [done|]. destruct (ceq_spec c "?"); [done|].
  destruct (ceq_spec c "["); [done|]. f_equal. apply IH; [lia|done].
Qed.

Lemma translate_star_lits l :
  Forall plain_pat_char l -> translate ("*"%char :: l) = TStar :: (map TLit l).
Proof.
  intros Hl. unfold translate. simpl. f_equal. by apply translate_go_lits.
Qed.

Lemma compile_star_lits l : compile (TStar :: (map TLit l)) = Some (RStar :: (map RLit l)).
Proof. unfold compile. induction l as [|c l IH]; [done|]. simpl in *. by simplify_option_eq. Qed.

Lemma elem_of_suffixes t s : t ∈ suffixes s <-> t `suffix_of` s.
Proof.
  revert t. induction s as [|x s IH]; intros t; simpl.
  - rewrite list_elem_of_singleton. split; [intros ->; done | apply suffix_nil_inv].
  - rewrite elem_of_cons, IH. split.
    + intros [->|H]; [done | by apply suffix_cons_r].
    + destruct t as [|y t]; [intros _; right; apply suffix_nil|].
      intros [H|H]%suffix_cons_inv; auto.
Qed.

Lemma rmatch_lits l s : rmatch (map RLit l) s = bool_decide (s = l).
Proof.
  revert s. induction l as [|c l IH]; intros [|x s]; simpl; try done.
  rewrite IH. destruct (ceq_spec x c) as [->|Hne]; simpl.
  - apply bool_decide_ext. naive_solver.
  - rewrite bool_decide_false; congruence.
Qed.

(** ['*' + l] matches exactly the strings ending with [l]. *)
Lemma rmatch_star_lits l s : rmatch (RStar :: (map RLit l)) s = true <-> l `suffix_of` s.
Proof.
  simpl. rewrite existsb_exists. setoid_rewrite rmatch_lits.
  setoid_rewrite bool_decide_eq_true. setoid_rewrite <- list_elem_of_In.
  setoid_rewrite elem_of_suffixes. naive_solver.
Qed.

Lemma plain_pat_c4d : Forall plain_pat_char (py ".c4d").
Proof. apply (bool_decide_unpack _). by vm_compute. Qed.

(** ** Shell patterns without brackets

    What [fnmatch] documents: ['*'] matches any string, ['?'] any one
    character, any other character itself. *)
Inductive gmatch : pystr -> pystr -> Prop :=
| gm_nil : gmatch [] []
| gm_star_nil p s : gmatch p s -> gmatch ("*"%char :: p) s
| gm_star_cons p x s : gmatch ("*"%char :: p) s -> gmatch ("*"%char :: p) (x :: s)
| gm_any p x s : gmatch p s -> gmatch ("?"%char :: p) (x :: s)
| gm_lit c p s : plain_pat_char c -> gmatch p s -> gmatch (c :: p) (c :: s).

Definition tok_of (c : ascii) : Tok :=
  if ceq c "*" then TStar else if ceq c "?" then TAny else TLit c.

Definition rtok_of (c : ascii) : RTok :=
  if ceq c "*" then RStar else if ceq c "?" then RAny else RLit c.

Lemma translate_go_nobracket n p :
  length p <= n -> "["%char ∉ p -> translate_go n p = map tok_of p.
Proof.
  revert p. induction n as [|n IH]; intros p Hn Hp.
  { by destruct p; [|simpl in Hn; lia]. }
  destruct p as [|c p]; [done|]. simpl in Hn. simpl. unfold tok_of.
  assert (Hc : c <> "["%char) by set_solver.
  destruct (ceq_spec c "*"); [f_equal; apply IH; [lia|set_solver]|].
  destruct (ceq_spec c "?"); [f_equal; apply IH; [lia|set_solver]|].
  destruct (ceq_spec c "["); [done|]. f_equal. apply IH; [lia|set_solver].
Qed.

Lemma compile_nobracket p : compile (map tok_of p) = Some (map rtok_of p).
Proof.
  unfold compile. induction p as [|c p IH]; [done|]. cbn [map mapM]. rewrite IH.
  unfold tok_of, rtok_of. by destruct (ceq c "*"), (ceq c "?").
Qed.

(** ['*' + p] matches [s] when [p] matches a suffix of [s]. *)
Lemma gmatch_star p s : gmatch ("*"%char :: p) s <-> exists t, t `suffix_of` s /\ gmatch p t.
Proof.
  split.
  - remember ("*"%char :: p) as q eqn:Eq. induction 1 as [| | p' x s _ IH | |];
      simplify_eq.
    + eexists. split; [done|]. done.
    + destruct IH as (t & Ht & Hm); [done|]. exists t. split; [|done].
      by apply suffix_cons_r.
    + by destruct H.
  - intros (t & [u ->] & Hm). induction u as [|x u IH]; simpl.
    + by constructor.
    + by constructor.
Qed.

(** The regular expression [fnmatch] builds and the backtracking match
    decide [gmatch]. *)
Lemma rmatch_nobracket p s : "["%char ∉ p -> rmatch (map rtok_of p) s = true <-> gmatch p s.
Proof.
  revert s. induction p as [|c p IH]; intros s Hp.
  - simpl. rewrite bool_decide_eq_true. split; [intros ->; constructor|]. by inversion 1.
  - assert (Hp' : "["%char ∉ p) by set_solver. assert (Hc : c <> "["%char) by set_solver.
    simpl. unfold rtok_of at 1.
    destruct (ceq_spec c "*") as [->|H1]; [|destruct (ceq_spec c "?") as [->|H2]].
    + cbn [rmatch]. rewrite existsb_exists, gmatch_star.
      setoid_rewrite <- list_elem_of_In. setoid_rewrite elem_of_suffixes.
      setoid_rewrite IH; [|done]. done.
    + destruct s as [|x s]; cbn [rmatch].
      * split; [done|]. by inversion 1.
      * rewrite IH by done. split; [by constructor|].
        inversion 1; subst; [done|].
        match goal with Hq : plain_pat_char _ |- _ => by destruct Hq as (_ & ? & _) end.
    + destruct s as [|x s]; cbn [rmatch].
      * split; [done|]. by inversion 1.
      * rewrite andb_true_iff, ceq_true, IH by done. split.
        -- intros [-> Hm]. by constructor.
        -- inversion 1; subst; done.
Qed.

(** C24: correctness of [fnmatch] for patterns without brackets: the
    pattern translates to a regular expression that compiles, and the
    expression matches a name exactly when the name matches the pattern
    in the documented sense ([gmatch]). *)
Theorem fnmatch_correct p s : "["%char ∉ p ->
  exists re, compile (translate p) = Some re /\ (rmatch re s = true <-> gmatch p s).
Proof.
  intros Hp. exists (map rtok_of p). unfold translate.
  rewrite translate_go_nobracket, compile_nobracket by done.
  split; [done|]. by apply rmatch_nobracket.
Qed.

Lemma fnmatch_correct_witness :
  "["%char ∉ py "?x*.c4d" /\
  exists re, compile (translate (py "?x*.c4d")) = Some re /\
    (rmatch re (py "ax.b.c4d") = true <-> gmatch (py "?x*.c4d") (py "ax.b.c4d")).
Proof.
  assert (Hp : "["%char ∉ py "?x*.c4d") by (apply (bool_decide_unpack _); by vm_compute).
  split; [exact Hp | exact (fnmatch_correct _ _ Hp)].
Defined.

Section Filter.
Context `{PathModuleLaws}.

(** [fnmatch.filter(names, '*' + l)] keeps, in order, the names whose
    normalised case ends with [l]. *)
Lemma fnmatch_filter_star names l :
  Forall plain_pat_char l -> pm_normcase ("*"%char :: l) = "*"%char :: l ->
  fnmatch_filter names ("*"%char :: l) =
    Some (filter (fun n => l `suffix_of` pm_normcase n) names).
Proof.
  intros Hl Hcase. unfold fnmatch_filter. rewrite Hcase, translate_star_lits by done.
  rewrite compile_star_lits. f_equal.
  destruct pm_is_posix eqn:Hp; apply list_filter_iff; intros n;
    rewrite rmatch_star_lits; [by rewrite pm_normcase_posix | done].
Qed.

(** C23: the filter of line 38: [fnmatch.filter(names, '*.c4d')] keeps, in
    order, exactly the names whose normalised case ends with [.c4d]. *)
Theorem fnmatch_filter_c4d names :
  pm_normcase (py "*.c4d") = py "*.c4d" ->
  fnmatch_filter names (py "*.c4d") =
    Some (filter (fun n => py ".c4d" `suffix_of` pm_normcase n) names).
Proof.
  intros Hc. change (py "*.c4d") with ("*"%char :: py ".c4d") in *.
  apply fnmatch_filter_star; [apply plain_pat_c4d | done].
Qed.
End Filter.

Lemma fnmatch_filter_c4d_witness :
  pm_normcase (py "*.c4d") = py "*.c4d" /\
  fnmatch_filter [py "a.c4d"; py "b.C4D"; py "c4d"] (py "*.c4d") =
    Some (filter (fun n => py ".c4d" `suffix_of` pm_normcase n) [py "a.c4d"; py "b.C4D"; py "c4d"]).
Proof. split; [done | exact (fnmatch_filter_c4d _ eq_refl)]. Defined.
