(* ===== verification/FileSystem.v ===== *)
(** * The world the script runs in: files, the clock, stdout and processes

    [os.listdir], [os.path.getmtime], [os.path.lexists], [os.path.isdir],
    [time.time], [time.sleep], [print] and [subprocess.call] as
    operations on a state [World].  Files are indexed by the path strings
    the program builds; the operating system's own path resolution (case
    folding, [.] and [..] segments, links) is not modelled.  Times are
    whole seconds.  The converter is an external program: its effect is a
    function [Converter] given by the environment. *)
From S2P Require Import Prelude PyStr.

Local Open Scope Z_scope.

Record FS : Type := mkFS {
  fs_mtime : gmap pystr Z;            (** every file's modification time *)
  fs_dirs : gmap pystr (list pystr);  (** every directory's listing, in [os.listdir] order *)
}.

(** [os.path.getmtime(p)]: [None] when [os.stat] fails ([os.error]). *)
Definition getmtime (fs : FS) (p : pystr) : option Z := fs_mtime fs !! p.

(** [os.listdir(d)]: [None] when it fails ([os.error]). *)
Definition listdir (fs : FS) (d : pystr) : option (list pystr) := fs_dirs fs !! d.

Definition isdir (fs : FS) (d : pystr) : bool := bool_decide (is_Some (listdir fs d)).

Definition lexists (fs : FS) (p : pystr) : bool :=
  bool_decide (is_Some (getmtime fs p)) || isdir fs p.

(** A file written at time [t]. *)
Definition touch (fs : FS) (p : pystr) (t : Z) : FS :=
  mkFS (<[p := t]> (fs_mtime fs)) (fs_dirs fs).

(** What an external process did: the file system and the clock when it
    exited, and its exit status. *)
Record ProcResult : Type := mkProc {
  pr_fs : FS;
  pr_clock : Z;
  pr_code : Z;
}.

(** A program run by [subprocess.call(args)], from the file system and
    the clock at its start.  [None]: the process could not be started
    ([OSError], e.g. a missing executable). *)
Definition Converter : Type := list pystr -> FS -> Z -> option ProcResult.

Record World : Type := mkWorld {
  w_fs : FS;
  w_clock : Z;                   (** [time.time()] *)
  w_out : list pystr;            (** lines printed to stdout, oldest first *)
  w_calls : list (list pystr);   (** argument lists of the processes started *)
}.

(** [print line] *)
Definition print (line : pystr) : PyM World unit :=
  pmodify (fun w => mkWorld (w_fs w) (w_clock w) (w_out w ++ [line]) (w_calls w)).

(** [time.sleep(n)] *)
Definition sleep (n : Z) : PyM World unit :=
  pmodify (fun w => mkWorld (w_fs w) (w_clock w + n) (w_out w) (w_calls w)).

(** [os.path.getmtime(p)], raising [OSError] *)
Definition py_getmtime (p : pystr) : PyM World Z :=
  w <- pget ;; plift OSError (getmtime (w_fs w) p).

(** [subprocess.call(args)]: start the process, wait for it, return its
    exit status. *)
Definition subprocess_call (conv : Converter) (args : list pystr) : PyM World Z :=
  fun w =>
    match conv args (w_fs w) (w_clock w) with
    | None => RRaise w OSError
    | Some r =>
        ROk (mkWorld (pr_fs r) (pr_clock r) (w_out w) (w_calls w ++ [args])) (pr_code r)
    end.

(** ** A converter that behaves, called as [[exe, src, dst]]: time does
    not go back, it changes no file but [dst], and it writes [dst] when
    [src] exists.  Directory listings are kept as they are: the script
    lists only the input directory, and a mesh name never matches
    [*.c4d]. *)
Definition writes_only (conv : Converter) : Prop :=
  forall exe src dst fs t r, conv [exe; src; dst] fs t = Some r ->
    t <= pr_clock r /\
    fs_dirs (pr_fs r) = fs_dirs fs /\
    (forall p, p <> dst -> getmtime (pr_fs r) p = getmtime fs p).

Definition writes_output (conv : Converter) : Prop :=
  forall exe src dst fs t r, conv [exe; src; dst] fs t = Some r ->
    is_Some (getmtime fs src) -> getmtime (pr_fs r) dst = Some (pr_clock r).

(** The converter [exe] can always be started as the script calls it. *)
Definition starts (conv : Converter) (exe : pystr) : Prop :=
  forall src dst fs t, is_Some (conv [exe; src; dst] fs t).

(** No file is dated after the clock. *)
Definition no_future (w : World) : Prop :=
  map_Forall (fun _ m => m <= w_clock w) (fs_mtime (w_fs w)).

(** The exporter of the Windows configuration, as a concrete converter:
    it takes one second and writes the mesh when the scene exists. *)
Definition exporter (exe : pystr) : Converter :=
  fun args fs t =>
    match args with
    | [e; src; dst] =>
        if bool_decide (e = exe) then
          if bool_decide (is_Some (getmtime fs src))
          then Some (mkProc (touch fs dst (t + 1)) (t + 1) 0)
          else Some (mkProc fs (t + 1) 1)
        else None
    | _ => None
    end.

Lemma getmtime_touch_eq fs p t : getmtime (touch fs p t) p = Some t.
Proof. unfold getmtime, touch. simpl. by rewrite lookup_insert_eq. Qed.

Lemma getmtime_touch_ne fs p q t : p <> q -> getmtime (touch fs p t) q = getmtime fs q.
Proof. intros Hne. unfold getmtime, touch. simpl. by rewrite lookup_insert_ne. Qed.

#[export] Hint Rewrite getmtime_touch_eq : py_rw.

Lemma exporter_writes_only exe : writes_only (exporter exe).
Proof.
  intros e src dst fs t r. unfold exporter.
  case_bool_decide; [|done]. case_bool_decide; intros [= <-]; simpl; split_and!; try lia; try done.
  intros p Hp. by apply getmtime_touch_ne.
Qed.

Lemma exporter_writes_output exe : writes_output (exporter exe).
Proof.
  intros e src dst fs t r. unfold exporter.
  case_bool_decide; [|done]. case_bool_decide; intros [= <-] Hs; [|done].
  apply getmtime_touch_eq.
Qed.

Lemma exporter_starts exe : starts (exporter exe) exe.
Proof. intros src dst fs t. unfold exporter. rewrite bool_decide_true by done. by case_bool_decide. Qed.

(** A converter that starts but fails without writing anything (say, an
    exporter that cannot read the scene): it takes one second and exits
    with [code]. *)
Definition failing (code : Z) : Converter := fun args fs t => Some (mkProc fs (t + 1) code).

Lemma failing_writes_only code : writes_only (failing code).
Proof. intros exe src dst fs t r [= <-]. simpl. split_and!; [lia | done | done]. Qed.

Lemma failing_starts code exe : starts (failing code) exe.
Proof. intros src dst fs t. by eexists. Qed.
