(* ===== verification/Glob.v ===== *)
(** * [glob.glob] (Python 2.7's [Lib/glob.py])

    [glob(pathname)] is [list(iglob(pathname))].  [iglob] splits the
    pattern into a directory and a base name; a directory with no magic
    character is used as it is, one with magic is globbed first.  In each
    directory a base name with magic is matched by [glob1] (list the
    directory, drop hidden names unless the pattern starts with a dot,
    [fnmatch.filter]), one without by [glob0] (does the file exist).  A
    directory that cannot be listed contributes nothing: [glob1] catches
    [os.error].  [None] is the [re.error] a bad pattern raises. *)
From S2P Require Import Prelude PyStr GenericPath PosixPath Fnmatch FileSystem.

Section Glob.
Context `{PathModule}.

(** [magic_check = re.compile('[*?[]')] *)
Definition has_magic (s : pystr) : bool := existsb (in_chars (py "*?[")) s.

(** [x[0] != '.'] *)
Definition not_hidden (x : pystr) : Prop := head x <> Some "."%char.

Definition glob1 (fs : FS) (dirname pattern : pystr) : option (list pystr) :=
  let dirname := if bool_decide (dirname = []) then py "." else dirname in
  match listdir fs dirname with
  | None => Some []
  | Some names =>
      let names := if bool_decide (head pattern <> Some "."%char)
                   then filter not_hidden names else names in
      fnmatch_filter names pattern
  end.

Definition glob0 (fs : FS) (dirname basename : pystr) : option (list pystr) :=
  if bool_decide (basename = []) then
    Some (if isdir fs dirname then [basename] else [])
  else Some (if lexists fs (pm_join dirname basename) then [basename] else []).

(** [iglob]; the recursion on a magic directory goes to a strictly
    shorter pattern (the head [split] returns is a prefix of the path),
    so [len(pathname) + 1] rounds are enough ([iglob_fuel]). *)
Fixpoint iglob (fuel : nat) (fs : FS) (pathname : pystr) : option (list pystr) :=
  match fuel with
  | 0 => Some []
  | S fuel' =>
      let '(dirname, basename) := pm_split pathname in
      if negb (has_magic pathname) then
        if bool_decide (basename <> []) then
          Some (if lexists fs pathname then [pathname] else [])
        else Some (if isdir fs dirname then [pathname] else [])
      else if bool_decide (dirname = []) then glob1 fs (py ".") basename
      else
        dirs ← (if bool_decide (dirname <> pathname) && has_magic dirname
                then iglob fuel' fs dirname else Some [dirname]);
        let glob_in_dir := if has_magic basename then glob1 else glob0 in
        (@concat pystr) <$> mapM (fun d => map (pm_join d) <$> glob_in_dir fs d basename) dirs
  end.

Definition glob (fs : FS) (pathname : pystr) : option (list pystr) :=
  iglob (S (length pathname)) fs pathname.
End Glob.

Section GlobLemmas.
Context `{PathModuleLaws}.

Lemma has_magic_app a b : has_magic (a ++ b) = has_magic a || has_magic b.
Proof. apply existsb_app. Qed.

Lemma has_magic_star l : has_magic ("*"%char :: l) = true.
Proof. done. Qed.

(** [glob(join(normpath(d), '*' + l))] lists the directory [normpath(d)]
    and returns, in listing order, [join(normpath(d), n)] for the names
    [n] that are not hidden and whose normalised case ends with [l]; an
    unreadable directory gives no names. *)
Lemma glob_star fs d l : pm_good_dir d ->
  pm_plain ("*"%char :: l) -> Forall plain_pat_char l ->
  pm_normcase ("*"%char :: l) = "*"%char :: l -> has_magic (pm_normpath d) = false ->
  glob fs (pm_join (pm_normpath d) ("*"%char :: l)) =
    Some (match listdir fs (pm_normpath d) with
          | None => []
          | Some names =>
              pm_join (pm_normpath d) <$>
                filter (fun n => l `suffix_of` pm_normcase n) (filter not_hidden names)
          end).
Proof.
  intros Hg Hp Hl Hcase Hd. pose proof (pm_normpath_good d Hg) as Hng.
  set (nd := pm_normpath d) in *.
  destruct (pm_join_plain nd _ Hp) as [pre Hpre].
  unfold glob. cbn [iglob].
  assert (Hsplit : pm_split (pm_join nd ("*"%char :: l)) = (nd, "*"%char :: l)).
  { destruct (pm_split _) as [a b] eqn:E.
    pose proof (pm_split_join_tail nd _ Hng Hp) as Ht.
    pose proof (pm_split_join_normpath d _ Hg Hp) as Hh.
    fold nd in Hh. rewrite E in Ht, Hh. simpl in *. by subst. }
  rewrite Hsplit, Hpre, has_magic_app, has_magic_star, orb_true_r. cbn [negb].
  rewrite <- Hpre, bool_decide_false by apply pm_normpath_nonempty.
  fold nd. rewrite Hd, andb_false_r. cbn -[glob1].
  unfold glob1. rewrite bool_decide_false by apply pm_normpath_nonempty.
  fold nd. destruct (listdir fs nd) as [names|]; [|done].
  rewrite bool_decide_true by done. rewrite fnmatch_filter_star by done.
  simpl. by rewrite app_nil_r.
Qed.

(** C22: the pattern of line 38: [glob(join(normpath(d), '*.c4d'))] over a
    readable directory finds exactly the joined names of its listing that
    are not hidden and end with [.c4d] up to case. *)
Theorem glob_c4d_members fs d names p : pm_good_dir d ->
  has_magic (pm_normpath d) = false -> pm_normcase (py "*.c4d") = py "*.c4d" ->
  pm_plain (py "*.c4d") -> listdir fs (pm_normpath d) = Some names ->
  exists res, glob fs (pm_join (pm_normpath d) (py "*.c4d")) = Some res /\
    (p ∈ res <-> exists name, name ∈ names /\ not_hidden name /\
                              py ".c4d" `suffix_of` pm_normcase name /\
                              p = pm_join (pm_normpath d) name).
Proof.
  intros Hg Hm Hc Hp Hl. change (py "*.c4d") with ("*"%char :: py ".c4d") in *.
  pose proof plain_pat_c4d as Hf.
  rewrite glob_star by done.
  rewrite Hl. eexists. split; [done|].
  rewrite list_elem_of_fmap. split.
  - intros (x & -> & Hx). apply list_elem_of_filter in Hx as [Hs Hx].
    apply list_elem_of_filter in Hx as [Hv Hx]. by exists x.
  - intros (x & Hx & Hv & Hs & ->). exists x. split; [done|].
    apply list_elem_of_filter. split; [done|]. by apply list_elem_of_filter.
Qed.



End GlobLemmas.


(** [glob('/in/*.c4d')] on POSIX, over a directory with a scene, a hidden
    scene and a text file. *)
Definition glob_fs : FS :=
  mkFS ∅ (<[py "/in" := [py "a.c4d"; py ".b.c4d"; py "c.txt"]]> ∅).

Lemma glob_c4d_members_witness :
  pm_good_dir (py "/in") /\ has_magic (pm_normpath (py "/in")) = false /\ pm_normcase (py "*.c4d") = py "*.c4d" /\
  pm_plain (py "*.c4d") /\
  listdir glob_fs (pm_normpath (py "/in")) = Some [py "a.c4d"; py ".b.c4d"; py "c.txt"] /\
  exists res, glob glob_fs (pm_join (pm_normpath (py "/in")) (py "*.c4d")) = Some res /\
    (py "/in/a.c4d" ∈ res <-> exists name, name ∈ [py "a.c4d"; py ".b.c4d"; py "c.txt"] /\
        not_hidden name /\ py ".c4d" `suffix_of` pm_normcase name /\
        py "/in/a.c4d" = pm_join (pm_normpath (py "/in")) name).
Proof.
  assert (Hm : has_magic (pm_normpath (py "/in")) = false) by (by vm_compute).
  assert (Hp : pm_plain (py "*.c4d")) by (split; [done | apply (bool_decide_unpack _); by vm_compute]).
  assert (Hl : listdir glob_fs (pm_normpath (py "/in")) = Some [py "a.c4d"; py ".b.c4d"; py "c.txt"])
    by (by vm_compute).
  split_and!; [done | exact Hm | done | exact Hp | exact Hl |].
  exact (glob_c4d_members glob_fs (py "/in") _ (py "/in/a.c4d") I Hm eq_refl Hp Hl).
Defined.

