(* ===== verification/Settings.v ===== *)
(** * The configuration: [SETTINGS] and its validation (lines 9-35)

    [SETTINGS] maps a platform name to a dict of strings or [None].  The
    script looks up [platform.system()], checks the result, reads
    [input_dir], [output_dir] and [conv], and exits with status 1 and a
    message when one is missing.  [configure_in] reads any table, and the
    validation is proved on every branch for every table; [configure] is
    [configure_in SETTINGS].  The check of line 21 tests the builtin
    [dir], not [settings]: it never fires, and an unknown platform makes
    line 25 call [.get] on [None]. *)
From S2P Require Import Prelude PyStr GenericPath PosixPath FileSystem.

(** The Python values the table holds, and the builtin function [dir]. *)
Inductive PyVal : Type :=
| VNone
| VStr (s : pystr)
| VBuiltin (name : pystr).

Definition is_None (v : PyVal) : bool := match v with VNone => true | _ => false end.

(** ['%s' % v] *)
Definition py_str (v : PyVal) : pystr :=
  match v with
  | VNone => py "None"
  | VStr s => s
  | VBuiltin n => py "<built-in function " ++ n ++ py ">"
  end.

(** [d.get(k, None)] *)
Definition dict_get (d : gmap pystr PyVal) (k : pystr) : PyVal := default VNone (d !! k).

(** Lines 9-17. *)
Definition SETTINGS : gmap pystr (gmap pystr PyVal) :=
  <[py "Darwin" := <[py "dir" := VStr (py "/Users/dooz/OneDrive/gfx")]>
                   (<[py "conv" := VNone]> ∅)]>
  (<[py "Windows" := <[py "input_dir" := VStr (py "d:/onedrive/tano/c4d")]>
                     (<[py "output_dir" := VStr (py "d:/projects/tano/gfx")]>
                     (<[py "conv" := VStr (py "D:/projects/melange_exporter/_win32/Release/exporter.exe")]> ∅))]>
   ∅).

(** The builtin [dir] that line 21 tests. *)
Definition builtin_dir : PyVal := VBuiltin (py "dir").

(** What the loop needs. *)
Record Config : Type := mkConfig {
  cfg_input_dir : pystr;
  cfg_output_dir : pystr;
  cfg_conv : pystr;
}.

Section Configure.
Context `{PathModule}.

(** [os.path.normpath(v)] needs a string: anything else fails on
    [v.startswith]. *)
Definition normpath_val (v : PyVal) : PyM World pystr :=
  match v with
  | VStr s => pret (pm_normpath s)
  | _ => praise AttributeError
  end.

Definition str_val (v : PyVal) : PyM World pystr :=
  match v with
  | VStr s => pret s
  | _ => praise TypeError
  end.

(** Lines 19-35, from [system = platform.system()], reading the table
    [table] (the script's is [SETTINGS]). *)
Definition configure_in (table : gmap pystr (gmap pystr PyVal)) (system : pystr)
    : PyM World Config :=
  let settings := table !! system in
  (if is_None builtin_dir
   then print (py "Unknown system: " ++ system) ;;; pexit 1
   else pret tt) ;;;
  match settings with
  | None => praise AttributeError
  | Some settings =>
      let input_dir := dict_get settings (py "input_dir") in
      let output_dir := dict_get settings (py "output_dir") in
      (if is_None input_dir || is_None output_dir
       then print (py "Unable to find directory; input: " ++ py_str input_dir ++
                   py ", output: " ++ py_str output_dir) ;;; pexit 1
       else pret tt) ;;;
      input_dir <- normpath_val input_dir ;;
      output_dir <- normpath_val output_dir ;;
      let conv := dict_get settings (py "conv") in
      (if is_None conv then print (py "Unable to find converter") ;;; pexit 1
       else pret tt) ;;;
      conv <- str_val conv ;;
      pret (mkConfig input_dir output_dir conv)
  end.

Definition configure (system : pystr) : PyM World Config := configure_in SETTINGS system.
End Configure.

(** ** What the configuration step does *)
Section ConfigureProps.
Context `{PathModule}.

(** [dir is None] is always false: the check of line 21 is dead. *)
Lemma dir_is_not_None : is_None builtin_dir = false.
Proof. reflexivity. Qed.

(** An unknown platform is not reported: line 25 raises
    [AttributeError] on [None.get], nothing is printed, and the process
    exits with status 1 from the uncaught exception. *)
Theorem configure_unknown_platform system w :
  SETTINGS !! system = None ->
  configure system w = RRaise w AttributeError /\
  exit_status (configure system w) = Some 1%Z.
Proof. intros Hs. unfold configure, configure_in. rewrite Hs. done. Qed.

(** On macOS the entry has no [input_dir]: the script prints the
    message of line 27 and exits with status 1. *)
Example configure_darwin w :
  configure (py "Darwin") w =
    RExit (mkWorld (w_fs w) (w_clock w)
             (w_out w ++ [py "Unable to find directory; input: None, output: None"])
             (w_calls w)) 1.
Proof. vm_compute. reflexivity. Qed.

(** On Windows the configuration is the table's, with both
    directories normalised; nothing is printed. *)
Example configure_windows w :
  configure (py "Windows") w =
    ROk w (mkConfig (pm_normpath (py "d:/onedrive/tano/c4d"))
                    (pm_normpath (py "d:/projects/tano/gfx"))
                    (py "D:/projects/melange_exporter/_win32/Release/exporter.exe")).
Proof. vm_compute. reflexivity. Qed.

(** C11: Windows is the only platform on which the configuration step
    completes and the script reaches its loop. *)
Theorem configure_ok_iff_windows system w :
  (exists w' c, configure system w = ROk w' c) <-> system = py "Windows".
Proof.
  split.
  - intros (w' & c & Hc).
    destruct (SETTINGS !! system) as [s|] eqn:Hs.
    2:{ unfold configure, configure_in in Hc. rewrite Hs in Hc. done. }
    destruct (decide (system = py "Windows")) as [->|Hw]; [done|].
    destruct (decide (system = py "Darwin")) as [->|Hd].
    + vm_compute in Hc. done.
    + exfalso. unfold SETTINGS in Hs.
      rewrite lookup_insert_ne in Hs by congruence.
      rewrite lookup_insert_ne in Hs by congruence. done.
  - intros ->. vm_compute. eauto.
Qed.

(** C13: any table: an entry with both directories but no converter
    prints [Unable to find converter] and exits with status 1
    (lines 32-35). *)
Theorem configure_missing_converter table system s i o w :
  table !! system = Some s ->
  dict_get s (py "input_dir") = VStr i -> dict_get s (py "output_dir") = VStr o ->
  is_None (dict_get s (py "conv")) = true ->
  configure_in table system w =
    RExit (mkWorld (w_fs w) (w_clock w) (w_out w ++ [py "Unable to find converter"]) (w_calls w)) 1.
Proof.
  intros Hs Hi Ho Hc. unfold configure_in. rewrite Hs. cbn zeta. rewrite Hi, Ho, Hc. done.
Qed.

(** C12: any table: an entry missing a directory prints both values as
    [%s] formats them and exits with status 1 (lines 25-28), before any
    [normpath]. *)
Theorem configure_missing_dir table system s w :
  table !! system = Some s ->
  is_None (dict_get s (py "input_dir")) || is_None (dict_get s (py "output_dir")) = true ->
  configure_in table system w =
    RExit (mkWorld (w_fs w) (w_clock w)
             (w_out w ++ [py "Unable to find directory; input: " ++ py_str (dict_get s (py "input_dir")) ++
                          py ", output: " ++ py_str (dict_get s (py "output_dir"))])
             (w_calls w)) 1.
Proof. intros Hs Hd. unfold configure_in. rewrite Hs. cbn zeta. rewrite Hd. done. Qed.

(** C14: any table: an entry with two directories and a converter path
    gives the configuration with both directories normalised, and
    prints nothing. *)
Theorem configure_in_ok table system s i o c w :
  table !! system = Some s ->
  dict_get s (py "input_dir") = VStr i -> dict_get s (py "output_dir") = VStr o ->
  dict_get s (py "conv") = VStr c ->
  configure_in table system w = ROk w (mkConfig (pm_normpath i) (pm_normpath o) c).
Proof.
  intros Hs Hi Ho Hc. unfold configure_in. rewrite Hs. cbn zeta. rewrite Hi, Ho, Hc. done.
Qed.
End ConfigureProps.

(** Tables with one Linux entry, read on a POSIX host from an empty
    world. *)
Definition linux_entry (inp out conv : PyVal) : gmap pystr PyVal :=
  <[py "input_dir" := inp]> (<[py "output_dir" := out]> (<[py "conv" := conv]> ∅)).

Definition linux_table (e : gmap pystr PyVal) : gmap pystr (gmap pystr PyVal) :=
  <[py "Linux" := e]> ∅.

Definition w_start : World := mkWorld (mkFS ∅ ∅) 0 [] [].

Lemma linux_table_lookup e : linux_table e !! py "Linux" = Some e.
Proof. apply lookup_insert_eq. Qed.

Lemma configure_missing_converter_witness :
  let e := linux_entry (VStr (py "/in")) (VStr (py "/out")) VNone in
  linux_table e !! py "Linux" = Some e /\
  dict_get e (py "input_dir") = VStr (py "/in") /\ dict_get e (py "output_dir") = VStr (py "/out") /\
  is_None (dict_get e (py "conv")) = true /\
  configure_in (linux_table e) (py "Linux") w_start =
    RExit (mkWorld (w_fs w_start) (w_clock w_start)
             (w_out w_start ++ [py "Unable to find converter"]) (w_calls w_start)) 1.
Proof.
  intros e. pose proof (linux_table_lookup e) as Hl.
  split_and!; [exact Hl | by vm_compute | by vm_compute | by vm_compute |].
  apply (configure_missing_converter _ _ e (py "/in") (py "/out")); [exact Hl | by vm_compute..].
Defined.

Lemma configure_missing_dir_witness :
  let e := linux_entry VNone (VStr (py "/out")) (VStr (py "conv")) in
  linux_table e !! py "Linux" = Some e /\
  is_None (dict_get e (py "input_dir")) || is_None (dict_get e (py "output_dir")) = true /\
  configure_in (linux_table e) (py "Linux") w_start =
    RExit (mkWorld (w_fs w_start) (w_clock w_start)
             (w_out w_start ++ [py "Unable to find directory; input: " ++ py_str (dict_get e (py "input_dir")) ++
                                py ", output: " ++ py_str (dict_get e (py "output_dir"))])
             (w_calls w_start)) 1.
Proof.
  intros e. pose proof (linux_table_lookup e) as Hl.
  split_and!; [exact Hl | by vm_compute |].
  apply configure_missing_dir; [exact Hl | by vm_compute].
Defined.

Lemma configure_in_ok_witness :
  let e := linux_entry (VStr (py "/in/")) (VStr (py "/out")) (VStr (py "conv")) in
  linux_table e !! py "Linux" = Some e /\
  dict_get e (py "input_dir") = VStr (py "/in/") /\ dict_get e (py "output_dir") = VStr (py "/out") /\
  dict_get e (py "conv") = VStr (py "conv") /\
  configure_in (linux_table e) (py "Linux") w_start =
    ROk w_start (mkConfig (pm_normpath (py "/in/")) (pm_normpath (py "/out")) (py "conv")).
Proof.
  intros e. pose proof (linux_table_lookup e) as Hl.
  split_and!; [exact Hl | by vm_compute | by vm_compute | by vm_compute |].
  apply (configure_in_ok _ _ e); [exact Hl | by vm_compute..].
Defined.
