(* ===== verification/Reconcile.v ===== *)
(** * The reconciliation loop (lines 37-54)

    [while True]: glob the scenes [input_dir/*.c4d]; for each, in the
    order of the listing, read its modification time, derive the mesh name
    [join(output_dir, head) + '.boba'], and when the mesh is missing or
    older, print a line and run the converter on [(scene, mesh)],
    ignoring its exit status; then sleep one second.

    The section is parametrised by the [os.path] module, the converter's
    behaviour [conv_model], the formatting of [time.ctime()] (the host's
    time zone, left abstract) and the configuration [cfg] that lines 9-35
    produced.  The later sections prove what one scene and one pass do:
    the specification [stale]/[expected_calls] a pass refines, that a
    pass leaves every scene fresh and a second pass does nothing, and the
    error paths.  The whole loop is in [Loop]. *)
From S2P Require Import Prelude PyStr GenericPath PosixPath Fnmatch FileSystem Glob Settings.

Local Open Scope Z_scope.

Section Reconcile.
Context `{PathModule}.
Variable conv_model : Converter.
Variable ctime : Z -> pystr.
Variable cfg : Config.

(** Line 38: [os.path.join(input_dir, '*.c4d')] *)
Definition c4d_pattern : pystr := pm_join (cfg_input_dir cfg) (py "*.c4d").

(** Lines 41-43 *)
Definition mesh_name_of (c4d_name : pystr) : pystr :=
  let '(path, filename) := pm_split c4d_name in
  let '(head, tail) := pm_splitext filename in
  pm_join (cfg_output_dir cfg) head ++ py ".boba".

(** Lines 44-49: [should_convert = False; try: mesh_time =
    getmtime(mesh_name); should_convert = c4d_time > mesh_time
    except: should_convert = True] *)
Definition should_convert (c4d_time : Z) (mesh_time : option Z) : bool :=
  match mesh_time with
  | Some t => c4d_time >? t
  | None => true
  end.

(** Line 52: ['[%s] Converting: %s -> %s' % (time.ctime(), c4d_name, mesh_name)] *)
Definition converting_line (now : Z) (c4d_name mesh_name : pystr) : pystr :=
  py "[" ++ ctime now ++ py "] Converting: " ++ c4d_name ++ py " -> " ++ mesh_name.

(** Lines 39-53: one scene *)
Definition process_file (c4d_name : pystr) : PyM World unit :=
  c4d_time <- py_getmtime c4d_name ;;
  let mesh_name := mesh_name_of c4d_name in
  w <- pget ;;
  if should_convert c4d_time (getmtime (w_fs w) mesh_name) then
    print (converting_line (w_clock w) c4d_name mesh_name) ;;;
    res <- subprocess_call conv_model [cfg_conv cfg; c4d_name; mesh_name] ;;
    pret tt
  else pret tt.

(** Line 38: [glob.glob(...)]; a pattern that does not compile raises. *)
Definition py_glob (pat : pystr) : PyM World (list pystr) :=
  w <- pget ;; plift ReError (glob (w_fs w) pat).

(** Line 38: [for c4d_name in ...] *)
Fixpoint process_files (names : list pystr) : PyM World unit :=
  match names with
  | [] => pret tt
  | n :: ns => process_file n ;;; process_files ns
  end.

(** Lines 38-54: one pass of the loop body *)
Definition scan_pass : PyM World unit :=
  names <- py_glob c4d_pattern ;;
  process_files names ;;;
  sleep 1.

End Reconcile.

(** ** One scene: every branch of lines 39-53 *)
Section ProcessFile.
Context `{PathModule}.
Variable conv_model : Converter.
Variable ctime : Z -> pystr.
Variable cfg : Config.

Abbreviation mesh := (mesh_name_of cfg).
Abbreviation process := (process_file conv_model ctime cfg).

(** The call line 53 makes for a scene. *)
Definition conv_args (n : pystr) : list pystr := [cfg_conv cfg; n; mesh n].

(** The world after line 52 printed its line. *)
Definition after_print (w : World) (n : pystr) : World :=
  mkWorld (w_fs w) (w_clock w) (w_out w ++ [converting_line ctime (w_clock w) n (mesh n)])
          (w_calls w).

Lemma process_file_eq n w :
  process n w =
    match getmtime (w_fs w) n with
    | None => RRaise w OSError
    | Some ms =>
        if should_convert ms (getmtime (w_fs w) (mesh n)) then
          match conv_model (conv_args n) (w_fs w) (w_clock w) with
          | None => RRaise (after_print w n) OSError
          | Some r => ROk (mkWorld (pr_fs r) (pr_clock r) (w_out (after_print w n))
                                   (w_calls w ++ [conv_args n])) tt
          end
        else ROk w tt
    end.
Proof.
  unfold process_file, py_getmtime. py_unfold. simpl.
  destruct (getmtime (w_fs w) n) as [ms|]; [|done]. simpl.
  destruct (should_convert _ _); [|done]. unfold subprocess_call, print. py_unfold. simpl.
  by destruct (conv_model _ _ _).
Qed.

Lemma should_convert_true ms mt :
  should_convert ms mt = true <-> mt = None \/ exists t, mt = Some t /\ t < ms.
Proof.
  destruct mt as [t|]; simpl; [|naive_solver].
  rewrite Z_gtb_true. naive_solver.
Qed.
End ProcessFile.

(** ** The abstract specification of a pass, and the frame of a pass *)
Section Pass.
Context `{PathModule}.
Variable conv_model : Converter.
Variable ctime : Z -> pystr.
Variable cfg : Config.

Abbreviation mesh := (mesh_name_of cfg).
Abbreviation process := (process_file conv_model ctime cfg).
Abbreviation processes := (process_files conv_model ctime cfg).

(** A scene is stale in [fs] when it exists and its mesh is missing or
    strictly older. *)
Definition stale (fs : FS) (n : pystr) : bool :=
  match getmtime fs n, getmtime fs (mesh n) with
  | Some ms, Some md => bool_decide (md < ms)
  | Some _, None => true
  | None, _ => false
  end.

Lemma stale_should_convert fs n ms :
  getmtime fs n = Some ms -> stale fs n = should_convert ms (getmtime fs (mesh n)).
Proof.
  intros Hn. unfold stale. rewrite Hn.
  destruct (getmtime fs (mesh n)) as [md|]; [|done]. simpl.
  apply Bool.eq_iff_eq_true. by rewrite bool_decide_eq_true, Z_gtb_true.
Qed.

(** What a pass over [names] must do: convert the stale scenes, in
    order, once each. *)
Definition expected_calls (fs : FS) (names : list pystr) : list (list pystr) :=
  conv_args cfg <$> filter (fun n => stale fs n = true) names.

(** The scenes are not meshes of one another, and no two share a mesh. *)
Definition separate (names : list pystr) : Prop :=
  NoDup (mesh <$> names) /\ forall n m, n ∈ names -> m ∈ names -> n <> mesh m.

Lemma separate_cons n ns : separate (n :: ns) ->
  separate ns /\ forall p, p ∈ ns ++ (mesh <$> ns) -> p <> mesh n.
Proof.
  intros [Hnd Hsep]. rewrite fmap_cons in Hnd. apply NoDup_cons in Hnd as [Hn Hnd].
  split; [split; [done | intros; apply Hsep; set_solver]|].
  intros p [Hp|Hp]%elem_of_app.
  - apply Hsep; set_solver.
  - intros ->. by apply Hn.
Qed.

Hypothesis conv_frame : writes_only conv_model.

Lemma process_file_frame n w w' :
  process n w = ROk w' tt ->
  (forall p, p <> mesh n -> getmtime (w_fs w') p = getmtime (w_fs w) p) /\
  fs_dirs (w_fs w') = fs_dirs (w_fs w) /\ w_clock w <= w_clock w'.
Proof.
  rewrite process_file_eq. intros Hp.
  repeat (case_match; simplify_eq/=); try (split_and!; done || lia).
  match goal with Hc : conv_model _ _ _ = Some _ |- _ =>
    destruct (conv_frame _ _ _ _ _ _ Hc) as (Ht & Hd & Hm) end.
  split_and!; [exact Hm | exact Hd | exact Ht].
Qed.

Lemma process_files_frame names w w' :
  processes names w = ROk w' tt ->
  (forall p, p ∉ mesh <$> names -> getmtime (w_fs w') p = getmtime (w_fs w) p) /\
  fs_dirs (w_fs w') = fs_dirs (w_fs w) /\ w_clock w <= w_clock w'.
Proof.
  revert w. induction names as [|n ns IH]; intros w Hp; simpl in Hp.
  { py_unfold. simplify_eq. split_and!; done || lia. }
  unfold pbind in Hp. destruct (process n w) as [w1 []| |] eqn:E1; try done.
  destruct (process_file_frame _ _ _ E1) as (Hm1 & Hd1 & Ht1).
  destruct (IH _ Hp) as (Hm2 & Hd2 & Ht2).
  split_and!; [|congruence|lia].
  intros p Hpn. rewrite fmap_cons, elem_of_cons in Hpn.
  rewrite Hm2, Hm1; naive_solver.
Qed.
Hypothesis conv_starts : starts conv_model (cfg_conv cfg).

(** A pass over [names] makes exactly the calls [expected_calls fs0
    names] when the scenes and their meshes read as in [fs0] before it,
    every scene exists, and the converter always starts: converting one
    scene leaves the staleness of the others as it was. *)
Lemma process_files_calls names w fs0 :
  (forall p, p ∈ names ++ (mesh <$> names) -> getmtime (w_fs w) p = getmtime fs0 p) ->
  Forall (fun n => is_Some (getmtime fs0 n)) names -> separate names ->
  exists w', processes names w = ROk w' tt /\
             w_calls w' = w_calls w ++ expected_calls fs0 names.
Proof.
  revert w. induction names as [|n ns IH]; intros w Hagree Hex Hsep.
  { exists w. by rewrite app_nil_r. }
  apply Forall_cons in Hex as [[ms Hms] Hex].
  destruct (separate_cons _ _ Hsep) as [Hsep' Hne].
  assert (Hn : getmtime (w_fs w) n = Some ms) by (rewrite Hagree; set_solver).
  assert (Hmn : getmtime (w_fs w) (mesh n) = getmtime fs0 (mesh n)) by (apply Hagree; set_solver).
  assert (Hrest : forall p, p ∈ ns ++ (mesh <$> ns) -> getmtime (w_fs w) p = getmtime fs0 p)
    by (intros p Hp; apply Hagree; set_solver).
  assert (Hst : stale fs0 n = should_convert ms (getmtime (w_fs w) (mesh n)))
    by (rewrite Hmn; by apply stale_should_convert).
  simpl. unfold pbind. rewrite process_file_eq, Hn. unfold expected_calls.
  destruct (should_convert ms _) eqn:Hsc.
  - rewrite filter_cons_True by done. rewrite fmap_cons.
    destruct (conv_starts n (mesh n) (w_fs w) (w_clock w)) as [r Hr]. unfold conv_args. rewrite Hr.
    destruct (conv_frame _ _ _ _ _ _ Hr) as (_ & _ & Hm).
    destruct (IH (mkWorld (pr_fs r) (pr_clock r) (w_out (after_print ctime cfg w n))
                         (w_calls w ++ [conv_args cfg n]))) as (w' & Hw' & Hc); try done.
    { intros p Hp. simpl. rewrite Hm by (by apply Hne). by apply Hrest. }
    exists w'. split; [done|]. rewrite Hc. simpl. by rewrite <- app_assoc.
  - rewrite filter_cons_False by (by rewrite Hst). by apply IH.
Qed.
End Pass.

(** ** After a pass every scene it saw is up to date *)
Section Fresh.
Context `{PathModule}.
Variable conv_model : Converter.
Variable ctime : Z -> pystr.
Variable cfg : Config.
Hypothesis conv_frame : writes_only conv_model.
Hypothesis conv_output : writes_output conv_model.

Abbreviation mesh := (mesh_name_of cfg).
Abbreviation process := (process_file conv_model ctime cfg).
Abbreviation processes := (process_files conv_model ctime cfg).

(** The scene exists and its mesh is at least as recent. *)
Definition fresh (fs : FS) (n : pystr) : Prop :=
  exists ms md, getmtime fs n = Some ms /\ getmtime fs (mesh n) = Some md /\ ms <= md.

Lemma fresh_not_stale fs n : fresh fs n -> stale cfg fs n = false.
Proof.
  intros (ms & md & Hn & Hm & Hle). unfold stale. rewrite Hn, Hm.
  apply bool_decide_eq_false. lia.
Qed.

Lemma process_file_ok_exists n w w' : process n w = ROk w' tt -> is_Some (getmtime (w_fs w) n).
Proof. rewrite process_file_eq. by destruct (getmtime _ n). Qed.

Lemma process_file_fresh n w w' :
  no_future w -> process n w = ROk w' tt ->
  no_future w' /\ exists ms md, getmtime (w_fs w) n = Some ms /\
                                getmtime (w_fs w') (mesh n) = Some md /\ ms <= md.
Proof.
  intros Hnf Hp. pose proof (process_file_frame _ _ _ conv_frame _ _ _ Hp) as (Hm & _ & Ht).
  rewrite process_file_eq in Hp.
  destruct (getmtime (w_fs w) n) as [ms|] eqn:Hn; [|done].
  assert (Hms : ms <= w_clock w) by (by apply (Hnf n)).
  destruct (should_convert ms _) eqn:Hsc.
  - destruct (conv_model _ _ _) as [r|] eqn:Hr; simplify_eq/=.
    pose proof (conv_output _ _ _ _ _ _ Hr ltac:(by rewrite Hn)) as Hout. simpl in Hout.
    split.
    + intros p t Hp. destruct (decide (p = mesh n)) as [->|Hne].
      * simpl in *. unfold getmtime in Hout. rewrite Hout in Hp. injection Hp. lia.
      * assert (Hp' := Hm p Hne). unfold getmtime in Hp'. simpl in *.
        rewrite Hp in Hp'. pose proof (Hnf p t (eq_sym Hp')) as Hle. simpl in Hle. lia.
    + exists ms, (pr_clock r). split_and!; [done|exact Hout|]. simpl in Ht. lia.
  - simplify_eq. split; [done|].
    destruct (getmtime (w_fs w') (mesh n)) as [md|] eqn:Hmd; [|done].
    exists ms, md. simpl in Hsc. apply Z_gtb_false in Hsc. split_and!; done || lia.
Qed.

(** Induction over the scenes of a pass that completed. *)
Lemma process_files_fresh names w w' :
  no_future w -> separate cfg names -> processes names w = ROk w' tt ->
  no_future w' /\ Forall (fresh (w_fs w')) names.
Proof.
  revert w. induction names as [|n ns IH]; intros w Hnf Hsep Hp; simpl in Hp.
  { py_unfold. by simplify_eq. }
  unfold pbind in Hp. destruct (process n w) as [w1 []| |] eqn:E1; try done.
  destruct (separate_cons _ _ _ Hsep) as [Hsep' Hne].
  destruct (process_file_fresh _ _ _ Hnf E1) as (Hnf1 & ms & md & Hn & Hmd & Hle).
  pose proof (process_file_frame _ _ _ conv_frame _ _ _ E1) as (Hm1 & _ & _).
  destruct (IH _ Hnf1 Hsep' Hp) as [Hnf' Hfr].
  pose proof (process_files_frame _ _ _ conv_frame _ _ _ Hp) as (Hm2 & _ & _).
  split; [done|]. constructor; [|done].
  destruct Hsep as [Hnd Hsep]. rewrite fmap_cons in Hnd. apply NoDup_cons in Hnd as [Hnm _].
  exists ms, md. split_and!; [|by rewrite Hm2|done].
  rewrite Hm2, Hm1; [done| |].
  - apply Hsep; set_solver.
  - intros Hin. apply list_elem_of_fmap in Hin as (m & -> & Hm). apply (Hsep (mesh m) m); set_solver.
Qed.

Lemma process_file_noop n w : fresh (w_fs w) n -> process n w = ROk w tt.
Proof.
  intros Hf. rewrite process_file_eq.
  destruct Hf as (ms & md & Hn & Hm & Hle). rewrite Hn, Hm. simpl.
  by rewrite (proj2 (Z_gtb_false _ _)) by lia.
Qed.

Lemma process_files_noop names w : Forall (fresh (w_fs w)) names -> processes names w = ROk w tt.
Proof.
  induction 1 as [|n ns Hn _ IH]; [done|]. simpl. unfold pbind.
  by rewrite process_file_noop.
Qed.
End Fresh.

#[export] Instance separate_dec `{PathModule} cfg names : Decision (separate cfg names).
Proof.
  destruct (decide (NoDup (mesh_name_of cfg <$> names))) as [Hnd|Hnd];
    [|right; by intros [? _]].
  destruct (decide (Forall (fun n => Forall (fun m => n <> mesh_name_of cfg m) names) names))
    as [Hf|Hf].
  - left. split; [done|]. intros n m Hn Hm. rewrite Forall_forall in Hf.
    specialize (Hf n Hn). rewrite Forall_forall in Hf. by apply Hf.
  - right. intros [_ Hs]. apply Hf. apply Forall_forall. intros n Hn.
    apply Forall_forall. intros m Hm. by apply Hs.
Defined.

(** ** The scenes a pass sees *)
Section Scenes.
Context `{PathModuleLaws}.
Variable cfg : Config.

(** The non-hidden names of the input directory whose normalised case
    ends with [.c4d], joined to the directory, in listing order. *)
Definition scene_names (fs : FS) : list pystr :=
  match listdir fs (cfg_input_dir cfg) with
  | None => []
  | Some names =>
      pm_join (cfg_input_dir cfg) <$>
        filter (fun n => py ".c4d" `suffix_of` pm_normcase n) (filter not_hidden names)
  end.

(** What lines 29-30 make of the input directory (a normalised path,
    here one without glob magic), and what the pattern of line 38 needs
    of the [os.path] module. *)
Definition cfg_normal : Prop :=
  (exists raw, pm_good_dir raw /\ cfg_input_dir cfg = pm_normpath raw) /\
  has_magic (cfg_input_dir cfg) = false /\
  pm_normcase (py "*.c4d") = py "*.c4d" /\ pm_plain (py "*.c4d").

Lemma scene_names_dirs fs fs' : fs_dirs fs = fs_dirs fs' -> scene_names fs = scene_names fs'.
Proof. unfold scene_names, listdir. by intros ->. Qed.

Lemma py_glob_scenes w : cfg_normal -> py_glob (c4d_pattern cfg) w = ROk w (scene_names (w_fs w)).
Proof.
  intros ((raw & Hgood & Hraw) & Hmagic & Hcase & Hplain).
  unfold py_glob, c4d_pattern, scene_names. py_unfold. simpl.
  rewrite Hraw in *. change (py "*.c4d") with ("*"%char :: py ".c4d") in *.
  rewrite glob_star by (done || apply plain_pat_c4d). done.
Qed.
End Scenes.

(** ** On POSIX the scenes of a directory never share a mesh *)

Lemma last_c4d l : last (l ++ py ".c4d") = Some "d"%char.
Proof. by rewrite last_app. Qed.

Lemma last_boba l : last (l ++ py ".boba") = Some "a"%char.
Proof. by rewrite last_app. Qed.

(** A scene found by the pattern: [h + '.c4d'], [h] plain and not
    starting with a dot. *)
Lemma posix_scene_shape names n :
  Forall PosixPath.plain names ->
  n ∈ filter (fun n => py ".c4d" `suffix_of` pm_normcase n) (filter not_hidden names) ->
  exists h, n = h ++ py ".c4d" /\ PosixPath.plain n /\ PosixPath.plain h /\
            exists x, x ∈ h /\ x <> "."%char.
Proof.
  intros Hpl Hn. apply list_elem_of_filter in Hn as [[h Hh] Hn].
  change (pm_normcase n) with n in Hh. subst n.
  apply list_elem_of_filter in Hn as [Hvis Hin].
  pose proof (proj1 (Forall_forall _ _) Hpl _ Hin) as [Hne Hsl].
  destruct h as [|x h]; [exfalso; by apply Hvis|].
  exists (x :: h). split_and!; [done | done | |].
  - split; [done|]. set_solver.
  - exists x. split; [left|]. intros ->. exfalso. by apply Hvis.
Qed.

(** C21: on POSIX, for a listing of distinct plain names, the scenes
    the pattern finds are separate: no two share a mesh (their stems
    differ) and none is a mesh (a scene ends with [.c4d], a mesh with
    [.boba]).  This discharges the [separate] assumption of the pass
    and loop theorems for every POSIX directory. *)
Theorem posix_scenes_separate cfg fs names :
  listdir fs (cfg_input_dir cfg) = Some names -> NoDup names -> Forall PosixPath.plain names ->
  separate cfg (scene_names cfg fs).
Proof.
  intros Hl Hnd Hpl. unfold scene_names. rewrite Hl.
  assert (Hmesh : forall n, n ∈ filter (fun n => py ".c4d" `suffix_of` pm_normcase n)
                                       (filter not_hidden names) -> exists h, n = h ++ py ".c4d" /\ PosixPath.plain h /\
            mesh_name_of cfg (pm_join (cfg_input_dir cfg) n) = pm_join (cfg_output_dir cfg) h ++ py ".boba").
  { intros n Hn. destruct (posix_scene_shape names n Hpl Hn) as (h & -> & Hp & Hh & Hx).
    exists h. split_and!; [done | done |]. unfold mesh_name_of.
    destruct (pm_split _) as [path filename] eqn:Hs.
    pose proof (pm_split_join_tail (cfg_input_dir cfg) _ I Hp) as Ht.
    rewrite Hs in Ht. simpl in Ht. subst filename.
    by rewrite (pm_splitext_name h (py "c4d")) by (done || apply (bool_decide_unpack _); by vm_compute). }
  split.
  - rewrite <- list_fmap_compose. apply NoDup_fmap_2_strong.
    + intros x y Hx Hy Hxy. unfold compose in Hxy.
      destruct (Hmesh x Hx) as (hx & -> & Hpx & Hmx), (Hmesh y Hy) as (hy & -> & Hpy & Hmy).
      rewrite Hmx, Hmy in Hxy. apply app_inv_tail in Hxy. cbn in Hxy.
      rewrite !PosixPath.join_plain in Hxy by done.
      case_match; apply app_inv_head in Hxy; [by rewrite Hxy | injection Hxy as ->; done].
    + by apply NoDup_filter, NoDup_filter.
  - intros n m (x & -> & Hx)%list_elem_of_fmap (y & -> & Hy)%list_elem_of_fmap Heq.
    destruct (Hmesh x Hx) as (hx & -> & _), (Hmesh y Hy) as (hy & _ & _ & Hmy).
    rewrite Hmy in Heq. apply (f_equal last) in Heq.
    destruct (pm_join_plain (cfg_input_dir cfg) (hx ++ py ".c4d")) as [pre Hpre].
    { by destruct (posix_scene_shape names _ Hpl Hx) as (h' & Heq' & Hp' & _). }
    rewrite Hpre, app_assoc, last_c4d, last_boba in Heq. done.
Qed.

(** ** A pass of the loop *)
Section PassTheorems.
Context `{PathModuleLaws}.
Variable conv_model : Converter.
Variable ctime : Z -> pystr.
Variable cfg : Config.

Abbreviation pass := (scan_pass conv_model ctime cfg).
Abbreviation processes := (process_files conv_model ctime cfg).

(** The world after [time.sleep(1)]. *)
Definition slept (w : World) : World := mkWorld (w_fs w) (w_clock w + 1) (w_out w) (w_calls w).

Lemma scan_pass_eq w : cfg_normal cfg ->
  pass w = match processes (scene_names cfg (w_fs w)) w with
           | ROk w1 _ => ROk (slept w1) tt
           | RExit w1 c => RExit w1 c
           | RRaise w1 e => RRaise w1 e
           end.
Proof.
  intros Hcfg. unfold scan_pass. unfold pbind at 1. rewrite py_glob_scenes by done.
  unfold pbind. by destruct (processes _ w) as [? []| |].
Qed.

Lemma no_future_slept w : no_future w -> no_future (slept w).
Proof. intros Hnf p t Hp. simpl in Hp. pose proof (Hnf p t Hp) as Hle. simpl in *. lia. Qed.

(** A completed pass leaves no file in the future, the scenes still
    separate, and every scene up to date. *)
Lemma pass_settles w w1 :
  cfg_normal cfg -> writes_only conv_model -> writes_output conv_model ->
  no_future w -> separate cfg (scene_names cfg (w_fs w)) -> pass w = ROk w1 tt ->
  no_future w1 /\ separate cfg (scene_names cfg (w_fs w1)) /\
  Forall (fresh cfg (w_fs w1)) (scene_names cfg (w_fs w1)).
Proof.
  intros Hcfg Hframe Hout Hnf Hsep Hp. rewrite scan_pass_eq in Hp by done.
  destruct (processes _ w) as [wA []| |] eqn:HA; try done. simplify_eq.
  destruct (process_files_fresh _ _ _ Hframe Hout _ _ _ Hnf Hsep HA) as [HnfA Hfresh].
  pose proof (process_files_frame _ _ _ Hframe _ _ _ HA) as (_ & Hd & _).
  cbn [w_fs slept]. rewrite (scene_names_dirs cfg (w_fs wA) (w_fs w)) by done.
  split_and!; [by apply no_future_slept | done | done].
Qed.

(** A pass over up-to-date scenes only sleeps. *)
Lemma settled_pass_noop w :
  cfg_normal cfg -> Forall (fresh cfg (w_fs w)) (scene_names cfg (w_fs w)) ->
  pass w = ROk (slept w) tt.
Proof. intros Hcfg Hfresh. rewrite scan_pass_eq by done. by rewrite process_files_noop. Qed.

(** Every call a list of scenes makes is the call for one of them. *)
Lemma process_files_calls_from names w w' :
  processes names w = ROk w' tt ->
  exists l, w_calls w' = w_calls w ++ l /\ forall a, a ∈ l -> exists n, n ∈ names /\ a = conv_args cfg n.
Proof.
  revert w. induction names as [|n ns IH]; intros w Hp; simpl in Hp.
  { py_unfold. simplify_eq. exists []. split; [by rewrite app_nil_r | set_solver]. }
  unfold pbind in Hp. destruct (process_file conv_model ctime cfg n w) as [w1 []| |] eqn:E1; try done.
  destruct (IH _ Hp) as (l & Hl & Hin).
  rewrite process_file_eq in E1. repeat (case_match; simplify_eq/=).
  - exists (conv_args cfg n :: l). rewrite Hl. simpl. split; [by rewrite <- app_assoc|].
    intros a [->|Ha]%elem_of_cons; [by exists n; split; [left|]|].
    destruct (Hin a Ha) as (m & Hm & ->). exists m. split; [by right|done].
  - exists l. split; [done|]. intros a Ha. destruct (Hin a Ha) as (m & Hm & ->). by exists m; split; [right|].
Qed.

(** The calls of a pass, when its scenes exist and are separate. *)
Lemma pass_expected_calls w :
  cfg_normal cfg -> writes_only conv_model ->
  starts conv_model (cfg_conv cfg) ->
  Forall (fun n => is_Some (getmtime (w_fs w) n)) (scene_names cfg (w_fs w)) ->
  separate cfg (scene_names cfg (w_fs w)) ->
  exists w', pass w = ROk w' tt /\
    w_calls w' = w_calls w ++ expected_calls cfg (w_fs w) (scene_names cfg (w_fs w)) /\
    w_clock w + 1 <= w_clock w'.
Proof.
  intros Hcfg Hframe Hstart Hex Hsep. rewrite scan_pass_eq by done.
  destruct (process_files_calls conv_model ctime cfg Hframe Hstart
              (scene_names cfg (w_fs w)) w (w_fs w)) as (w1 & Hw1 & Hc); try done.
  pose proof (process_files_frame _ _ _ Hframe _ _ _ Hw1) as (_ & _ & Ht).
  rewrite Hw1. exists (slept w1). simpl. split_and!; [done|done|lia].
Qed.

(** C1: refinement.  A pass converts exactly the stale scenes of the
    input directory, once each and in listing order, when the converter
    starts and writes only its output, every listed scene exists, and
    the scenes and meshes are distinct; it ends one second later. *)
Theorem scan_pass_refines w :
  cfg_normal cfg -> writes_only conv_model ->
  starts conv_model (cfg_conv cfg) ->
  Forall (fun n => is_Some (getmtime (w_fs w) n)) (scene_names cfg (w_fs w)) ->
  separate cfg (scene_names cfg (w_fs w)) ->
  exists w', pass w = ROk w' tt /\
    w_calls w' = w_calls w ++ expected_calls cfg (w_fs w) (scene_names cfg (w_fs w)) /\
    w_clock w + 1 <= w_clock w'.
Proof. apply pass_expected_calls. Qed.

(** C2: idempotence.  Right after a pass that completed, with a
    converter that writes its output and nothing else and no file dated
    in the future, the next pass converts nothing, prints nothing and
    changes no file: it only sleeps. *)
Theorem scan_pass_idempotent w w1 :
  cfg_normal cfg -> writes_only conv_model -> writes_output conv_model ->
  no_future w -> separate cfg (scene_names cfg (w_fs w)) ->
  pass w = ROk w1 tt -> pass w1 = ROk (slept w1) tt.
Proof.
  intros Hcfg Hframe Hout Hnf Hsep Hp.
  destruct (pass_settles w w1) as (_ & _ & Hfresh); try done.
  by apply settled_pass_noop.
Qed.

(** C19: a missing or unreadable input directory is not an error: [glob]
    swallows the [os.error] of [os.listdir], and the pass does nothing
    but sleep. *)
Theorem scan_pass_no_input_dir w :
  cfg_normal cfg -> listdir (w_fs w) (cfg_input_dir cfg) = None -> pass w = ROk (slept w) tt.
Proof. intros Hcfg Hd. rewrite scan_pass_eq by done. unfold scene_names. by rewrite Hd. Qed.

(** C6: safety.  Every process a pass starts is the converter of the
    configuration, run on a listed, non-hidden file of the input
    directory whose name ends with [.c4d] up to case, and on that
    scene's mesh. *)
Theorem scan_pass_calls_scenes w w' :
  cfg_normal cfg -> pass w = ROk w' tt ->
  exists l, w_calls w' = w_calls w ++ l /\
    forall a, a ∈ l -> exists names name,
      listdir (w_fs w) (cfg_input_dir cfg) = Some names /\ name ∈ names /\
      not_hidden name /\ py ".c4d" `suffix_of` pm_normcase name /\
      a = [cfg_conv cfg; pm_join (cfg_input_dir cfg) name;
           mesh_name_of cfg (pm_join (cfg_input_dir cfg) name)].
Proof.
  intros Hcfg Hp. rewrite scan_pass_eq in Hp by done.
  destruct (processes _ w) as [w1 []| |] eqn:HA; try done. simplify_eq.
  destruct (process_files_calls_from _ _ _ HA) as (l & Hl & Hin).
  exists l. split; [done|]. intros a Ha. destruct (Hin a Ha) as (n & Hn & ->).
  unfold scene_names in Hn. destruct (listdir (w_fs w) _) as [names|]; [|set_solver].
  apply list_elem_of_fmap in Hn as (name & -> & Hname).
  apply list_elem_of_filter in Hname as [Hsuf Hname].
  apply list_elem_of_filter in Hname as [Hvis Hname].
  by exists names, name.
Qed.

(** C7: convergence, the promise of a pass.  After a pass that
    completed, with a converter that writes its output and nothing else
    and no file dated in the future, every scene of the input directory
    has a mesh at least as recent as itself. *)
Theorem scan_pass_all_fresh w w1 :
  cfg_normal cfg -> writes_only conv_model -> writes_output conv_model ->
  no_future w -> separate cfg (scene_names cfg (w_fs w)) -> pass w = ROk w1 tt ->
  forall n, n ∈ scene_names cfg (w_fs w1) ->
    exists ms md, getmtime (w_fs w1) n = Some ms /\
                  getmtime (w_fs w1) (mesh_name_of cfg n) = Some md /\ ms <= md.
Proof.
  intros Hcfg Hframe Hout Hnf Hsep Hp n Hn.
  destruct (pass_settles w w1) as (_ & _ & Hfresh); try done.
  by eapply Forall_forall in Hfresh.
Qed.
End PassTheorems.

(** ** One scene: what the code does on each branch *)
Section FileTheorems.
Context `{PathModuleLaws}.
Variable conv_model : Converter.
Variable ctime : Z -> pystr.
Variable cfg : Config.

Abbreviation process := (process_file conv_model ctime cfg).

(** C4: a scene whose mesh exists and is at least as recent is left
    alone: nothing printed, no process, no file changed.  An equal time
    does not count as stale ([c4d_time > mesh_time] is strict). *)
Theorem process_file_up_to_date n w ms md :
  getmtime (w_fs w) n = Some ms -> getmtime (w_fs w) (mesh_name_of cfg n) = Some md ->
  ms <= md -> process n w = ROk w tt.
Proof.
  intros Hn Hm Hle. rewrite process_file_eq, Hn, Hm. simpl.
  by rewrite (proj2 (Z_gtb_false _ _)).
Qed.

(** C3: a scene whose mesh is missing, or older, is converted: one line
    is printed, then the converter runs once on [(scene, mesh)], and
    whatever its exit status the scene is done. *)
Theorem process_file_stale_converts n w ms r :
  getmtime (w_fs w) n = Some ms ->
  match getmtime (w_fs w) (mesh_name_of cfg n) with Some md => md < ms | None => True end ->
  conv_model [cfg_conv cfg; n; mesh_name_of cfg n] (w_fs w) (w_clock w) = Some r ->
  process n w =
    ROk (mkWorld (pr_fs r) (pr_clock r)
           (w_out w ++ [py "[" ++ ctime (w_clock w) ++ py "] Converting: " ++ n ++
                        py " -> " ++ mesh_name_of cfg n])
           (w_calls w ++ [[cfg_conv cfg; n; mesh_name_of cfg n]])) tt.
Proof.
  intros Hn Hm Hr. rewrite process_file_eq, Hn.
  assert (Hsc : should_convert ms (getmtime (w_fs w) (mesh_name_of cfg n)) = true).
  { destruct (getmtime _ (mesh_name_of cfg n)); [by apply Z_gtb_true | done]. }
  rewrite Hsc. unfold conv_args. by rewrite Hr.
Qed.

(** C17: the exit status of the converter is never looked at: two
    converters that leave the same files and clock give the same run. *)
Theorem process_file_ignores_status conv2 n w :
  (forall args fs t, (fun r => (pr_fs r, pr_clock r)) <$> conv_model args fs t =
                     (fun r => (pr_fs r, pr_clock r)) <$> conv2 args fs t) ->
  process n w = process_file conv2 ctime cfg n w.
Proof.
  intros Hsame. rewrite !process_file_eq.
  destruct (getmtime (w_fs w) n) as [ms|]; [|done].
  destruct (should_convert _ _); [|done].
  specialize (Hsame (conv_args cfg n) (w_fs w) (w_clock w)).
  destruct (conv_model _ _ _) as [r1|], (conv2 _ _ _) as [r2|];
    simplify_eq/=; congruence.
Qed.

(** C15: a converter that cannot be started ([OSError] from
    [subprocess.call], e.g. a missing executable) is not survived: on the
    first stale scene the exception escapes, after the line was
    printed, and ends the script with status 1. *)
Theorem process_file_converter_missing n w ms :
  getmtime (w_fs w) n = Some ms -> stale cfg (w_fs w) n = true ->
  conv_model [cfg_conv cfg; n; mesh_name_of cfg n] (w_fs w) (w_clock w) = None ->
  process n w = RRaise (after_print ctime cfg w n) OSError /\
  exit_status (process n w) = Some 1.
Proof.
  intros Hn Hst Hr. rewrite (stale_should_convert _ _ _ _ Hn) in Hst.
  rewrite process_file_eq, Hn, Hst. unfold conv_args. by rewrite Hr.
Qed.

(** C16: a scene that disappears between the listing and [getmtime] (line
    40 is outside the [try]) makes the script crash with [OSError]. *)
Theorem process_file_scene_vanished n w :
  getmtime (w_fs w) n = None -> process_file conv_model ctime cfg n w = RRaise w OSError.
Proof. intros Hn. by rewrite process_file_eq, Hn. Qed.

(** C5: the mesh name depends only on the scene's base name: for a
    scene [h.e] in any directory it is [join(output_dir, h) + '.boba']. *)
Theorem mesh_name_of_scene d h e : pm_good_dir d ->
  pm_plain (h ++ "."%char :: e) -> "."%char ∉ e -> (exists x, x ∈ h /\ x <> "."%char) ->
  mesh_name_of cfg (pm_join d (h ++ "."%char :: e)) = pm_join (cfg_output_dir cfg) h ++ py ".boba".
Proof.
  intros Hg Hp He Hh. unfold mesh_name_of.
  destruct (pm_split _) as [path filename] eqn:Hs.
  pose proof (pm_split_join_tail d _ Hg Hp) as Ht. rewrite Hs in Ht. simpl in Ht. subst filename.
  by rewrite pm_splitext_name.
Qed.
End FileTheorems.
