(* ===== verification/Loop.v ===== *)
(** * The loop [while True] (line 37) and the whole script

    [run_loop] runs the loop body [scan_pass] for a given number of
    passes, and [main] is the whole script, configuration then loop.
    What any number of passes does: every number of passes completes
    when nothing goes wrong, the loop is quiescent after its first completed pass (by induction on
    [after_pass], the worlds reached by completed passes), a converter
    that fails is run again on every pass, and the bounds of a run: [n]
    passes take at least [n] seconds (line 54) and start at most [n]
    processes per listed scene, and with a converter that takes one
    second (the [exporter]) the time of a run is exactly one second per
    pass and one per conversion. *)
From S2P Require Import Prelude PyStr GenericPath PosixPath Fnmatch FileSystem Glob Settings Reconcile.

Local Open Scope Z_scope.

(** ** The loop [while True] (line 37) and the whole script *)
Section While.
Context `{PathModule}.
Variable conv_model : Converter.
Variable ctime : Z -> pystr.
Variable cfg : Config.

(** Line 37: [while True], run for [fuel] passes; [ROk] after [fuel]
    passes means the script is still running. *)
Fixpoint run_loop (fuel : nat) : PyM World unit :=
  match fuel with
  | O => pret tt
  | S n => scan_pass conv_model ctime cfg ;;; run_loop n
  end.
End While.

(** The whole script, lines 9-54, on the platform [system]. *)
Definition main `{PathModule} (conv_model : Converter) (ctime : Z -> pystr)
    (system : pystr) (fuel : nat) : PyM World unit :=
  cfg <- configure system ;;
  run_loop conv_model ctime cfg fuel.

(** ** The loop: it never stops on its own, and runs forever when nothing
    goes wrong *)
Section Loop.
Context `{PathModuleLaws}.
Variable conv_model : Converter.
Variable ctime : Z -> pystr.
Variable cfg : Config.

Abbreviation pass := (scan_pass conv_model ctime cfg).
Abbreviation processes := (process_files conv_model ctime cfg).

(** Every listed scene exists, and scenes and meshes are distinct. *)
Definition scenes_ok (fs : FS) : Prop :=
  Forall (fun n => is_Some (getmtime fs n)) (scene_names cfg fs) /\
  separate cfg (scene_names cfg fs).

(** One turn of [while True] that completed. *)
Definition loop_step (w w' : World) : Prop := pass w = ROk w' tt.

Lemma pass_keeps_scenes_ok w :
  cfg_normal cfg -> writes_only conv_model ->
  starts conv_model (cfg_conv cfg) ->
  scenes_ok (w_fs w) -> exists w', loop_step w w' /\ scenes_ok (w_fs w').
Proof.
  intros Hcfg Hframe Hstart [Hex Hsep].
  destruct (process_files_calls conv_model ctime cfg Hframe Hstart
              (scene_names cfg (w_fs w)) w (w_fs w)) as (w1 & Hw1 & _); try done.
  pose proof (process_files_frame _ _ _ Hframe _ _ _ Hw1) as (Hm & Hd & _).
  exists (slept w1). unfold loop_step. rewrite scan_pass_eq, Hw1 by done.
  split; [done|]. unfold scenes_ok. simpl.
  rewrite (scene_names_dirs cfg (w_fs w1) (w_fs w)) by done. split; [|done].
  apply Forall_forall. intros n Hn. rewrite Hm; [by eapply Forall_forall in Hex|].
  intros (m & -> & Hm')%list_elem_of_fmap. destruct Hsep as [_ Hsep].
  by apply (Hsep (mesh_name_of cfg m) m).
Qed.

(** C20: liveness.  When the converter always starts and writes only its
    output, and the listed scenes exist and are distinct from their
    meshes, every number of passes completes: the script keeps running. *)
Theorem run_loop_completes fuel w :
  cfg_normal cfg -> writes_only conv_model ->
  starts conv_model (cfg_conv cfg) ->
  scenes_ok (w_fs w) -> exists w', run_loop conv_model ctime cfg fuel w = ROk w' tt.
Proof.
  intros Hcfg Hframe Hstart. revert w.
  induction fuel as [|fuel IH]; intros w Hok; [by exists w|].
  destruct (pass_keeps_scenes_ok w Hcfg Hframe Hstart Hok) as (w1 & Hstep & Hok1).
  simpl. unfold pbind. unfold loop_step in Hstep. rewrite Hstep. by apply IH.
Qed.

(** The worlds reached from [w0] by one completed pass or more. *)
Inductive after_pass (w0 : World) : World -> Prop :=
| ap_first w : loop_step w0 w -> after_pass w0 w
| ap_next w w' : after_pass w0 w -> loop_step w w' -> after_pass w0 w'.

(** By induction on the passes: no file in the future, scenes separate,
    and every scene up to date. *)
Lemma after_pass_settled w0 w :
  cfg_normal cfg -> writes_only conv_model -> writes_output conv_model ->
  no_future w0 -> separate cfg (scene_names cfg (w_fs w0)) -> after_pass w0 w ->
  no_future w /\ separate cfg (scene_names cfg (w_fs w)) /\
  Forall (fresh cfg (w_fs w)) (scene_names cfg (w_fs w)).
Proof.
  intros Hcfg Hframe Hout Hnf Hsep.
  induction 1 as [w Hstep | w w' _ (Hnf' & Hsep' & Hfresh) Hstep].
  - by apply (pass_settles conv_model ctime cfg w0 w).
  - unfold loop_step in Hstep. rewrite settled_pass_noop in Hstep by done. simplify_eq.
    split_and!; [by apply no_future_slept | done | done].
Qed.

(** C8: quiescence.  With a converter that writes its output and
    nothing else, no file dated in the future and scenes separate from
    their meshes, every pass after the first completed one only sleeps:
    no line printed, no process started, no file changed. *)
Theorem loop_quiescent w0 w w' :
  cfg_normal cfg -> writes_only conv_model -> writes_output conv_model ->
  no_future w0 -> separate cfg (scene_names cfg (w_fs w0)) ->
  after_pass w0 w -> loop_step w w' -> w' = slept w.
Proof.
  intros Hcfg Hframe Hout Hnf Hsep Hw Hstep.
  destruct (after_pass_settled w0 w) as (_ & _ & Hfresh); try done.
  unfold loop_step in Hstep. rewrite settled_pass_noop in Hstep by done. by simplify_eq.
Qed.
End Loop.

#[export] Instance scenes_ok_dec `{PathModule} cfg fs : Decision (scenes_ok cfg fs).
Proof. unfold scenes_ok. apply _. Defined.

(** ** A converter that fails is run again on every pass *)
Section Retry.
Context `{PathModuleLaws}.
Variable ctime : Z -> pystr.
Variable cfg : Config.
Variable code : Z.

Abbreviation processes := (process_files (failing code) ctime cfg).

Lemma process_files_failing_fs names w w' :
  processes names w = ROk w' tt -> w_fs w' = w_fs w.
Proof.
  revert w. induction names as [|n ns IH]; intros w Hp; simpl in Hp.
  { py_unfold. by simplify_eq. }
  unfold pbind in Hp. rewrite process_file_eq in Hp.
  repeat (case_match; simplify_eq/=); by apply IH in Hp.
Qed.

(** C18: a converter that starts but fails without writing the mesh (its
    exit status is never looked at) is run again on every pass: after
    [k] passes the files are as they were and the converter has been
    called [k] times on every stale scene, in listing order. *)
Theorem failing_converter_retried k w :
  cfg_normal cfg -> scenes_ok cfg (w_fs w) ->
  exists w', run_loop (failing code) ctime cfg k w = ROk w' tt /\ w_fs w' = w_fs w /\
    w_calls w' = w_calls w ++
      concat (replicate k (expected_calls cfg (w_fs w) (scene_names cfg (w_fs w)))).
Proof.
  intros Hcfg. revert w. induction k as [|k IH]; intros w [Hex Hsep].
  { exists w. by rewrite app_nil_r. }
  destruct (process_files_calls (failing code) ctime cfg (failing_writes_only code)
              (failing_starts code _) (scene_names cfg (w_fs w)) w (w_fs w))
    as (w1 & Hw1 & Hc); try done.
  pose proof (process_files_failing_fs _ _ _ Hw1) as Hfs.
  destruct (IH (slept w1)) as (w' & Hrun & Hfs' & Hc'); [simpl; rewrite Hfs; by split|].
  exists w'. cbn [run_loop]. unfold pbind at 1. rewrite scan_pass_eq, Hw1 by done.
  simpl in Hfs', Hc'. rewrite Hfs in Hfs', Hc'. rewrite Hrun.
  split_and!; [done | done |]. rewrite Hc', Hc. simpl. by rewrite <- app_assoc.
Qed.
End Retry.

(** ** The whole script *)
Section Script.
Context `{PathModuleLaws}.
Variable conv_model : Converter.
Variable ctime : Z -> pystr.

(** C10: on a platform the table does not know, the script never scans:
    it crashes with [AttributeError] at line 25 before printing
    anything or starting any process, so the user gets a traceback and
    status 1, not the message of line 22. *)
Theorem main_unknown_platform system fuel w :
  SETTINGS !! system = None ->
  main conv_model ctime system fuel w = RRaise w AttributeError /\
  exit_status (main conv_model ctime system fuel w) = Some 1%Z.
Proof. intros Hs. unfold main, configure, configure_in, pbind. rewrite Hs. done. Qed.

(** On Windows the script is the loop with the table's configuration. *)
Lemma main_windows fuel w :
  main conv_model ctime (py "Windows") fuel w =
    run_loop conv_model ctime
      (mkConfig (pm_normpath (py "d:/onedrive/tano/c4d")) (pm_normpath (py "d:/projects/tano/gfx"))
                (py "D:/projects/melange_exporter/_win32/Release/exporter.exe")) fuel w.
Proof. unfold main. unfold pbind at 1. by vm_compute (configure _ w). Qed.
End Script.

(** ** Time and processes: the bounds of a run *)
(** A converter that runs for one second, as [exporter] does. *)
Definition one_second (conv : Converter) : Prop :=
  forall args fs t r, conv args fs t = Some r -> pr_clock r = t + 1.

Lemma exporter_one_second exe : one_second (exporter exe).
Proof. intros [|e [|src [|dst []]]] fs t r; simpl; try done. repeat case_match; naive_solver. Qed.

Section Bounds.
Context `{PathModuleLaws}.
Variable conv_model : Converter.
Variable ctime : Z -> pystr.
Variable cfg : Config.

Abbreviation processes := (process_files conv_model ctime cfg).

(** A completed [process_file] left the world alone or made one call. *)
Lemma process_file_ok_cases n w w' :
  process_file conv_model ctime cfg n w = ROk w' tt ->
  w' = w \/ exists r, conv_model (conv_args cfg n) (w_fs w) (w_clock w) = Some r /\
    w' = mkWorld (pr_fs r) (pr_clock r) (w_out (after_print ctime cfg w n))
                 (w_calls w ++ [conv_args cfg n]).
Proof. rewrite process_file_eq. intros Hp. repeat (case_match; simplify_eq/=); naive_solver. Qed.

(** [processes names] appends at most one call per name, and with a
    one-second converter takes one second per call. *)
Lemma process_files_count names w w' :
  processes names w = ROk w' tt ->
  exists c, w_calls w' = w_calls w ++ c /\ (length c <= length names)%nat /\
    (one_second conv_model -> w_clock w' = w_clock w + Z.of_nat (length c)).
Proof.
  revert w. induction names as [|n ns IH]; intros w Hp; simpl in Hp.
  { unfold pret in Hp. simplify_eq. exists []. rewrite app_nil_r. split_and!; simpl; done || lia. }
  unfold pbind in Hp. destruct (process_file _ _ _ n w) as [w1 []| |] eqn:E; try done.
  destruct (IH _ Hp) as (c & Hc & Hlen & Ht).
  destruct (process_file_ok_cases _ _ _ E) as [->|(r & Hr & ->)].
  - exists c. simpl. split_and!; [done|lia|done].
  - exists (conv_args cfg n :: c). simpl in *. rewrite Hc, <- app_assoc.
    split_and!; [done|lia|]. intros H1. rewrite Ht, (H1 _ _ _ _ Hr) by done. lia.
Qed.

(** One pass: [time.sleep(1)] after the calls of [processes]. *)
Lemma scan_pass_count w w' :
  scan_pass conv_model ctime cfg w = ROk w' tt ->
  exists names c, py_glob (c4d_pattern cfg) w = ROk w names /\
    processes names w = ROk (mkWorld (w_fs w') (w_clock w' - 1) (w_out w') (w_calls w')) tt /\
    w_calls w' = w_calls w ++ c /\ (length c <= length names)%nat /\
    (one_second conv_model -> w_clock w' = w_clock w + 1 + Z.of_nat (length c)).
Proof.
  unfold scan_pass. intros Hp. unfold pbind at 1 in Hp.
  destruct (py_glob _ w) as [w0 names| |] eqn:Hg; try done.
  assert (w0 = w) as ->.
  { unfold py_glob in Hg. py_unfold. destruct (glob _ _); unfold pret, praise in Hg; by simplify_eq. }
  unfold pbind in Hp.
  destruct (processes names w) as [w1 []| |] eqn:E; try done.
  unfold sleep, pmodify in Hp. simplify_eq/=.
  destruct (process_files_count _ _ _ E) as (c & Hc & Hlen & Ht).
  exists names, c. destruct w1 as [fs1 t1 out1 calls1]. simpl in *. replace (t1 + 1 - 1) with t1 by lia.
  split_and!; [done|done|done|done|]. intros H1. rewrite Ht by done. lia.
Qed.
(** C34: bounds of a run.  When the input directory is as configured
    and the converter writes only its output, [fuel] completed passes
    take at least [fuel] seconds ([time.sleep(1)] at line 54, the
    converter never turning the clock back), leave the directory
    listings as they were, and start at most [fuel] processes per scene
    listed at the start: line 53 runs at most once per scene and pass. *)
Theorem run_loop_bounds fuel w w' :
  cfg_normal cfg -> writes_only conv_model ->
  run_loop conv_model ctime cfg fuel w = ROk w' tt ->
  w_clock w + Z.of_nat fuel <= w_clock w' /\ fs_dirs (w_fs w') = fs_dirs (w_fs w) /\
  exists c, w_calls w' = w_calls w ++ c /\
    (length c <= fuel * length (scene_names cfg (w_fs w)))%nat.
Proof.
  intros Hcfg Hframe. revert w. induction fuel as [|fuel IH]; intros w Hp; simpl in Hp.
  { unfold pret in Hp. simplify_eq. split_and!; [lia|done|]. exists []. by rewrite app_nil_r. }
  unfold pbind in Hp. destruct (scan_pass _ _ _ w) as [w1 []| |] eqn:E; try done.
  destruct (scan_pass_count _ _ E) as (names & c1 & Hg & Hps & Hc1 & Hlen1 & _).
  rewrite py_glob_scenes in Hg by done. simplify_eq.
  destruct (process_files_frame _ _ _ Hframe _ _ _ Hps) as (_ & Hd1 & Ht1). simpl in Hd1, Ht1.
  destruct (IH _ Hp) as (Ht2 & Hd2 & c2 & Hc2 & Hlen2).
  rewrite (scene_names_dirs cfg (w_fs w1) (w_fs w)) in Hlen2 by done.
  split_and!; [lia|congruence|]. exists (c1 ++ c2). rewrite Hc2, Hc1, app_assoc.
  split; [done|]. rewrite length_app. lia.
Qed.

(** C35: the time of a run, exactly.  With a converter that runs for
    one second (the [exporter]), the calls of [fuel] completed passes
    are appended to [w_calls] and the clock advanced by one second per
    pass plus one per call: the script spends its time sleeping and
    converting, nothing else, whatever the directory holds. *)
Theorem run_loop_time fuel w w' :
  one_second conv_model ->
  run_loop conv_model ctime cfg fuel w = ROk w' tt ->
  exists c, w_calls w' = w_calls w ++ c /\
    w_clock w' = w_clock w + Z.of_nat fuel + Z.of_nat (length c).
Proof.
  intros H1. revert w. induction fuel as [|fuel IH]; intros w Hp; simpl in Hp.
  { unfold pret in Hp. simplify_eq. exists []. rewrite app_nil_r. split; [done|simpl; lia]. }
  unfold pbind in Hp. destruct (scan_pass _ _ _ w) as [w1 []| |] eqn:E; try done.
  destruct (scan_pass_count _ _ E) as (names & c1 & _ & _ & Hc1 & _ & Ht1).
  destruct (IH _ Hp) as (c2 & Hc2 & Ht2).
  exists (c1 ++ c2). rewrite Hc2, Hc1, app_assoc, length_app, Ht2, Ht1 by done.
  split; [done|lia].
Qed.
End Bounds.
