(* ===== verification/Trace.v ===== *)
(** * What the script prints: a log of its conversions

    The two observable traces of a run are stdout ([w_out]) and the
    processes started ([w_calls]).  [log_wf]: every line printed is line
    52's announcement of the call line 53 made right after it, in the
    same order, so stdout is a faithful log of the conversions; every
    operation of the loop keeps it. *)
From S2P Require Import Prelude PyStr GenericPath PosixPath Fnmatch FileSystem Glob Settings Reconcile Loop.

Local Open Scope Z_scope.

(** ** The log: one announcement per call *)
Section Log.
Context `{PathModule}.
Variable conv_model : Converter.
Variable ctime : Z -> pystr.
Variable cfg : Config.

(** [line] is line 52's announcement of the call [args] of line 53. *)
Definition announces (line : pystr) (args : list pystr) : Prop :=
  exists t src dst, args = [cfg_conv cfg; src; dst] /\ line = converting_line ctime t src dst.

Definition log_wf (w : World) : Prop := Forall2 announces (w_out w) (w_calls w).

Lemma log_wf_snoc w line args :
  log_wf w -> announces line args ->
  Forall2 announces (w_out w ++ [line]) (w_calls w ++ [args]).
Proof. intros Hw Ha. apply Forall2_app; [done|]. by constructor. Qed.

Lemma process_file_log n w w' :
  log_wf w -> process_file conv_model ctime cfg n w = ROk w' tt -> log_wf w'.
Proof.
  rewrite process_file_eq. intros Hw Hp.
  repeat (case_match; simplify_eq/=); try done.
  apply log_wf_snoc; [done|]. by eexists _, _, _.
Qed.

Lemma process_files_log names w w' :
  log_wf w -> process_files conv_model ctime cfg names w = ROk w' tt -> log_wf w'.
Proof.
  revert w. induction names as [|n ns IH]; intros w Hw Hp; simpl in Hp.
  { unfold pret in Hp. by simplify_eq. }
  unfold pbind in Hp. destruct (process_file _ _ _ n w) as [w1 []| |] eqn:E; try done.
  apply (IH w1); [|done]. by apply (process_file_log n w).
Qed.

Lemma scan_pass_log w w' :
  log_wf w -> scan_pass conv_model ctime cfg w = ROk w' tt -> log_wf w'.
Proof.
  unfold scan_pass, py_glob. py_unfold. intros Hw Hp.
  destruct (glob _ _) as [names|]; simpl in Hp; [|done].
  destruct (process_files _ _ _ names w) as [w1 []| |] eqn:E; try done.
  unfold sleep, pmodify in Hp. simplify_eq. unfold log_wf. simpl. by apply (process_files_log names w).
Qed.

(** C33: the type of the output.  Whatever the converter does, after
    any number of completed passes stdout and the list of processes
    started correspond line for call: the [i]-th line printed is
    ['[<ctime>] Converting: <src> -> <dst>'] and the [i]-th process is
    [converter src dst], when this held at the start (an empty log). *)
Theorem run_loop_log_wf fuel w w' :
  log_wf w -> run_loop conv_model ctime cfg fuel w = ROk w' tt -> log_wf w'.
Proof.
  revert w. induction fuel as [|fuel IH]; intros w Hw Hp; simpl in Hp.
  { unfold pret in Hp. by simplify_eq. }
  unfold pbind in Hp. destruct (scan_pass _ _ _ w) as [w1 []| |] eqn:E; try done.
  apply (IH w1); [|done]. by apply (scan_pass_log w).
Qed.
End Log.
