(* ===== verification/Scenario.v ===== *)
(** * Concrete runs on a POSIX host

    The scenario of the specification, and the witnesses of the theorems
    of [Reconcile], [Loop] and [Trace]: each applies its theorem on these
    definitions, the hypotheses evaluated by [vm_compute] or [decide]. *)
From S2P Require Import Prelude PyStr Ctime GenericPath PosixPath Fnmatch FileSystem Glob Settings Reconcile Loop Trace.

Local Open Scope Z_scope.

(** * The scenario of the specification, on a POSIX host

    The input directory [/in] holds [foo.c4d] (time 10), a hidden scene
    [.h.c4d] and a text file; [/out] holds no mesh; the clock reads 20.
    The converter is [exporter exe]. *)
Module Scenario.

Definition exe : pystr := py "exe".

Definition cfg0 : Config :=
  mkConfig (PosixPath.normpath (py "/in")) (PosixPath.normpath (py "/out")) exe.

Definition fs0 : FS :=
  mkFS (<[py "/in/foo.c4d" := 10%Z]> (<[py "/in/.h.c4d" := 10%Z]> ∅))
       (<[py "/in" := [py "foo.c4d"; py ".h.c4d"; py "x.txt"]]> ∅).

Definition w0 : World := mkWorld fs0 20 [] [].

(** [time.ctime()] on a UTC host; the clocks of the scenario are in
    the range where it returns ([Ctime.time_ctime_newline]). *)
Definition ct (t : Z) : pystr := default [] (Ctime.time_ctime 0 t).

Definition conv0 : Converter := exporter exe.

(** The world after the first pass. *)
Definition w1 : World := res_state (scan_pass conv0 ct cfg0 w0).

Lemma cfg0_normal : cfg_normal cfg0.
Proof.
  split_and!; [by exists (py "/in"); split | by vm_compute | done |].
  split; [done|]. apply (bool_decide_unpack _). by vm_compute.
Qed.

Lemma scenes_ok0 : scenes_ok cfg0 (w_fs w0).
Proof. apply (bool_decide_unpack _). by vm_compute. Qed.

Lemma scan_pass_refines_witness :
  cfg_normal cfg0 /\ writes_only conv0 /\ starts conv0 (cfg_conv cfg0) /\
  Forall (fun n => is_Some (getmtime (w_fs w0) n)) (scene_names cfg0 (w_fs w0)) /\
  separate cfg0 (scene_names cfg0 (w_fs w0)) /\
  exists w', scan_pass conv0 ct cfg0 w0 = ROk w' tt /\
    w_calls w' = w_calls w0 ++ expected_calls cfg0 (w_fs w0) (scene_names cfg0 (w_fs w0)) /\
    w_clock w0 + 1 <= w_clock w'.
Proof.
  pose proof scenes_ok0 as [Hex Hsep].
  split_and!; [apply cfg0_normal | apply exporter_writes_only | apply exporter_starts
              | exact Hex | exact Hsep |].
  apply scan_pass_refines;
    [apply cfg0_normal | apply exporter_writes_only | apply exporter_starts | exact Hex | exact Hsep].
Defined.

Lemma scan_pass_idempotent_witness :
  cfg_normal cfg0 /\ writes_only conv0 /\ writes_output conv0 /\ no_future w0 /\
  separate cfg0 (scene_names cfg0 (w_fs w0)) /\ scan_pass conv0 ct cfg0 w0 = ROk w1 tt /\
  scan_pass conv0 ct cfg0 w1 = ROk (slept w1) tt.
Proof.
  assert (Hnf : no_future w0) by (apply (bool_decide_unpack _); by vm_compute).
  assert (Hp : scan_pass conv0 ct cfg0 w0 = ROk w1 tt) by (by vm_compute).
  pose proof scenes_ok0 as [_ Hsep].
  split_and!; [apply cfg0_normal | apply exporter_writes_only | apply exporter_writes_output
              | exact Hnf | exact Hsep | exact Hp |].
  apply (scan_pass_idempotent conv0 ct cfg0 w0);
    [apply cfg0_normal | apply exporter_writes_only | apply exporter_writes_output
    | exact Hnf | exact Hsep | exact Hp].
Defined.

Lemma scan_pass_all_fresh_witness :
  cfg_normal cfg0 /\ writes_only conv0 /\ writes_output conv0 /\ no_future w0 /\
  separate cfg0 (scene_names cfg0 (w_fs w0)) /\ scan_pass conv0 ct cfg0 w0 = ROk w1 tt /\
  py "/in/foo.c4d" ∈ scene_names cfg0 (w_fs w1) /\
  exists ms md, getmtime (w_fs w1) (py "/in/foo.c4d") = Some ms /\
    getmtime (w_fs w1) (mesh_name_of cfg0 (py "/in/foo.c4d")) = Some md /\ ms <= md.
Proof.
  assert (Hnf : no_future w0) by (apply (bool_decide_unpack _); by vm_compute).
  assert (Hp : scan_pass conv0 ct cfg0 w0 = ROk w1 tt) by (by vm_compute).
  assert (Hn : py "/in/foo.c4d" ∈ scene_names cfg0 (w_fs w1))
    by (apply (bool_decide_unpack _); by vm_compute).
  pose proof scenes_ok0 as [_ Hsep].
  split_and!; [apply cfg0_normal | apply exporter_writes_only | apply exporter_writes_output
              | exact Hnf | exact Hsep | exact Hp | exact Hn |].
  apply (scan_pass_all_fresh conv0 ct cfg0 w0 w1);
    [apply cfg0_normal | apply exporter_writes_only | apply exporter_writes_output
    | exact Hnf | exact Hsep | exact Hp | exact Hn].
Defined.

Lemma failing_converter_retried_witness :
  cfg_normal cfg0 /\ scenes_ok cfg0 (w_fs w0) /\
  exists w', run_loop (failing 1) ct cfg0 3 w0 = ROk w' tt /\ w_fs w' = w_fs w0 /\
    w_calls w' = w_calls w0 ++
      concat (replicate 3 (expected_calls cfg0 (w_fs w0) (scene_names cfg0 (w_fs w0)))).
Proof.
  split_and!; [apply cfg0_normal | apply scenes_ok0 |].
  exact (failing_converter_retried ct cfg0 1 3 w0 cfg0_normal scenes_ok0).
Defined.

Lemma loop_quiescent_witness :
  cfg_normal cfg0 /\ writes_only conv0 /\ writes_output conv0 /\ no_future w0 /\
  separate cfg0 (scene_names cfg0 (w_fs w0)) /\
  after_pass conv0 ct cfg0 w0 w1 /\ loop_step conv0 ct cfg0 w1 (res_state (scan_pass conv0 ct cfg0 w1)) /\
  res_state (scan_pass conv0 ct cfg0 w1) = slept w1.
Proof.
  assert (Hnf : no_future w0) by (apply (bool_decide_unpack _); by vm_compute).
  assert (Ha : after_pass conv0 ct cfg0 w0 w1) by (apply ap_first; unfold loop_step; by vm_compute).
  assert (Hs : loop_step conv0 ct cfg0 w1 (res_state (scan_pass conv0 ct cfg0 w1)))
    by (unfold loop_step; by vm_compute).
  pose proof scenes_ok0 as [_ Hsep].
  split_and!; [apply cfg0_normal | apply exporter_writes_only | apply exporter_writes_output
              | exact Hnf | exact Hsep | exact Ha | exact Hs |].
  exact (loop_quiescent conv0 ct cfg0 w0 w1 _ cfg0_normal (exporter_writes_only exe)
           (exporter_writes_output exe) Hnf Hsep Ha Hs).
Defined.

Lemma posix_scenes_separate_witness :
  listdir fs0 (cfg_input_dir cfg0) = Some [py "foo.c4d"; py ".h.c4d"; py "x.txt"] /\
  NoDup [py "foo.c4d"; py ".h.c4d"; py "x.txt"] /\
  Forall PosixPath.plain [py "foo.c4d"; py ".h.c4d"; py "x.txt"] /\
  separate cfg0 (scene_names cfg0 fs0).
Proof.
  assert (Hl : listdir fs0 (cfg_input_dir cfg0) = Some [py "foo.c4d"; py ".h.c4d"; py "x.txt"])
    by (by vm_compute).
  assert (Hnd : NoDup [py "foo.c4d"; py ".h.c4d"; py "x.txt"])
    by (apply (bool_decide_unpack _); by vm_compute).
  assert (Hpl : Forall PosixPath.plain [py "foo.c4d"; py ".h.c4d"; py "x.txt"])
    by (apply (bool_decide_unpack _); by vm_compute).
  split_and!; [exact Hl | exact Hnd | exact Hpl |].
  exact (posix_scenes_separate cfg0 fs0 _ Hl Hnd Hpl).
Defined.

Lemma scan_pass_no_input_dir_witness :
  cfg_normal cfg0 /\ listdir (mkFS ∅ ∅) (cfg_input_dir cfg0) = None /\
  scan_pass conv0 ct cfg0 (mkWorld (mkFS ∅ ∅) 20 [] []) =
    ROk (slept (mkWorld (mkFS ∅ ∅) 20 [] [])) tt.
Proof.
  split_and!; [apply cfg0_normal | done |].
  apply scan_pass_no_input_dir; [apply cfg0_normal | done].
Defined.

Lemma scan_pass_calls_scenes_witness :
  cfg_normal cfg0 /\ scan_pass conv0 ct cfg0 w0 = ROk w1 tt /\
  exists l, w_calls w1 = w_calls w0 ++ l /\
    forall a, a ∈ l -> exists names name,
      listdir (w_fs w0) (cfg_input_dir cfg0) = Some names /\ name ∈ names /\
      not_hidden name /\ py ".c4d" `suffix_of` pm_normcase name /\
      a = [cfg_conv cfg0; pm_join (cfg_input_dir cfg0) name;
           mesh_name_of cfg0 (pm_join (cfg_input_dir cfg0) name)].
Proof.
  assert (Hp : scan_pass conv0 ct cfg0 w0 = ROk w1 tt) by (by vm_compute).
  split_and!; [apply cfg0_normal | done |].
  apply (scan_pass_calls_scenes conv0 ct cfg0 w0 w1); [apply cfg0_normal | done].
Defined.

Lemma process_file_up_to_date_witness :
  let w := mkWorld (mkFS (<[py "/in/foo.c4d" := 10%Z]> (<[py "/out/foo.boba" := 10%Z]> ∅)) ∅)
                   20 [] [] in
  getmtime (w_fs w) (py "/in/foo.c4d") = Some 10 /\
  getmtime (w_fs w) (mesh_name_of cfg0 (py "/in/foo.c4d")) = Some 10 /\ 10 <= 10 /\
  process_file conv0 ct cfg0 (py "/in/foo.c4d") w = ROk w tt.
Proof.
  intros w. split_and!; [by vm_compute | by vm_compute | lia |].
  apply (process_file_up_to_date conv0 ct cfg0 _ _ 10 10); [by vm_compute | by vm_compute | lia].
Defined.

Lemma process_file_stale_converts_witness :
  let r := mkProc (touch fs0 (py "/out/foo.boba") 21) 21 0 in
  getmtime (w_fs w0) (py "/in/foo.c4d") = Some 10 /\
  match getmtime (w_fs w0) (mesh_name_of cfg0 (py "/in/foo.c4d")) with
  | Some md => md < 10 | None => True end /\
  conv0 [cfg_conv cfg0; py "/in/foo.c4d"; mesh_name_of cfg0 (py "/in/foo.c4d")]
        (w_fs w0) (w_clock w0) = Some r /\
  process_file conv0 ct cfg0 (py "/in/foo.c4d") w0 =
    ROk (mkWorld (pr_fs r) (pr_clock r)
           (w_out w0 ++ [py "[" ++ ct (w_clock w0) ++ py "] Converting: " ++ py "/in/foo.c4d" ++
                         py " -> " ++ mesh_name_of cfg0 (py "/in/foo.c4d")])
           (w_calls w0 ++ [[cfg_conv cfg0; py "/in/foo.c4d"; mesh_name_of cfg0 (py "/in/foo.c4d")]])) tt.
Proof.
  intros r. split_and!; [by vm_compute | by vm_compute | by vm_compute |].
  apply (process_file_stale_converts conv0 ct cfg0 _ _ 10); by vm_compute.
Defined.

(** A converter that leaves the same files as [conv0] but always fails. *)
Definition conv_failing : Converter :=
  fun args fs t => (fun r => mkProc (pr_fs r) (pr_clock r) 1) <$> conv0 args fs t.

Lemma conv_failing_same args fs t :
  (fun r => (pr_fs r, pr_clock r)) <$> conv0 args fs t =
  (fun r => (pr_fs r, pr_clock r)) <$> conv_failing args fs t.
Proof. unfold conv_failing. by destruct (conv0 args fs t). Qed.

Lemma process_file_ignores_status_witness :
  (forall args fs t, (fun r => (pr_fs r, pr_clock r)) <$> conv0 args fs t =
                     (fun r => (pr_fs r, pr_clock r)) <$> conv_failing args fs t) /\
  process_file conv0 ct cfg0 (py "/in/foo.c4d") w0 =
    process_file conv_failing ct cfg0 (py "/in/foo.c4d") w0.
Proof.
  split; [apply conv_failing_same|].
  apply process_file_ignores_status. apply conv_failing_same.
Defined.

(** The configuration names an executable the converter is not. *)
Definition cfg_missing : Config := mkConfig (cfg_input_dir cfg0) (cfg_output_dir cfg0) (py "gone.exe").

Lemma process_file_converter_missing_witness :
  getmtime (w_fs w0) (py "/in/foo.c4d") = Some 10 /\
  stale cfg_missing (w_fs w0) (py "/in/foo.c4d") = true /\
  conv0 [cfg_conv cfg_missing; py "/in/foo.c4d"; mesh_name_of cfg_missing (py "/in/foo.c4d")]
        (w_fs w0) (w_clock w0) = None /\
  process_file conv0 ct cfg_missing (py "/in/foo.c4d") w0 =
    RRaise (after_print ct cfg_missing w0 (py "/in/foo.c4d")) OSError /\
  exit_status (process_file conv0 ct cfg_missing (py "/in/foo.c4d") w0) = Some 1.
Proof.
  split_and!; [by vm_compute | by vm_compute | by vm_compute | |];
    apply (process_file_converter_missing conv0 ct cfg_missing _ _ 10); by vm_compute.
Defined.

Lemma process_file_scene_vanished_witness :
  getmtime (w_fs w0) (py "/in/bar.c4d") = None /\
  process_file conv0 ct cfg0 (py "/in/bar.c4d") w0 = RRaise w0 OSError.
Proof. split; [by vm_compute | apply process_file_scene_vanished; by vm_compute]. Defined.

Lemma mesh_name_of_scene_witness :
  pm_good_dir (py "/anywhere") /\ pm_plain (py "foo" ++ "."%char :: py "c4d") /\ "."%char ∉ py "c4d" /\
  (exists x, x ∈ py "foo" /\ x <> "."%char) /\
  mesh_name_of cfg0 (pm_join (py "/anywhere") (py "foo" ++ "."%char :: py "c4d")) =
    pm_join (cfg_output_dir cfg0) (py "foo") ++ py ".boba".
Proof.
  assert (Hp : pm_plain (py "foo" ++ "."%char :: py "c4d")).
  { split; [done|]. apply (bool_decide_unpack _). by vm_compute. }
  assert (He : "."%char ∉ py "c4d") by (apply (bool_decide_unpack _); by vm_compute).
  assert (Hh : exists x, x ∈ py "foo" /\ x <> "."%char) by (exists "f"%char; split; [left | done]).
  split_and!; [exact I | exact Hp | exact He | exact Hh |].
  exact (mesh_name_of_scene cfg0 (py "/anywhere") (py "foo") (py "c4d") I Hp He Hh).
Defined.

Lemma run_loop_completes_witness :
  cfg_normal cfg0 /\ writes_only conv0 /\ starts conv0 (cfg_conv cfg0) /\ scenes_ok cfg0 (w_fs w0) /\
  exists w', run_loop conv0 ct cfg0 3 w0 = ROk w' tt.
Proof.
  split_and!; [apply cfg0_normal | apply exporter_writes_only | apply exporter_starts | apply scenes_ok0 |].
  apply run_loop_completes;
    [apply cfg0_normal | apply exporter_writes_only | apply exporter_starts | apply scenes_ok0].
Defined.

Lemma main_unknown_platform_witness :
  SETTINGS !! py "Linux" = None /\
  main conv0 ct (py "Linux") 5 w0 = RRaise w0 AttributeError /\
  exit_status (main conv0 ct (py "Linux") 5 w0) = Some 1%Z.
Proof.
  assert (Hs : SETTINGS !! py "Linux" = None) by (by vm_compute).
  split; [done|]. by apply main_unknown_platform.
Defined.

(** The world after three passes. *)
Definition w3 : World := res_state (run_loop conv0 ct cfg0 3 w0).

Lemma run_loop_log_wf_witness :
  log_wf ct cfg0 w0 /\ run_loop conv0 ct cfg0 3 w0 = ROk w3 tt /\ log_wf ct cfg0 w3 /\
  length (w_out w3) = 1%nat.
Proof.
  assert (Hl : log_wf ct cfg0 w0) by constructor.
  assert (Hr : run_loop conv0 ct cfg0 3 w0 = ROk w3 tt) by (by vm_compute).
  split_and!; [exact Hl | exact Hr | | by vm_compute].
  exact (run_loop_log_wf conv0 ct cfg0 3 w0 w3 Hl Hr).
Defined.

Lemma run_loop_bounds_witness :
  cfg_normal cfg0 /\ writes_only conv0 /\ run_loop conv0 ct cfg0 3 w0 = ROk w3 tt /\
  length (scene_names cfg0 (w_fs w0)) = 1%nat /\
  w_clock w0 + Z.of_nat 3 <= w_clock w3 /\ fs_dirs (w_fs w3) = fs_dirs (w_fs w0) /\
  exists c, w_calls w3 = w_calls w0 ++ c /\ (length c <= 3 * length (scene_names cfg0 (w_fs w0)))%nat.
Proof.
  assert (Hr : run_loop conv0 ct cfg0 3 w0 = ROk w3 tt) by (by vm_compute).
  refine (conj cfg0_normal (conj (exporter_writes_only exe) (conj Hr (conj _ _))));
    [by vm_compute |].
  exact (run_loop_bounds conv0 ct cfg0 3 w0 w3 cfg0_normal (exporter_writes_only exe) Hr).
Defined.

Lemma run_loop_time_witness :
  one_second conv0 /\ run_loop conv0 ct cfg0 3 w0 = ROk w3 tt /\ w_clock w3 = 24 /\
  exists c, w_calls w3 = w_calls w0 ++ c /\
    w_clock w3 = w_clock w0 + Z.of_nat 3 + Z.of_nat (length c).
Proof.
  assert (Hr : run_loop conv0 ct cfg0 3 w0 = ROk w3 tt) by (by vm_compute).
  split_and!; [apply exporter_one_second | exact Hr | by vm_compute |].
  exact (run_loop_time conv0 ct cfg0 3 w0 w3 (exporter_one_second exe) Hr).
Defined.

End Scenario.
