(* ===== verification/Windows.v ===== *)
(** * The script as it is configured: a Windows host

    With [os.path = ntpath] the Windows entry of [SETTINGS] (the only
    one that reaches the loop) meets the assumptions of the loop's
    theorems ([windows_cfg_normal]), so the first pass of the whole
    script on Windows converts exactly the stale scenes of
    [d:\onedrive\tano\c4d], matched after [ntpath.normcase], into
    [d:\projects\tano\gfx] ([windows_main_first_pass]).  A concrete
    run: the scene [Ship.C4D] (upper-case extension) is converted once,
    its lock file and a text file are not, and the second pass does
    nothing. *)
From S2P Require Import Prelude PyStr GenericPath NtPath FileSystem Glob Settings Reconcile Loop.

Local Open Scope Z_scope.

Module Windows.
#[local] Existing Instance nt_path | 0.

(** The configuration lines 19-35 produce on Windows ([configure_windows]). *)
Definition cfg_win : Config :=
  mkConfig (pm_normpath (py "d:/onedrive/tano/c4d")) (pm_normpath (py "d:/projects/tano/gfx"))
           (py "D:/projects/melange_exporter/_win32/Release/exporter.exe").

Definition input_dir : pystr := py "d:\onedrive\tano\c4d".
Definition scene : pystr := py "d:\onedrive\tano\c4d\Ship.C4D".
Definition mesh : pystr := py "d:\projects\tano\gfx\Ship.boba".

(** The input directory holds a scene, the converter's lock file (hidden)
    and notes; the mesh exists but is older than the scene. *)
Definition fs_win : FS :=
  mkFS (<[scene := 100]> (<[py "d:\onedrive\tano\c4d\.~Ship.c4d" := 100]>
         (<[py "d:\onedrive\tano\c4d\notes.txt" := 10]> (<[mesh := 50]> ∅))))
       (<[input_dir := [py "Ship.C4D"; py ".~Ship.c4d"; py "notes.txt"]]> ∅).

Definition w_win : World := mkWorld fs_win 200 [] [].

Definition ctime_win (t : Z) : pystr := py "Mon Nov  9 10:00:00 2026".

Definition exe : pystr := cfg_conv cfg_win.

(** On Windows the configured input directory is a normalised path
    with a drive letter and no glob magic, and ['*.c4d'] is unchanged by
    [normcase] and a plain name: the assumptions under which the loop's
    theorems were proved hold of the configured program. *)
Lemma windows_cfg_normal : cfg_normal cfg_win /\ cfg_input_dir cfg_win = input_dir.
Proof.
  split; [|by vm_compute]. split_and!.
  - exists (py "d:/onedrive/tano/c4d"). split; [by eexists _, _ | done].
  - by vm_compute.
  - by vm_compute.
  - split_and!; [done | | |]; apply (bool_decide_unpack _); by vm_compute.
Qed.

(** The whole script on Windows over [fs_win], two passes of [while
    True]: the scene is converted once to [d:\projects\tano\gfx\Ship.boba]
    with one line printed, the hidden lock file and the text file are
    left alone, and the second pass only sleeps. *)
Example windows_run :
  main (exporter exe) ctime_win (py "Windows") 2 w_win =
    ROk (mkWorld (touch fs_win mesh 201) 203
           [py "[Mon Nov  9 10:00:00 2026] Converting: " ++ scene ++ py " -> " ++ mesh]
           [[exe; scene; mesh]]) tt.
Proof. vm_compute. reflexivity. Qed.
(** C9: the configured script on Windows.  For every world and every
    converter that starts and writes only its output, when the scenes
    listed in the configured input directory exist and are distinct from
    their meshes, the first pass of [main] on ['Windows'] completes and
    starts exactly [[exe, scene, mesh]] for each stale scene, in listing
    order: the scenes are the non-hidden names of
    [d:\onedrive\tano\c4d] whose [ntpath.normcase] ends with [.c4d]
    (so [X.C4D] too), and their meshes are in [d:\projects\tano\gfx]. *)
Theorem windows_main_first_pass conv ct w :
  writes_only conv -> starts conv exe ->
  Forall (fun n => is_Some (getmtime (w_fs w) n)) (scene_names cfg_win (w_fs w)) ->
  separate cfg_win (scene_names cfg_win (w_fs w)) ->
  exists w', main conv ct (py "Windows") 1 w = ROk w' tt /\
    w_calls w' = w_calls w ++ expected_calls cfg_win (w_fs w) (scene_names cfg_win (w_fs w)).
Proof.
  intros Hframe Hstart Hex Hsep. rewrite main_windows. fold cfg_win. simpl. unfold pbind.
  destruct (pass_expected_calls conv ct cfg_win w (proj1 windows_cfg_normal) Hframe Hstart Hex Hsep)
    as (w' & Hp & Hc & _).
  rewrite Hp. by exists w'.
Qed.

Lemma windows_main_first_pass_witness :
  writes_only (exporter exe) /\ starts (exporter exe) exe /\
  Forall (fun n => is_Some (getmtime fs_win n)) (scene_names cfg_win fs_win) /\
  separate cfg_win (scene_names cfg_win fs_win) /\
  expected_calls cfg_win fs_win (scene_names cfg_win fs_win) = [[exe; scene; mesh]] /\
  exists w', main (exporter exe) ctime_win (py "Windows") 1 w_win = ROk w' tt /\
    w_calls w' = w_calls w_win ++ expected_calls cfg_win (w_fs w_win) (scene_names cfg_win (w_fs w_win)).
Proof.
  assert (Hex : Forall (fun n => is_Some (getmtime fs_win n)) (scene_names cfg_win fs_win))
    by (apply (bool_decide_unpack _); by vm_compute).
  assert (Hsep : separate cfg_win (scene_names cfg_win fs_win))
    by (apply (bool_decide_unpack _); by vm_compute).
  split_and!; [apply exporter_writes_only | apply exporter_starts | exact Hex | exact Hsep
              | by vm_compute |].
  exact (windows_main_first_pass (exporter exe) ctime_win w_win (exporter_writes_only exe)
           (exporter_starts exe) Hex Hsep).
Defined.
End Windows.
